(** * Multi-OEM contractor resolution and lead scoring

    A shallow embedding of the core of the dealer-scraper pipeline:

    - [analysis/multi_oem_detector.py]  (entity resolver),
    - [targeting/srec_itc_filter.py]    (incentive-deadline urgency),
    - [targeting/coperniq_lead_scorer.py] (geography dimension),

    followed by the properties of the specification that concern them.

    Modelling conventions.
    - A Python [str] is a Rocq [string]; each character stands for one code
      point in the range 0..255 (ASCII and Latin-1).  The character classes
      of [re] ([\d], [\w], [\s]) and of [str.lower], [str.upper],
      [str.split] are written out for that range.
    - A Python [int] is a [Z].  A [float] is a [Q]: ratings are finite
      numbers and the only float arithmetic of the resolver is one division
      of two small counts followed by a comparison, on which exact and
      rounded arithmetic agree.
    - A [dict] whose iteration order is observable is an association list
      in insertion order; a [set] is a [gset].
    - Operations that can raise ([max] of an empty list, indexing an empty
      list) return an [outcome]; [print] calls are left out. *)

From Stdlib Require Import Ascii String ZArith QArith Lia.
From stdpp Require Import gmap strings list pretty sorting.

Open Scope string_scope.
Open Scope Z_scope.

(** ** Python strings *)

Module PyStr.

Definition code (c : ascii) : N := Ascii.N_of_ascii c.

Definition between (lo hi : N) (c : ascii) : bool :=
  ((lo <=? code c) && (code c <=? hi))%N.

(** [\d] of [re] on [str]: the Unicode decimal digits; below 256 these
    are 0-9 only. *)
Definition is_digit (c : ascii) : bool := between 48 57 c.

(** [str.isspace] and [\s]: tab..carriage return, the four separators
    0x1c..0x1f, space, NEL (0x85) and no-break space (0xa0). *)
Definition is_space (c : ascii) : bool :=
  between 9 13 c || between 28 32 c
  || (code c =? 133)%N || (code c =? 160)%N.

(** [\w]: alphanumeric code points and the underscore.  Besides ASCII,
    Latin-1 has the letters 0xaa, 0xb5, 0xba, 0xc0..0xd6, 0xd8..0xf6,
    0xf8..0xff and the numeric characters 0xb2, 0xb3, 0xb9,
    0xbc..0xbe. *)
Definition is_word (c : ascii) : bool :=
  between 48 57 c || between 65 90 c || between 97 122 c
  || (code c =? 95)%N
  || (code c =? 170)%N || (code c =? 181)%N || (code c =? 186)%N
  || between 178 179 c || (code c =? 185)%N || between 188 190 c
  || between 192 214 c || between 216 246 c || between 248 255 c.

(** [str.lower] on one character: A-Z and the Latin-1 capitals
    0xc0..0xde (without the multiplication sign 0xd7) move up by 32. *)
Definition lower_char (c : ascii) : ascii :=
  if between 65 90 c
     || (between 192 222 c && negb (code c =? 215)%N)
  then Ascii.ascii_of_N (code c + 32)
  else c.

Fixpoint lower (s : string) : string :=
  match s with
  | EmptyString => EmptyString
  | String c s' => String (lower_char c) (lower s')
  end.

(** [str.upper].  a-z and 0xe0..0xfe (without the division sign 0xf7)
    move down by 32; the sharp s (0xdf) becomes "SS".  The capitals of
    0xb5 and 0xff lie outside Latin-1 (U+039C, U+0178); they are left in
    place, which, like their true capitals, is no ASCII character. *)
Fixpoint upper (s : string) : string :=
  match s with
  | EmptyString => EmptyString
  | String c s' =>
      if between 97 122 c
         || (between 224 254 c && negb (code c =? 247)%N)
      then String (Ascii.ascii_of_N (code c - 32)) (upper s')
      else if (code c =? 223)%N then String "S" (String "S" (upper s'))
      else String c (upper s')
  end.

Fixpoint filter_chars (keep : ascii -> bool) (s : string) : string :=
  match s with
  | EmptyString => EmptyString
  | String c s' =>
      if keep c then String c (filter_chars keep s')
      else filter_chars keep s'
  end.

(** [needle] is a prefix of [s]; when it is, the rest of [s]. *)
Fixpoint strip_prefix (needle s : string) : option string :=
  match needle, s with
  | EmptyString, _ => Some s
  | String a n', String b s' =>
      if Ascii.eqb a b then strip_prefix n' s' else None
  | String _ _, EmptyString => None
  end.

(** [needle in s]. *)
Fixpoint contains (needle s : string) : bool :=
  match strip_prefix needle s with
  | Some _ => true
  | None =>
      match s with
      | EmptyString => false
      | String _ s' => contains needle s'
      end
  end.

(** [s.replace(old, "")] for a non-empty [old]: the occurrences are
    found from left to right and do not overlap.  [skip] counts the
    characters of the occurrence being dropped. *)
Fixpoint remove_all_from (old : string) (skip : nat) (s : string) : string :=
  match s with
  | EmptyString => EmptyString
  | String c s' =>
      match skip with
      | S k => remove_all_from old k s'
      | O =>
          match strip_prefix old s with
          | Some _ => remove_all_from old (Nat.pred (String.length old)) s'
          | None => String c (remove_all_from old 0 s')
          end
      end
  end.

Definition remove_all (old s : string) : string :=
  match old with
  | EmptyString => s
  | _ => remove_all_from old 0 s
  end.

(** [re.sub(r'\bword\b', '', s)] for a [word] made of word characters:
    an occurrence is dropped when the character before it (if any) and
    the character after it (if any) are not word characters.
    [prev_word] says whether the previous character of the subject is a
    word character. *)
Definition boundary_after (rest : string) : bool :=
  match rest with
  | EmptyString => true
  | String c _ => negb (is_word c)
  end.

Fixpoint sub_whole_word_from (word : string) (skip : nat) (prev_word : bool)
         (s : string) : string :=
  match s with
  | EmptyString => EmptyString
  | String c s' =>
      match skip with
      | S k => sub_whole_word_from word k (is_word c) s'
      | O =>
          match strip_prefix word s with
          | Some rest =>
              if negb prev_word && boundary_after rest
              then sub_whole_word_from word (Nat.pred (String.length word))
                                       (is_word c) s'
              else String c (sub_whole_word_from word 0 (is_word c) s')
          | None => String c (sub_whole_word_from word 0 (is_word c) s')
          end
      end
  end.

Definition sub_whole_word (word s : string) : string :=
  sub_whole_word_from word 0 false s.

(** [s.split()]: the maximal runs of non-space characters.  [cur] is
    the run being read, reversed. *)
Fixpoint rev_string (acc s : string) : string :=
  match s with
  | EmptyString => acc
  | String c s' => rev_string (String c acc) s'
  end.

Fixpoint split_ws_from (cur : string) (s : string) : list string :=
  match s with
  | EmptyString =>
      match cur with
      | EmptyString => []
      | _ => [rev_string EmptyString cur]
      end
  | String c s' =>
      if is_space c
      then match cur with
           | EmptyString => split_ws_from EmptyString s'
           | _ => rev_string EmptyString cur :: split_ws_from EmptyString s'
           end
      else split_ws_from (String c cur) s'
  end.

Definition split_ws (s : string) : list string := split_ws_from EmptyString s.

(** [s.split(sep)] for a one-character separator: always at least one
    part. *)
Fixpoint split_on_from (sep : ascii) (cur : string) (s : string) : list string :=
  match s with
  | EmptyString => [rev_string EmptyString cur]
  | String c s' =>
      if Ascii.eqb c sep
      then rev_string EmptyString cur :: split_on_from sep EmptyString s'
      else split_on_from sep (String c cur) s'
  end.

Definition split_on (sep : ascii) (s : string) : list string :=
  split_on_from sep EmptyString s.

(** [sep.join(parts)]. *)
Fixpoint join (sep : string) (parts : list string) : string :=
  match parts with
  | [] => EmptyString
  | [p] => p
  | p :: rest => p ++ sep ++ join sep rest
  end.

(** [s.strip()]. *)
Fixpoint lstrip (s : string) : string :=
  match s with
  | EmptyString => EmptyString
  | String c s' => if is_space c then lstrip s' else s
  end.

Definition strip (s : string) : string :=
  rev_string EmptyString
    (lstrip (rev_string EmptyString (lstrip s))).

(** Truth value of a string: non-empty. *)
Definition truthy (s : string) : bool :=
  match s with
  | EmptyString => false
  | _ => true
  end.

End PyStr.

(** ** Outcomes of calls that may raise *)

Inductive exn : Type :=
| ValueError   (* max() arg is an empty sequence *)
| IndexError.  (* list index out of range *)

Inductive outcome (A : Type) : Type :=
| Returned (a : A)
| Raised (e : exn).

Arguments Returned {A} a.
Arguments Raised {A} e.

#[global] Instance outcome_ret : MRet outcome := fun A a => Returned a.

#[global] Instance outcome_bind : MBind outcome := fun A B k x =>
  match x with
  | Returned a => k a
  | Raised e => Raised e
  end.

(** ** Insertion-ordered dictionaries *)

Module PyDict.

Section Dict.
Context {V : Type}.

(** [d[k] = v]: an existing key keeps its place. *)
Fixpoint set (k : string) (v : V) (d : list (string * V)) : list (string * V) :=
  match d with
  | [] => [(k, v)]
  | (k', v') :: d' =>
      if String.eqb k' k then (k', v) :: d'
      else (k', v') :: set k v d'
  end.

(** [d[k].append(x)] on a [defaultdict(list)]: a new key goes last. *)
Fixpoint append (k : string) (x : V) (d : list (string * list V))
  : list (string * list V) :=
  match d with
  | [] => [(k, [x])]
  | (k', xs) :: d' =>
      if String.eqb k' k then (k', (xs ++ [x])%list) :: d'
      else (k', xs) :: append k x d'
  end.

(** [d.get(k)] *)
Fixpoint get (k : string) (d : list (string * V)) : option V :=
  match d with
  | [] => None
  | (k', v) :: d' => if String.eqb k' k then Some v else get k d'
  end.

(** [k in d] *)
Definition has_key (k : string) (d : list (string * V)) : bool :=
  existsb (fun kv => String.eqb (fst kv) k) d.
End Dict.

End PyDict.

(** ** scrapers/base_scraper.py and analysis/multi_oem_detector.py *)

Module Detector.

(** The fields of [StandardizedDealer] read by the resolver and the
    scorers. *)
Record StandardizedDealer : Type := {
  name : string;
  phone : string;
  domain : string;
  website : string;
  street : string;
  city : string;
  state : string;
  zip : string;
  address_full : string;
  rating : Q;
  review_count : Z;
  tier : string;
  certifications : list string;
  is_commercial : bool;          (* capabilities.is_commercial *)
  oem_source : string;
  scraped_from_zip : string;
  employee_count : option Z
}.

Record MultiOEMMatch : Type := {
  primary_dealer : StandardizedDealer;
  oem_sources : gset string;
  dealer_records : list StandardizedDealer;
  match_confidence : Z;
  match_signals : list string;
  multi_oem_score : Z
}.

Definition oem_count (oems : gset string) : Z := Z.of_nat (size oems).

(** [MultiOEMMatch.calculate_multi_oem_score], a function of
    [self.oem_sources]. *)
Definition calculate_multi_oem_score (oems : gset string) : Z :=
  if 3 <=? oem_count oems then 100
  else if oem_count oems =? 2 then 60
  else if oem_count oems =? 1 then 20
  else 0.

Record MultiOEMDetector : Type := {
  dealers_by_oem : list (string * list StandardizedDealer);
  multi_oem_matches : list MultiOEMMatch
}.

(** [MultiOEMDetector.__init__] *)
Definition init : MultiOEMDetector :=
  {| dealers_by_oem := []; multi_oem_matches := [] |}.

Definition add_dealers (dealers : list StandardizedDealer) (oem_name : string)
           (self : MultiOEMDetector) : MultiOEMDetector :=
  {| dealers_by_oem := PyDict.set oem_name dealers (dealers_by_oem self);
     multi_oem_matches := multi_oem_matches self |}.

Definition normalize_phone (phone : string) : string :=
  if negb (PyStr.truthy phone) then ""
  else
    let digits := PyStr.filter_chars PyStr.is_digit phone in
    match digits with
    | String "1" rest =>
        if Nat.eqb (String.length digits) 11 then rest else digits
    | _ => digits
    end.

(** [parts[-n:]] *)
Definition last_n {A : Type} (n : nat) (l : list A) : list A :=
  drop (length l - n)%nat l.

Definition mem_string (x : string) (l : list string) : bool :=
  existsb (String.eqb x) l.

Definition normalize_domain (domain : string) : string :=
  if negb (PyStr.truthy domain) then ""
  else
    let domain := PyStr.remove_all "www." (PyStr.lower domain) in
    let parts := PyStr.split_on "." domain in
    if (3 <=? length parts)%nat
       && match last_n 2 parts with
          | p :: _ => mem_string p ["co"; "com"; "org"; "net"]
          | [] => false
          end
    then PyStr.join "." (last_n 3 parts)
    else if (2 <=? length parts)%nat
    then PyStr.join "." (last_n 2 parts)
    else domain.

Definition suffixes : list string :=
  ["llc"; "inc"; "incorporated"; "corp"; "corporation"; "ltd"; "limited"; "co"].

(** The inner [normalize_name] of [fuzzy_name_match]. *)
Definition normalize_name (name : string) : string :=
  let name := PyStr.lower name in
  let name := PyStr.filter_chars
                (fun c => PyStr.is_word c || PyStr.is_space c) name in
  let name := fold_left (fun n suffix => PyStr.sub_whole_word suffix n)
                        suffixes name in
  let name := PyStr.join " " (PyStr.split_ws name) in
  PyStr.strip name.

Definition token_set (s : string) : gset string :=
  list_to_set (PyStr.split_ws s).

(** The inner [levenshtein_ratio]: after the swap on lengths (one
    recursive call at most), the Jaccard index of the two token sets. *)
Definition levenshtein_ratio (s1 s2 : string) : Q :=
  let '(s1, s2) :=
    if (String.length s1 <? String.length s2)%nat then (s2, s1) else (s1, s2) in
  if Nat.eqb (String.length s2) 0 then 0%Q
  else
    let tokens1 := token_set s1 in
    let tokens2 := token_set s2 in
    if Nat.eqb (size tokens1) 0 || Nat.eqb (size tokens2) 0 then 0%Q
    else
      let intersection := size (tokens1 ∩ tokens2) in
      let union := size (tokens1 ∪ tokens2) in
      if (0 <? union)%nat
      then (Z.of_nat intersection # Pos.of_nat union)%Q
      else 0%Q.

Definition default_threshold : Q := (85 # 100)%Q.

Definition fuzzy_name_match (name1 name2 : string) (threshold : Q) : bool * Q :=
  if negb (PyStr.truthy name1) || negb (PyStr.truthy name2) then (false, 0%Q)
  else
    let norm1 := normalize_name name1 in
    let norm2 := normalize_name name2 in
    if String.eqb norm1 norm2 then (true, 1%Q)
    else if PyStr.contains norm1 norm2 || PyStr.contains norm2 norm1
    then (true, (9 # 10)%Q)
    else
      let ratio := levenshtein_ratio norm1 norm2 in
      (Qle_bool threshold ratio, ratio).

(** *** [find_multi_oem_contractors] *)

Abbreviation entry := (string * StandardizedDealer)%type.
Abbreviation index := (list (string * list entry)).

(** One step of the indexing loop: a dealer is filed under its
    normalized phone and under its normalized domain, when non-empty. *)
Definition index_dealer (oem_name : string) (idx : index * index)
           (dealer : StandardizedDealer) : index * index :=
  let '(phone_index, domain_index) := idx in
  let phone_norm := normalize_phone (phone dealer) in
  let phone_index :=
    if PyStr.truthy phone_norm
    then PyDict.append phone_norm (oem_name, dealer) phone_index
    else phone_index in
  let domain_norm := normalize_domain (domain dealer) in
  let domain_index :=
    if PyStr.truthy domain_norm
    then PyDict.append domain_norm (oem_name, dealer) domain_index
    else domain_index in
  (phone_index, domain_index).

Definition build_indexes (dealers_by_oem : list (string * list StandardizedDealer))
  : index * index :=
  fold_left (fun idx '(oem_name, dealers) =>
               fold_left (index_dealer oem_name) dealers idx)
            dealers_by_oem ([], []).

(** [oem_entries]: the dealers of a bucket grouped by OEM. *)
Definition group_by_oem (entries : list entry)
  : list (string * list StandardizedDealer) :=
  fold_left (fun acc '(oem_name, dealer) => PyDict.append oem_name dealer acc)
            entries [].

(** Comparison of the [max] keys [(d.rating, d.review_count)]: tuples
    compare on the first component that differs. *)
Definition key_gt (a b : StandardizedDealer) : bool :=
  if Qeq_bool (rating a) (rating b)
  then review_count b <? review_count a
  else negb (Qle_bool (rating a) (rating b)).

(** [max(all_dealers, key=...)]: the first of the maximal elements;
    [ValueError] on an empty list. *)
Definition max_dealer (all_dealers : list StandardizedDealer)
  : outcome StandardizedDealer :=
  match all_dealers with
  | [] => Raised ValueError
  | d :: rest =>
      Returned (fold_left (fun best x => if key_gt x best then x else best)
                          rest d)
  end.

Definition len {A : Type} (l : list A) : Z := Z.of_nat (length l).

Definition domain_matches (domain_norm : string)
           (all_dealers : list StandardizedDealer) : bool :=
  PyStr.truthy domain_norm
  && forallb (fun d => String.eqb (normalize_domain (domain d)) domain_norm)
             (filter (fun d => PyStr.truthy (domain d) = true) all_dealers).

Definition name_matches (primary : StandardizedDealer)
           (all_dealers : list StandardizedDealer) : bool :=
  forallb (fun d => fst (fuzzy_name_match (name primary) (name d)
                                          default_threshold))
          all_dealers.

(** Body of the phone loop for one bucket: [None] is [continue],
    otherwise the match and the pair added to
    [processed_combinations]. *)
Definition phone_group (min_oem_count : Z) (phone_norm : string)
           (entries : list entry)
  : outcome (option (MultiOEMMatch * (string * string))) :=
  if len entries <? min_oem_count then mret None
  else
    let oem_entries := group_by_oem entries in
    if len oem_entries <? min_oem_count then mret None
    else
      let all_dealers := entries.*2 in
      let oem_sources : gset string := list_to_set (oem_entries.*1) in
      primary ← max_dealer all_dealers;
      let domain_norm := normalize_domain (domain primary) in
      let match_signals :=
        (["phone"]
           ++ (if domain_matches domain_norm all_dealers then ["domain"] else [])
           ++ (if name_matches primary all_dealers then ["name"] else []))%list in
      let confidence := Z.min (len match_signals * 30 + 10) 100 in
      mret (Some ({| primary_dealer := primary;
                     oem_sources := oem_sources;
                     dealer_records := all_dealers;
                     match_confidence := confidence;
                     match_signals := match_signals;
                     multi_oem_score := calculate_multi_oem_score oem_sources |},
                  (phone_norm, domain_norm))).

Fixpoint phone_pass (min_oem_count : Z) (phone_index : index)
         (matches : list MultiOEMMatch) (processed : gset (string * string))
  : outcome (list MultiOEMMatch * gset (string * string)) :=
  match phone_index with
  | [] => mret (matches, processed)
  | (phone_norm, entries) :: rest =>
      r ← phone_group min_oem_count phone_norm entries;
      match r with
      | None => phone_pass min_oem_count rest matches processed
      | Some (m, pc) =>
          phone_pass min_oem_count rest (matches ++ [m])%list ({[ pc ]} ∪ processed)
      end
  end.

(** Body of the domain loop for one bucket. *)
Definition domain_group (min_oem_count : Z) (processed : gset (string * string))
           (domain_norm : string) (entries : list entry)
  : outcome (option MultiOEMMatch) :=
  if len entries <? min_oem_count then mret None
  else
    match entries with
    | [] => Raised IndexError
    | (_, first) :: _ =>
        let phone_norm := normalize_phone (phone first) in
        if bool_decide ((phone_norm, domain_norm) ∈ processed) then mret None
        else
          let oem_entries := group_by_oem entries in
          if len oem_entries <? min_oem_count then mret None
          else
            let all_dealers := entries.*2 in
            let oem_sources : gset string := list_to_set (oem_entries.*1) in
            primary ← max_dealer all_dealers;
            mret (Some {| primary_dealer := primary;
                          oem_sources := oem_sources;
                          dealer_records := all_dealers;
                          match_confidence := 60;
                          match_signals := ["domain"];
                          multi_oem_score := calculate_multi_oem_score oem_sources |})
    end.

Fixpoint domain_pass (min_oem_count : Z) (processed : gset (string * string))
         (domain_index : index) (matches : list MultiOEMMatch)
  : outcome (list MultiOEMMatch) :=
  match domain_index with
  | [] => mret matches
  | (domain_norm, entries) :: rest =>
      r ← domain_group min_oem_count processed domain_norm entries;
      match r with
      | None => domain_pass min_oem_count processed rest matches
      | Some m => domain_pass min_oem_count processed rest (matches ++ [m])%list
      end
  end.

(** [matches.sort(key=lambda m: (m.multi_oem_score, m.match_confidence),
    reverse=True)]: descending and stable. *)
Definition sort_key_lt (a b : MultiOEMMatch) : bool :=
  if multi_oem_score a =? multi_oem_score b
  then match_confidence a <? match_confidence b
  else multi_oem_score a <? multi_oem_score b.

Fixpoint insert_desc (m : MultiOEMMatch) (sorted : list MultiOEMMatch)
  : list MultiOEMMatch :=
  match sorted with
  | [] => [m]
  | y :: rest =>
      if sort_key_lt m y then y :: insert_desc m rest
      else m :: y :: rest
  end.

Definition sort_matches (matches : list MultiOEMMatch) : list MultiOEMMatch :=
  foldr insert_desc [] matches.

(** The two passes, before the sort. *)
Definition phone_matches (self : MultiOEMDetector) (min_oem_count : Z)
  : outcome (list MultiOEMMatch * gset (string * string)) :=
  phone_pass min_oem_count (fst (build_indexes (dealers_by_oem self))) [] ∅.

Definition find_multi_oem_contractors (self : MultiOEMDetector)
           (min_oem_count : Z)
  : outcome (list MultiOEMMatch * MultiOEMDetector) :=
  let '(phone_index, domain_index) := build_indexes (dealers_by_oem self) in
  '(matches, processed_combinations) ← phone_pass min_oem_count phone_index [] ∅;
  matches ← domain_pass min_oem_count processed_combinations domain_index matches;
  let matches := sort_matches matches in
  mret (matches, {| dealers_by_oem := dealers_by_oem self;
                    multi_oem_matches := matches |}).

(** *** Notions used to state the properties *)

(** No bucket of an index is empty. *)
Definition nonempty_buckets (idx : index) : Prop := Forall (λ kv, kv.2 ≠ []) idx.

(** What a bucket turns into when the phone loop keeps it. *)
Definition phone_match_of (entries : list entry) (primary : StandardizedDealer)
  : MultiOEMMatch :=
  let all_dealers := entries.*2 in
  let oem_sources : gset string := list_to_set (group_by_oem entries).*1 in
  let domain_norm := normalize_domain (domain primary) in
  let match_signals :=
    app ["phone"]
        (app (if domain_matches domain_norm all_dealers then ["domain"] else [])
             (if name_matches primary all_dealers then ["name"] else [])) in
  {| primary_dealer := primary;
     oem_sources := oem_sources;
     dealer_records := all_dealers;
     match_confidence := Z.min (len match_signals * 30 + 10) 100;
     match_signals := match_signals;
     multi_oem_score := calculate_multi_oem_score oem_sources |}.

Definition domain_match_of (entries : list entry) (primary : StandardizedDealer)
  : MultiOEMMatch :=
  let oem_sources : gset string := list_to_set (group_by_oem entries).*1 in
  {| primary_dealer := primary;
     oem_sources := oem_sources;
     dealer_records := entries.*2;
     match_confidence := 60;
     match_signals := ["domain"];
     multi_oem_score := calculate_multi_oem_score oem_sources |}.

End Detector.

(** ** [datetime.date] *)

Module PyDate.

Record date : Type := { year : Z; month : Z; day : Z }.

Definition is_leap (y : Z) : bool :=
  (y mod 4 =? 0) && (negb (y mod 100 =? 0) || (y mod 400 =? 0)).

Definition days_before_year (y : Z) : Z :=
  let y := y - 1 in
  y * 365 + y / 4 - y / 100 + y / 400.

Definition days_in_month (y m : Z) : Z :=
  if (m =? 2) && is_leap y then 29
  else match m with
       | 1 => 31 | 2 => 28 | 3 => 31 | 4 => 30 | 5 => 31 | 6 => 30
       | 7 => 31 | 8 => 31 | 9 => 30 | 10 => 31 | 11 => 30 | 12 => 31
       | _ => 0
       end.

Definition days_before_month (y m : Z) : Z :=
  match m with
  | 1 => 0 | 2 => 31 | 3 => 59 | 4 => 90 | 5 => 120 | 6 => 151
  | 7 => 181 | 8 => 212 | 9 => 243 | 10 => 273 | 11 => 304 | 12 => 334
  | _ => 0
  end + (if (2 <? m) && is_leap y then 1 else 0).

(** [date.toordinal]: day 1 is 0001-01-01. *)
Definition toordinal (d : date) : Z :=
  days_before_year (year d) + days_before_month (year d) (month d) + day d.

(** What the [date] constructor accepts. *)
Definition valid (d : date) : Prop :=
  1 <= year d <= 9999 /\ 1 <= month d <= 12
  /\ 1 <= day d <= days_in_month (year d) (month d).

(** [(a - b).days] *)
Definition days_between (a b : date) : Z := toordinal a - toordinal b.

(** [a <= b] on dates: by year, then month, then day. *)
Definition le (a b : date) : Prop :=
  year a < year b
  \/ (year a = year b
      /\ (month a < month b \/ (month a = month b /\ day a <= day b))).

End PyDate.

(** ** targeting/srec_itc_filter.py *)

Module SrecItc.

Import PyDate.

Inductive SRECPriority : Type := PriorityHIGH | PriorityMEDIUM | PriorityLOW.

Inductive ITCUrgency : Type := CRITICAL | HIGH | MEDIUM | LOW.

(** [SREC_STATES], with the fields the filter reads. *)
Record StateInfo : Type := {
  state_name : string;
  program : string;
  priority : SRECPriority
}.

Definition SREC_STATES : list (string * StateInfo) :=
  [ ("CA", {| state_name := "California"; program := "SGIP + NEM 3.0";
              priority := PriorityHIGH |});
    ("TX", {| state_name := "Texas"; program := "Deregulated Market + ERCOT";
              priority := PriorityHIGH |});
    ("PA", {| state_name := "Pennsylvania";
              program := "PA Solar Renewable Energy Credits (SRECs)";
              priority := PriorityHIGH |});
    ("MA", {| state_name := "Massachusetts"; program := "SREC II + SMART Program";
              priority := PriorityHIGH |});
    ("NJ", {| state_name := "New Jersey";
              program := "NJ Transition Renewable Energy Certificates (TRECs)";
              priority := PriorityHIGH |});
    ("FL", {| state_name := "Florida";
              program := "Net Metering + Property Tax Exemptions";
              priority := PriorityHIGH |});
    ("OH", {| state_name := "Ohio"; program := "OH Solar Renewable Energy Credits";
              priority := PriorityMEDIUM |});
    ("MD", {| state_name := "Maryland"; program := "MD Solar Renewable Energy Credits";
              priority := PriorityMEDIUM |});
    ("DC", {| state_name := "District of Columbia";
              program := "DC Solar Renewable Energy Credits";
              priority := PriorityMEDIUM |});
    ("DE", {| state_name := "Delaware"; program := "DE Solar Renewable Energy Credits";
              priority := PriorityMEDIUM |});
    ("NH", {| state_name := "New Hampshire"; program := "NH Renewable Energy Fund";
              priority := PriorityMEDIUM |});
    ("RI", {| state_name := "Rhode Island";
              program := "RI Renewable Energy Growth Program";
              priority := PriorityMEDIUM |});
    ("CT", {| state_name := "Connecticut";
              program := "CT Zonal Solar Renewable Energy Credits";
              priority := PriorityMEDIUM |});
    ("IL", {| state_name := "Illinois"; program := "IL Adjustable Block Program";
              priority := PriorityMEDIUM |}) ].

Definition ITC_RESIDENTIAL_DEADLINE : date := {| year := 2025; month := 12; day := 31 |}.
Definition ITC_COMMERCIAL_SAFE_HARBOR : date := {| year := 2026; month := 6; day := 30 |}.

Record SRECITCFilter : Type := {
  srec_states : list (string * StateInfo);
  residential_itc_deadline : date;
  commercial_safe_harbor : date;
  today : date
}.

(** [SRECITCFilter.__init__]; the argument is what [date.today()]
    returns. *)
Definition init (date_today : date) : SRECITCFilter :=
  {| srec_states := SREC_STATES;
     residential_itc_deadline := ITC_RESIDENTIAL_DEADLINE;
     commercial_safe_harbor := ITC_COMMERCIAL_SAFE_HARBOR;
     today := date_today |}.

Definition is_srec_state (self : SRECITCFilter) (state_code : string) : bool :=
  PyDict.has_key (PyStr.upper state_code) (srec_states self).

(** [reference_date or self.today]: a [date] is always true. *)
Definition calculate_itc_urgency (self : SRECITCFilter) (state_code : string)
           (is_commercial : bool) (reference_date : option date) : ITCUrgency :=
  let ref_date := default (today self) reference_date in
  let is_srec := is_srec_state self state_code in
  let days_to_commercial := days_between (commercial_safe_harbor self) ref_date in
  let days_to_residential := days_between (residential_itc_deadline self) ref_date in
  if is_commercial && (days_to_commercial <=? 365) && (0 <? days_to_commercial)
  then CRITICAL
  else if negb is_commercial && (days_to_residential <=? 180)
          && (0 <? days_to_residential)
  then HIGH
  else if is_srec then MEDIUM
  else LOW.

End SrecItc.

(** ** targeting/coperniq_lead_scorer.py *)

Module LeadScorer.

Import Detector.

Definition WEALTHY_ZIPS : list (string * list string) :=
  [ ("CA", ["94027"; "94301"; "94304"; "94022"; "94024";
            "90210"; "90212"; "90265"; "90272";
            "92657"; "92660"; "92662"; "92037"; "92067";
            "94920"; "94028"; "94956"; "93108"; "92625"]);
    ("TX", ["77019"; "77024"; "77005"; "77056";
            "75205"; "75225"; "75229";
            "78746"; "78733"; "78730";
            "78734"; "77007"; "76107"]);
    ("PA", ["19035"; "19003"; "19087"; "19085"; "19301";
            "15215"; "15238";
            "19010"; "19041"; "19066"]);
    ("MA", ["02467"; "02481"; "02492"; "02445"; "02482"; "02459"; "02468";
            "01752"; "02142"; "02138"; "02139"]);
    ("NJ", ["07078"; "07920"; "07931"; "07039"; "07726"; "07733"; "08540";
            "07869"; "07046"; "07670"; "07450"]);
    ("FL", ["33109"; "33158"; "33156"; "33480"; "33455";
            "34102"; "34103"; "33606"; "33629"; "33139"; "33004"]) ].

Record CoperniqLeadScorer : Type := {
  wealthy_zips : list (string * list string)
}.

Definition init : CoperniqLeadScorer := {| wealthy_zips := WEALTHY_ZIPS |}.

Definition score_geographic_value (self : CoperniqLeadScorer)
           (contractor : MultiOEMMatch) : Z * string :=
  let state := state (primary_dealer contractor) in
  let zip_code := zip (primary_dealer contractor) in
  match PyDict.get state (wealthy_zips self) with
  | None => (0, "State " ++ state ++ " not in wealthy ZIP database")
  | Some wealthy_zips_for_state =>
      if mem_string zip_code (take 10 wealthy_zips_for_state)
      then (10, "ZIP " ++ zip_code ++ " in top 10 wealthy ZIPs for " ++ state)
      else if mem_string zip_code wealthy_zips_for_state
      then (7, "ZIP " ++ zip_code ++ " in top 30 wealthy ZIPs for " ++ state)
      else (3, "ZIP " ++ zip_code ++ " in " ++ state ++ " (standard territory)")
  end.

End LeadScorer.

(** ** analysis/multi_oem_detector.py: contact data and top prospects *)

Module Contact.

Import Detector.

(** The dictionary returned by [get_best_contact_info]. *)
Record ContactInfo : Type := {
  contact_phone : string;
  contact_website : string;
  contact_domain : string;
  contact_address_full : string
}.

(** One turn of the loop over [dealer_records]. *)
Definition contact_step (best : ContactInfo) (dealer : StandardizedDealer)
  : ContactInfo :=
  let best_phone :=
    if (String.length (contact_phone best) <? String.length (phone dealer))%nat
    then phone dealer else contact_phone best in
  let '(best_domain, best_website) :=
    if PyStr.truthy (domain dealer)
       && (negb (PyStr.truthy (contact_domain best))
           || (String.length (domain dealer)
               <? String.length (contact_domain best))%nat)
    then (domain dealer, website dealer)
    else (contact_domain best, contact_website best) in
  let best_address :=
    if (String.length (contact_address_full best)
        <? String.length (address_full dealer))%nat
    then address_full dealer else contact_address_full best in
  {| contact_phone := best_phone;
     contact_website := best_website;
     contact_domain := best_domain;
     contact_address_full := best_address |}.

Definition no_contact : ContactInfo :=
  {| contact_phone := ""; contact_website := ""; contact_domain := "";
     contact_address_full := "" |}.

(** [MultiOEMMatch.get_best_contact_info] *)
Definition get_best_contact_info (self : MultiOEMMatch) : ContactInfo :=
  fold_left contact_step (dealer_records self) no_contact.

(** [l[:limit]]: a negative [limit] counts from the end. *)
Definition slice_to {A : Type} (limit : Z) (l : list A) : list A :=
  if 0 <=? limit then take (Z.to_nat limit) l
  else take (length l - Z.to_nat (- limit))%nat l.

(** [MultiOEMDetector.get_top_prospects] *)
Definition get_top_prospects (self : MultiOEMDetector) (limit : Z)
  : list MultiOEMMatch :=
  slice_to limit (multi_oem_matches self).

End Contact.

(** ** scrapers/base_scraper.py: [DealerCapabilities] *)

Module Capabilities.

Record DealerCapabilities : Type := {
  has_generator : bool;
  has_solar : bool;
  has_battery : bool;
  has_microinverters : bool;
  has_inverters : bool;
  has_electrical : bool;
  has_hvac : bool;
  has_roofing : bool;
  has_plumbing : bool;
  is_commercial : bool;
  is_residential : bool;
  is_gc : bool;
  is_sub : bool;
  has_om_capability : bool;
  is_mep_r_contractor : bool;
  oem_certifications : gset string;
  generator_oems : gset string;
  battery_oems : gset string;
  microinverter_oems : gset string;
  inverter_oems : gset string
}.

(** [DealerCapabilities.__init__] *)
Definition init : DealerCapabilities :=
  {| has_generator := false; has_solar := false; has_battery := false;
     has_microinverters := false; has_inverters := false;
     has_electrical := false; has_hvac := false; has_roofing := false;
     has_plumbing := false; is_commercial := false; is_residential := false;
     is_gc := false; is_sub := false; has_om_capability := false;
     is_mep_r_contractor := false; oem_certifications := ∅;
     generator_oems := ∅; battery_oems := ∅; microinverter_oems := ∅;
     inverter_oems := ∅ |}.

(** [sum(1 for cap in capabilities if cap)] *)
Definition count_true (flags : list bool) : Z :=
  Z.of_nat (length (filter (λ b, b = true) flags)).

Definition get_capability_count (self : DealerCapabilities) : Z :=
  count_true [has_generator self; has_solar self; has_battery self;
              has_microinverters self; has_inverters self;
              has_electrical self; has_hvac self; has_roofing self;
              has_plumbing self].

(** [if flag: l.append(label)] *)
Definition append_if (flag : bool) (label : string) (l : list string)
  : list string :=
  if flag then (l ++ [label])%list else l.

Definition get_product_capabilities (self : DealerCapabilities) : list string :=
  append_if (has_inverters self) "Inverters"
    (append_if (has_microinverters self) "Microinverters"
       (append_if (has_battery self) "Battery"
          (append_if (has_solar self) "Solar"
             (append_if (has_generator self) "Generator" [])))).

Definition get_trade_capabilities (self : DealerCapabilities) : list string :=
  append_if (has_plumbing self) "Plumbing"
    (append_if (has_roofing self) "Roofing"
       (append_if (has_hvac self) "HVAC"
          (append_if (has_electrical self) "Electrical" []))).

Definition om_keywords : list string :=
  ["operations"; "maintenance"; "service"; "monitoring"; "o&m"; "o & m"].

Definition mep_keywords : list string :=
  ["mep"; "mechanical contractor"; "full-service"; "multi-trade"].

(** [f"{dealer_name} {' '.join(certifications)} {tier}".lower()] *)
Definition search_text (dealer_name : string) (certifications : list string)
           (tier : string) : string :=
  PyStr.lower (dealer_name ++ " " ++ PyStr.join " " certifications ++ " " ++ tier).

(** [any(keyword in search_text for keyword in keywords)] *)
Definition any_keyword (keywords : list string) (text : string) : bool :=
  existsb (λ keyword, PyStr.contains keyword text) keywords.

Definition detect_high_value_contractor_types (self : DealerCapabilities)
           (dealer_name : string) (certifications : list string) (tier : string)
  : DealerCapabilities :=
  let text := search_text dealer_name certifications tier in
  let has_all_mep_r_trades :=
    has_electrical self && has_hvac self && has_plumbing self
    && has_roofing self in
  let has_mep_keywords := any_keyword mep_keywords text in
  {| has_generator := has_generator self; has_solar := has_solar self;
     has_battery := has_battery self;
     has_microinverters := has_microinverters self;
     has_inverters := has_inverters self;
     has_electrical := has_electrical self; has_hvac := has_hvac self;
     has_roofing := has_roofing self; has_plumbing := has_plumbing self;
     is_commercial := is_commercial self;
     is_residential := is_residential self;
     is_gc := is_gc self; is_sub := is_sub self;
     has_om_capability := any_keyword om_keywords text;
     is_mep_r_contractor := has_all_mep_r_trades || has_mep_keywords;
     oem_certifications := oem_certifications self;
     generator_oems := generator_oems self;
     battery_oems := battery_oems self;
     microinverter_oems := microinverter_oems self;
     inverter_oems := inverter_oems self |}.

End Capabilities.

(** ** targeting/srec_itc_filter.py: priorities and [filter_contractors] *)

Module SrecFilter.

Import Detector SrecItc.

(** [SRECPriority.value] and [ITCUrgency.value] *)
Definition priority_value (p : SRECPriority) : string :=
  match p with
  | PriorityHIGH => "HIGH"
  | PriorityMEDIUM => "MEDIUM"
  | PriorityLOW => "LOW"
  end.

Definition urgency_value (u : ITCUrgency) : string :=
  match u with
  | CRITICAL => "CRITICAL"
  | HIGH => "HIGH"
  | MEDIUM => "MEDIUM"
  | LOW => "LOW"
  end.

Definition priority_eqb (a b : SRECPriority) : bool :=
  match a, b with
  | PriorityHIGH, PriorityHIGH
  | PriorityMEDIUM, PriorityMEDIUM
  | PriorityLOW, PriorityLOW => true
  | _, _ => false
  end.

(** [priority == SRECPriority.HIGH] for a priority that may be [None] *)
Definition is_high (p : option SRECPriority) : bool :=
  match p with
  | Some p => priority_eqb p PriorityHIGH
  | None => false
  end.

(** [state_info["priority"] if state_info else None]: an entry of the
    table is a non-empty dictionary, hence true. *)
Definition get_srec_priority (self : SRECITCFilter) (state_code : string)
  : option SRECPriority :=
  match PyDict.get (PyStr.upper state_code) (srec_states self) with
  | Some state_info => Some (priority state_info)
  | None => None
  end.

(** The filter takes dealers and resolved groups alike and tells them
    apart by [hasattr(contractor, "primary_dealer")]. *)
Inductive contractor_obj : Type :=
| DealerObj (d : StandardizedDealer)
| MatchObj (m : MultiOEMMatch).

(** The entries of [srec_metadata] that the statistics and the scorer
    read.  ([urgency_message], a display text with characters outside the
    modelled range, is left out.) *)
Record SrecMetadata : Type := {
  md_state_name : option string;
  md_program : option string;
  md_priority : string;
  md_urgency : string
}.

(** A contractor with what enrichment writes on it: the fields
    [srec_state_priority] and [itc_urgency] of its dealer (the primary
    dealer of a group) and the attribute [srec_metadata], absent until the
    filter attaches it. *)
Record Contractor : Type := {
  obj : contractor_obj;
  srec_state_priority : option string;
  itc_urgency : option string;
  srec_metadata : option SrecMetadata
}.

Definition dealer_of (o : contractor_obj) : StandardizedDealer :=
  match o with
  | DealerObj d => d
  | MatchObj m => primary_dealer m
  end.

Definition state_of (c : Contractor) : string := state (dealer_of (obj c)).

(** [None.value] *)
Inductive attribute_error : Type := AttributeError.

Definition SrecOutcome (A : Type) : Type := attribute_error + A.

Definition value_of (p : option SRECPriority) : SrecOutcome string :=
  match p with
  | Some p => inr (priority_value p)
  | None => inl AttributeError
  end.

(** The enrichment branch of the loop body. *)
Definition enrich (self : SRECITCFilter) (priority : option SRECPriority)
           (c : Contractor) : SrecOutcome Contractor :=
  let state_code := state_of c in
  let is_commercial := is_commercial (dealer_of (obj c)) in
  let urgency := calculate_itc_urgency self state_code is_commercial None in
  let state_info := PyDict.get (PyStr.upper state_code) (srec_states self) in
  match value_of priority with
  | inl e => inl e
  | inr pv =>
      inr {| obj := obj c;
             srec_state_priority := Some pv;
             itc_urgency := Some (urgency_value urgency);
             srec_metadata :=
               match srec_metadata c with
               | Some md => Some md
               | None =>
                   Some {| md_state_name := state_name <$> state_info;
                           md_program := program <$> state_info;
                           md_priority := pv;
                           md_urgency := urgency_value urgency |}
               end |}
  end.

(** The loop body: [None] is [continue], otherwise the contractor that is
    appended. *)
Definition filter_one (self : SRECITCFilter) (min_priority : option SRECPriority)
           (include_enrichment : bool) (c : Contractor)
  : SrecOutcome (option Contractor) :=
  let state_code := state_of c in
  if negb (is_srec_state self state_code) then inr None
  else
    let priority := get_srec_priority self state_code in
    let keep :=
      if include_enrichment
      then match enrich self priority c with
           | inl e => inl e
           | inr c' => inr (Some c')
           end
      else inr (Some c) in
    match min_priority with
    | None => keep
    | Some mp =>
        match value_of priority with
        | inl e => inl e
        | inr pv =>
            if negb (String.eqb pv (priority_value mp))
               && priority_eqb mp PriorityHIGH
               && negb (is_high priority)
            then inr None
            else keep
        end
    end.

Fixpoint filter_loop (self : SRECITCFilter) (min_priority : option SRECPriority)
         (include_enrichment : bool) (contractors : list Contractor)
         (srec_contractors : list Contractor) : SrecOutcome (list Contractor) :=
  match contractors with
  | [] => inr srec_contractors
  | c :: rest =>
      match filter_one self min_priority include_enrichment c with
      | inl e => inl e
      | inr None =>
          filter_loop self min_priority include_enrichment rest srec_contractors
      | inr (Some c') =>
          filter_loop self min_priority include_enrichment rest
                      (srec_contractors ++ [c'])%list
      end
  end.

Record SRECFilterResult : Type := {
  contractors : list Contractor;
  high_priority_count : Z;
  medium_priority_count : Z;
  critical_urgency_count : Z;
  high_urgency_count : Z;
  medium_urgency_count : Z;
  total_count : Z;
  srec_states_represented : gset string
}.

(** [sum(1 for c in l if test(c))] *)
Definition count_if {A : Type} (test : A → bool) (l : list A) : Z :=
  Z.of_nat (length (filter (λ x, test x = true) l)).

Definition has_urgency (u : ITCUrgency) (c : Contractor) : bool :=
  match srec_metadata c with
  | Some md => String.eqb (md_urgency md) (urgency_value u)
  | None => false
  end.

Definition filter_contractors (self : SRECITCFilter) (contractors : list Contractor)
           (min_priority : option SRECPriority) (include_enrichment : bool)
  : SrecOutcome SRECFilterResult :=
  match filter_loop self min_priority include_enrichment contractors [] with
  | inl e => inl e
  | inr srec_contractors =>
      let high_priority :=
        count_if (λ c, is_high (get_srec_priority self (state_of c)))
                 srec_contractors in
      inr {| contractors := srec_contractors;
             high_priority_count := high_priority;
             medium_priority_count := len srec_contractors - high_priority;
             critical_urgency_count := count_if (has_urgency CRITICAL) srec_contractors;
             high_urgency_count := count_if (has_urgency HIGH) srec_contractors;
             medium_urgency_count := count_if (has_urgency MEDIUM) srec_contractors;
             total_count := len srec_contractors;
             srec_states_represented := list_to_set (state_of <$> srec_contractors) |}
  end.

End SrecFilter.

(** ** targeting/coperniq_lead_scorer.py: the dimensions and the total *)

Module Scoring.

Import Detector SrecItc SrecFilter LeadScorer.

(** [sorted(strings)] *)
Fixpoint insert_string (x : string) (sorted : list string) : list string :=
  match sorted with
  | [] => [x]
  | y :: rest =>
      if String.ltb x y then x :: y :: rest else y :: insert_string x rest
  end.

Definition sorted_strings (l : list string) : list string :=
  foldr insert_string [] l.

(** [f"{x}"] of a value that may be [None] *)
Definition format_opt (x : option string) : string := default "None" x.

(** [list(contractor.oem_sources)[0]], read only when the set has one
    element. *)
Definition first_oem (oems : gset string) : string :=
  default "" (head (elements oems)).

Definition score_multi_oem_presence (contractor : MultiOEMMatch) : Z * string :=
  let oems := oem_sources contractor in
  let brands := PyStr.join ", " (sorted_strings (elements oems)) in
  if 3 <=? oem_count oems
  then (40, "3+ OEM brands (" ++ brands ++ ") - HOT PRIORITY")
  else if oem_count oems =? 2
  then (30, "2 OEM brands (" ++ brands ++ ") - MEDIUM priority")
  else if oem_count oems =? 1
  then (8, "1 OEM brand (" ++ first_oem oems ++ ") - OK/baseline")
  else (0, "No OEM certifications").

Definition score_srec_state (srec_metadata : option SrecMetadata) : Z * string :=
  match srec_metadata with
  | None => (0, "Not in SREC state")
  | Some md =>
      let state_name := format_opt (md_state_name md) in
      let program := format_opt (md_program md) in
      if String.eqb (md_priority md) (priority_value PriorityHIGH)
      then (20, state_name ++ " - HIGH priority SREC state (" ++ program ++ ")")
      else if String.eqb (md_priority md) (priority_value PriorityMEDIUM)
      then (10, state_name ++ " - MEDIUM priority SREC state (" ++ program ++ ")")
      else (0, state_name ++ " - LOW/no SREC program")
  end.

Definition score_commercial_capability (contractor : MultiOEMMatch) : Z * string :=
  match employee_count (primary_dealer contractor) with
  | Some employee_count =>
      let n := pretty employee_count in
      if 50 <=? employee_count
      then (20, n ++ " employees - Large commercial contractor")
      else if 10 <=? employee_count
      then (15, n ++ " employees - Mid-size commercial")
      else if 5 <=? employee_count
      then (10, n ++ " employees - Small commercial")
      else (5, n ++ " employees - Residential focus")
  | None =>
      let tier := tier (primary_dealer contractor) in
      if mem_string tier ["Premier"; "Platinum"]
      then (15, tier ++ " tier (est. mid-size commercial)")
      else if mem_string tier ["Elite Plus"; "Gold"]
      then (10, tier ++ " tier (est. small commercial)")
      else (5, tier ++ " tier (est. residential focus)")
  end.

Definition score_itc_urgency (srec_metadata : option SrecMetadata) : Z * string :=
  match srec_metadata with
  | None => (2, "No ITC urgency (non-SREC state)")
  | Some md =>
      if String.eqb (md_urgency md) (urgency_value CRITICAL)
      then (10, "CRITICAL - Commercial projects must start by Q2 2026")
      else if String.eqb (md_urgency md) (urgency_value HIGH)
      then (7, "HIGH - Residential ITC expires Dec 2025")
      else if String.eqb (md_urgency md) (urgency_value MEDIUM)
      then (5, "MEDIUM - SREC state (sustainable post-ITC)")
      else (2, "LOW - Non-SREC state")
  end.

Record CoperniqScore : Type := {
  contractor_name : string;
  contractor_phone : string;
  contractor_domain : string;
  multi_oem_points : Z;             (* multi_oem_score *)
  srec_state_score : Z;
  commercial_capability_score : Z;
  geographic_score : Z;
  itc_urgency_score : Z;
  om_bonus : Z;
  mep_r_bonus : Z;
  total_score : Z;
  score_breakdown : list (string * string);
  priority_tier : string
}.

(** [CoperniqScore.calculate_total]: the score with its total and tier
    set. *)
Definition calculate_total (self : CoperniqScore) : CoperniqScore :=
  let total :=
    multi_oem_points self + srec_state_score self
    + commercial_capability_score self + geographic_score self
    + itc_urgency_score self + om_bonus self + mep_r_bonus self in
  {| contractor_name := contractor_name self;
     contractor_phone := contractor_phone self;
     contractor_domain := contractor_domain self;
     multi_oem_points := multi_oem_points self;
     srec_state_score := srec_state_score self;
     commercial_capability_score := commercial_capability_score self;
     geographic_score := geographic_score self;
     itc_urgency_score := itc_urgency_score self;
     om_bonus := om_bonus self;
     mep_r_bonus := mep_r_bonus self;
     total_score := total;
     score_breakdown := score_breakdown self;
     priority_tier :=
       if 90 <=? total then "HOT"
       else if 70 <=? total then "HIGH"
       else if 50 <=? total then "MEDIUM"
       else "LOW" |}.

(** [score_contractor] on a group and the [srec_metadata] attached to it
    (if any). *)
Definition score_contractor (self : CoperniqLeadScorer) (contractor : MultiOEMMatch)
           (srec_metadata : option SrecMetadata) : CoperniqScore :=
  let '(multi_oem_score, multi_oem_explanation) :=
    score_multi_oem_presence contractor in
  let '(srec_score, srec_explanation) := score_srec_state srec_metadata in
  let '(commercial_score, commercial_explanation) :=
    score_commercial_capability contractor in
  let '(geo_score, geo_explanation) := score_geographic_value self contractor in
  let '(urgency_score, urgency_explanation) := score_itc_urgency srec_metadata in
  calculate_total
    {| contractor_name := name (primary_dealer contractor);
       contractor_phone := phone (primary_dealer contractor);
       contractor_domain := domain (primary_dealer contractor);
       multi_oem_points := multi_oem_score;
       srec_state_score := srec_score;
       commercial_capability_score := commercial_score;
       geographic_score := geo_score;
       itc_urgency_score := urgency_score;
       om_bonus := 0;
       mep_r_bonus := 0;
       total_score := 0;
       score_breakdown :=
         [("multi_oem", multi_oem_explanation);
          ("srec_state", srec_explanation);
          ("commercial_capability", commercial_explanation);
          ("geographic", geo_explanation);
          ("itc_urgency", urgency_explanation)];
       priority_tier := "MEDIUM" |}.

(** [scores.sort(key=lambda s: s.total_score, reverse=True)] *)
Fixpoint insert_score (s : CoperniqScore) (sorted : list CoperniqScore)
  : list CoperniqScore :=
  match sorted with
  | [] => [s]
  | y :: rest =>
      if total_score s <? total_score y then y :: insert_score s rest
      else s :: y :: rest
  end.

Definition sort_scores (scores : list CoperniqScore) : list CoperniqScore :=
  foldr insert_score [] scores.

Definition score_contractors (self : CoperniqLeadScorer)
           (contractors : list (MultiOEMMatch * option SrecMetadata))
  : list CoperniqScore :=
  sort_scores ((λ c, score_contractor self c.1 c.2) <$> contractors).

(** [CoperniqLeadScorer.get_top_prospects] *)
Definition get_top_prospects (scores : list CoperniqScore) (limit : Z)
  : list CoperniqScore :=
  Contact.slice_to limit scores.

End Scoring.

Import Detector.

(** ** Scenarios and notions used to state the properties *)

(** The groups formed by the phone pass. *)
Definition phone_based_groups (self : MultiOEMDetector) (min_oem_count : Z)
  : list MultiOEMMatch :=
  match phone_matches self min_oem_count with
  | Returned (matches, _) => matches
  | Raised _ => []
  end.

Definition mk_dealer (n p d : string) : StandardizedDealer :=
  {| name := n; phone := p; domain := d; website := ""; street := ""; city := "";
     state := ""; zip := ""; address_full := ""; rating := 0; review_count := 0;
     tier := "Standard"; certifications := []; is_commercial := false;
     oem_source := ""; scraped_from_zip := ""; employee_count := None |}.

(** The three records of the phone scenario, without domains. *)
Definition generac_record : StandardizedDealer :=
  mk_dealer "ABC Electric" "(555) 123-4567" "".
Definition tesla_record : StandardizedDealer :=
  mk_dealer "ABC Electric LLC" "555-123-4567" "".
Definition enphase_record : StandardizedDealer :=
  mk_dealer "Abc Electric" "5551234567" "".

Definition three_oem_batch : MultiOEMDetector :=
  add_dealers [enphase_record] "Enphase"
    (add_dealers [tesla_record] "Tesla"
       (add_dealers [generac_record] "Generac" init)).

(** The group the phone pass forms from them. *)
Definition three_oem_group : MultiOEMMatch :=
  phone_match_of [("Generac", generac_record); ("Tesla", tesla_record);
                  ("Enphase", enphase_record)] generac_record.

(** The three names of the phone scenario. *)
Definition scenario_names : list string := ["ABC Electric"; "ABC Electric LLC"; "Abc Electric"].

Definition date_2025_09_03 : PyDate.date :=
  {| PyDate.year := 2025; PyDate.month := 9; PyDate.day := 3 |}.
Definition date_2025_03_06 : PyDate.date :=
  {| PyDate.year := 2025; PyDate.month := 3; PyDate.day := 6 |}.
Definition date_2026_06_30 : PyDate.date :=
  {| PyDate.year := 2026; PyDate.month := 6; PyDate.day := 30 |}.


(** A contractor reduced to its primary dealer, located by state and ZIP. *)
Definition contractor_at (st z : string) : MultiOEMMatch :=
  let d := {| name := "Acme Solar"; phone := "5551234567"; domain := "";
              website := ""; street := ""; city := ""; state := st; zip := z;
              address_full := ""; rating := 0; review_count := 0;
              tier := "Standard"; certifications := []; is_commercial := false;
              oem_source := "Tesla"; scraped_from_zip := z;
              employee_count := None |} in
  {| primary_dealer := d; oem_sources := {[ "Tesla" ]}; dealer_records := [d];
     match_confidence := 100; match_signals := []; multi_oem_score := 20 |}.

(** Every character of [s] satisfies [test]. *)
Fixpoint all_chars (test : ascii → bool) (s : string) : bool :=
  match s with
  | EmptyString => true
  | String c s' => test c && all_chars test s'
  end.

(** The digits of a phone string, in order. *)
Definition digits_of (phone : string) : string :=
  PyStr.filter_chars PyStr.is_digit phone.

(** The country-code step of [normalize_phone], on the digits. *)
Definition strip_country (digits : string) : string :=
  match digits with
  | EmptyString => digits
  | String c rest =>
      if Ascii.eqb c "1" && Nat.eqb (String.length digits) 11 then rest
      else digits
  end.

(** [a] does not rank below [b] in the order of the final sort: a higher
    multi-OEM score, or the same score and a confidence at least as high. *)
Definition ranks_no_lower (a b : MultiOEMMatch) : Prop :=
  multi_oem_score b < multi_oem_score a
  ∨ (multi_oem_score a = multi_oem_score b
     ∧ match_confidence b ≤ match_confidence a).

(** [x] is filed under key [k] in a dictionary of lists. *)
Definition in_bucket {V : Type} (k : string) (x : V) (d : list (string * list V))
  : Prop :=
  ∃ xs, (k, xs) ∈ d ∧ x ∈ xs.

(** [dealer] was registered under [oem_name]. *)
Definition registered (self : MultiOEMDetector) (oem_name : string)
           (dealer : StandardizedDealer) : Prop :=
  ∃ dealers, (oem_name, dealers) ∈ dealers_by_oem self ∧ dealer ∈ dealers.

(** One component of [index_dealer]: the entry is filed under the key
    [key dealer] when that key is non-empty. *)
Definition file_under (key : StandardizedDealer → string) (oem_name : string)
           (idx : index) (dealer : StandardizedDealer) : index :=
  if PyStr.truthy (key dealer)
  then PyDict.append (key dealer) (oem_name, dealer) idx
  else idx.

Definition phone_key (dealer : StandardizedDealer) : string :=
  normalize_phone (phone dealer).

Definition domain_key (dealer : StandardizedDealer) : string :=
  normalize_domain (domain dealer).

(** The index of a key function over all registered batches. *)
Definition index_of (key : StandardizedDealer → string)
           (dealers_by_oem : list (string * list StandardizedDealer))
           (idx : index) : index :=
  fold_left (λ idx '(oem_name, dealers),
               fold_left (file_under key oem_name) dealers idx)
            dealers_by_oem idx.

(** What [get_best_contact_info] has established after reading [seen]. *)
Record contact_inv (seen : list StandardizedDealer) (best : Contact.ContactInfo) : Prop := {
  inv_phone_longest :
    ∀ d, d ∈ seen →
         (String.length (phone d) ≤ String.length (Contact.contact_phone best))%nat;
  inv_phone_from :
    Contact.contact_phone best = "" ∨ ∃ d, d ∈ seen ∧ phone d = Contact.contact_phone best;
  inv_address_longest :
    ∀ d, d ∈ seen →
         (String.length (address_full d)
          ≤ String.length (Contact.contact_address_full best))%nat;
  inv_address_from :
    Contact.contact_address_full best = ""
    ∨ ∃ d, d ∈ seen ∧ address_full d = Contact.contact_address_full best;
  inv_domain_shortest :
    ∀ d, d ∈ seen → domain d ≠ "" →
         Contact.contact_domain best ≠ ""
         ∧ (String.length (Contact.contact_domain best) ≤ String.length (domain d))%nat;
  inv_domain_from :
    (Contact.contact_domain best = "" ∧ Contact.contact_website best = "")
    ∨ ∃ d, d ∈ seen ∧ domain d = Contact.contact_domain best
           ∧ website d = Contact.contact_website best
           ∧ domain d ≠ ""
}.

(** The test that the loop of [filter_contractors] applies: the state is
    an SREC state and, when the minimum priority is HIGH, its priority is
    HIGH. *)
Definition passes_filter (self : SrecItc.SRECITCFilter)
           (min_priority : option SrecItc.SRECPriority)
           (c : SrecFilter.Contractor) : bool :=
  SrecItc.is_srec_state self (SrecFilter.state_of c)
  && (negb (SrecFilter.is_high min_priority)
      || SrecFilter.is_high
           (SrecFilter.get_srec_priority self (SrecFilter.state_of c))).

(** The contractor as enrichment leaves it. *)
Definition enriched_of (self : SrecItc.SRECITCFilter) (c : SrecFilter.Contractor)
  : SrecFilter.Contractor :=
  match SrecFilter.enrich
          self (SrecFilter.get_srec_priority self (SrecFilter.state_of c)) c with
  | inr c' => c'
  | inl _ => c
  end.

(** A dealer as the filter first meets it, nothing written on it yet. *)
Definition fresh_contractor (d : StandardizedDealer) : SrecFilter.Contractor :=
  {| SrecFilter.obj := SrecFilter.DealerObj d;
     SrecFilter.srec_state_priority := None;
     SrecFilter.itc_urgency := None;
     SrecFilter.srec_metadata := None |}.

Definition dealer_in (st : string) : StandardizedDealer :=
  primary_dealer (contractor_at st "00000").

(** The rank of a priority tier, LOW lowest. *)
Definition tier_rank (tier : string) : Z :=
  if String.eqb tier "HOT" then 3
  else if String.eqb tier "HIGH" then 2
  else if String.eqb tier "MEDIUM" then 1
  else 0.

(** Descending order of total score. *)
Definition total_no_lower (a b : Scoring.CoperniqScore) : Prop :=
  Scoring.total_score b ≤ Scoring.total_score a.

(** A one-OEM contractor with a known number of employees. *)
Definition contractor_with_employees (n : Z) : MultiOEMMatch :=
  let d := {| name := "Acme Solar"; phone := "5551234567"; domain := "";
              website := ""; street := ""; city := ""; state := "CA";
              zip := "90210"; address_full := ""; rating := 0; review_count := 0;
              tier := "Standard"; certifications := []; is_commercial := true;
              oem_source := "Tesla"; scraped_from_zip := "90210";
              employee_count := Some n |} in
  {| primary_dealer := d; oem_sources := {[ "Tesla" ]}; dealer_records := [d];
     match_confidence := 100; match_signals := []; multi_oem_score := 20 |}.

(** * Properties *)

(** ** Dates *)

Module PyDateFacts.

Import PyDate.

Lemma month_cases (m : Z) :
  1 <= m <= 12 ->
  m = 1 \/ m = 2 \/ m = 3 \/ m = 4 \/ m = 5 \/ m = 6
  \/ m = 7 \/ m = 8 \/ m = 9 \/ m = 10 \/ m = 11 \/ m = 12.
Proof. lia. Qed.

Lemma days_before_month_nonneg (y m : Z) : 0 <= days_before_month y m.
Proof.
  unfold days_before_month.
  assert (0 <= (if (2 <? m) && is_leap y then 1 else 0)) by (destruct (_ && _); lia).
  destruct m as [|p|p]; try lia.
  do 4 (destruct p as [p|p|]; try lia).
Qed.

Lemma days_before_year_mono (y y' : Z) :
  0 <= y <= y' -> days_before_year y <= days_before_year y'.
Proof.
  intros H. unfold days_before_year. cbv zeta.
  pose proof (Z.div_le_mono (y - 1) (y' - 1) 4).
  pose proof (Z.div_le_mono (y - 1) (y' - 1) 400).
  assert ((y' - 1) / 100 - (y - 1) / 100 <= y' - y) by
    (Z.to_euclidean_division_equations; lia).
  lia.
Qed.

(** The ordinal respects the calendar order from 2026-06-30 onwards. *)
Lemma toordinal_from_mid_2026 (r : date) :
  valid r ->
  le {| year := 2026; month := 6; day := 30 |} r ->
  toordinal {| year := 2026; month := 6; day := 30 |} <= toordinal r.
Proof.
  intros (Hy & Hm & Hd) Hle.
  destruct r as [y m d]. unfold le, toordinal in *. simpl in *.
  change (days_before_year 2026) with 739616.
  change (days_before_month 2026 6) with 151.
  destruct Hle as [Hlt | [<- Hmd]].
  - pose proof (days_before_year_mono 2027 y ltac:(lia)) as Hmono.
    pose proof (days_before_month_nonneg y m).
    change (days_before_year 2027) with 739981 in Hmono. lia.
  - change (days_before_year 2026) with 739616.
    destruct (month_cases m Hm) as [->|[->|[->|[->|[->|[->|[->|[->|[->|[->|[->| ->]]]]]]]]]]];
      unfold days_before_month, days_in_month, is_leap in *; simpl in *; lia.
Qed.

End PyDateFacts.

(** ** Incentive-deadline urgency *)

Module SrecItcFacts.

Import PyDate SrecItc.

Lemma residential_before_commercial (r : date) :
  days_between ITC_RESIDENTIAL_DEADLINE r
  = days_between ITC_COMMERCIAL_SAFE_HARBOR r - 181.
Proof.
  unfold days_between.
  change (toordinal ITC_RESIDENTIAL_DEADLINE) with 739616.
  change (toordinal ITC_COMMERCIAL_SAFE_HARBOR) with 739797. lia.
Qed.

(** Once neither deadline lies ahead, only the state decides. *)
Lemma urgency_without_deadline (date_today : date) (state_code : string)
      (is_commercial : bool) (reference_date : option date) :
  days_between ITC_COMMERCIAL_SAFE_HARBOR
               (default date_today reference_date) <= 0 ->
  calculate_itc_urgency (init date_today) state_code is_commercial reference_date
  = if is_srec_state (init date_today) state_code then MEDIUM else LOW.
Proof.
  intros Hc. unfold calculate_itc_urgency. cbn [init today commercial_safe_harbor
    residential_itc_deadline].
  rewrite residential_before_commercial.
  set (n := days_between _ _) in *.
  replace (0 <? n) with false by (symmetry; apply Z.ltb_ge; lia).
  replace (0 <? n - 181) with false by (symmetry; apply Z.ltb_ge; lia).
  rewrite !andb_false_r. reflexivity.
Qed.

End SrecItcFacts.

(** C5 (as the code has it).  A contractor flagged commercial, evaluated
    300 days before the commercial safe-harbor deadline, is CRITICAL.  A
    contractor not flagged commercial, evaluated 300 days before the
    residential deadline, is outside the 180-day residential window: the
    urgency is MEDIUM in an SREC state and LOW elsewhere. *)
Theorem urgency_300_days_before_deadline
        (date_today : PyDate.date) (state_code : string)
        (ref_commercial ref_residential : PyDate.date) :
  PyDate.days_between SrecItc.ITC_COMMERCIAL_SAFE_HARBOR ref_commercial = 300 ->
  PyDate.days_between SrecItc.ITC_RESIDENTIAL_DEADLINE ref_residential = 300 ->
  SrecItc.calculate_itc_urgency (SrecItc.init date_today) state_code true
                                (Some ref_commercial)
  = SrecItc.CRITICAL
  /\ SrecItc.calculate_itc_urgency (SrecItc.init date_today) state_code false
                                   (Some ref_residential)
     = (if SrecItc.is_srec_state (SrecItc.init date_today) state_code
        then SrecItc.MEDIUM else SrecItc.LOW).
Proof.
  intros Hc Hr. unfold SrecItc.calculate_itc_urgency. simpl.
  rewrite Hc, Hr. simpl. done.
Qed.

Lemma urgency_300_days_before_deadline_witness :
  SrecItc.calculate_itc_urgency (SrecItc.init date_2026_06_30) "CA" true
                                (Some date_2025_09_03)
  = SrecItc.CRITICAL
  /\ SrecItc.calculate_itc_urgency (SrecItc.init date_2026_06_30) "CA" false
                                   (Some date_2025_03_06)
     = SrecItc.MEDIUM.
Proof.
  exact (urgency_300_days_before_deadline date_2026_06_30 "CA"
           date_2025_09_03 date_2025_03_06 eq_refl eq_refl).
Defined.

(** C5, the claim as stated fails: 2025-03-06 is 300 days before the
    residential deadline, and a contractor in California that is not
    flagged commercial is MEDIUM on that day, not HIGH. *)
Lemma urgency_residential_300_days_not_high :
  PyDate.days_between SrecItc.ITC_RESIDENTIAL_DEADLINE date_2025_03_06 = 300
  /\ SrecItc.calculate_itc_urgency (SrecItc.init date_2026_06_30) "CA" false
                                   (Some date_2025_03_06)
     = SrecItc.MEDIUM
  /\ SrecItc.MEDIUM <> SrecItc.HIGH.
Proof. repeat split; [vm_compute; reflexivity .. | discriminate]. Qed.

(** C10.  From the commercial safe-harbor deadline (2026-06-30) onwards
    the urgency is never CRITICAL nor HIGH, whatever the state code and
    the commercial flag: it is MEDIUM for the states of the SREC table
    and LOW for the others. *)
Theorem urgency_after_safe_harbor
        (date_today : PyDate.date) (state_code : string) (is_commercial : bool)
        (reference_date : option PyDate.date) :
  PyDate.valid (default date_today reference_date) ->
  PyDate.le SrecItc.ITC_COMMERCIAL_SAFE_HARBOR (default date_today reference_date) ->
  SrecItc.calculate_itc_urgency (SrecItc.init date_today) state_code
                                is_commercial reference_date
  = (if SrecItc.is_srec_state (SrecItc.init date_today) state_code
     then SrecItc.MEDIUM else SrecItc.LOW)
  /\ SrecItc.calculate_itc_urgency (SrecItc.init date_today) state_code
                                   is_commercial reference_date
     <> SrecItc.CRITICAL
  /\ SrecItc.calculate_itc_urgency (SrecItc.init date_today) state_code
                                   is_commercial reference_date
     <> SrecItc.HIGH.
Proof.
  intros Hv Hle.
  pose proof (PyDateFacts.toordinal_from_mid_2026 _ Hv Hle) as Hord.
  rewrite SrecItcFacts.urgency_without_deadline
    by (unfold PyDate.days_between, SrecItc.ITC_COMMERCIAL_SAFE_HARBOR; lia).
  destruct (SrecItc.is_srec_state _ _); repeat split; discriminate.
Qed.

Lemma urgency_after_safe_harbor_witness :
  SrecItc.calculate_itc_urgency (SrecItc.init date_2025_03_06) "tx" true
                                (Some date_2026_06_30)
  = SrecItc.MEDIUM.
Proof.
  refine (proj1 (urgency_after_safe_harbor date_2025_03_06 "tx" true
                   (Some date_2026_06_30) _ _)).
  - vm_compute. repeat split; discriminate.
  - right. split; [reflexivity | right; split; [reflexivity | simpl; lia]].
Defined.

(** ** Dictionaries *)

Module PyDictFacts.

Section Dict.
Context {V : Type}.
Implicit Types (k : string) (d : list (string * V)).

Lemma set_set k (v1 v2 : V) d :
  PyDict.set k v2 (PyDict.set k v1 d) = PyDict.set k v2 d.
Proof.
  induction d as [|[k' v'] d IH]; simpl.
  - by rewrite String.eqb_refl.
  - destruct (String.eqb k' k) eqn:E; simpl; rewrite E; [done | by rewrite IH].
Qed.

Lemma get_set k (v : V) d : PyDict.get k (PyDict.set k v d) = Some v.
Proof.
  induction d as [|[k' v'] d IH]; simpl.
  - by rewrite String.eqb_refl.
  - destruct (String.eqb k' k) eqn:E; simpl; by rewrite E.
Qed.

Lemma append_keys k (x : V) (d : list (string * list V)) :
  fst <$> PyDict.append k x d = fst <$> d
  ∨ (k ∉ fst <$> d) ∧ fst <$> PyDict.append k x d = app (fst <$> d) [k].
Proof.
  induction d as [|[k' xs] d IH]; csimpl.
  - right. split; [apply not_elem_of_nil | done].
  - destruct (String.eqb_spec k' k) as [->|Hne]; csimpl; [by left |].
    destruct IH as [-> | [Hni ->]]; [by left | right].
    split; [| done]. rewrite elem_of_cons. by intros [-> | ?].
Qed.

Lemma append_NoDup k (x : V) (d : list (string * list V)) :
  NoDup d.*1 → NoDup (PyDict.append k x d).*1.
Proof.
  intros Hd. destruct (append_keys k x d) as [-> | [Hni ->]]; [done |].
  apply NoDup_app. repeat split; [done | | apply NoDup_singleton].
  intros y Hy ->%list_elem_of_singleton. done.
Qed.

Lemma append_nonempty k (x : V) (d : list (string * list V)) :
  Forall (λ kv, kv.2 ≠ []) d → Forall (λ kv, kv.2 ≠ []) (PyDict.append k x d).
Proof.
  induction 1 as [|[k' xs] d Hx Hd IH]; simpl.
  - constructor; [done | constructor].
  - destruct (String.eqb k' k); constructor; simpl in *; try done.
    by destruct xs.
Qed.

Lemma append_not_nil k (x : V) (d : list (string * list V)) :
  PyDict.append k x d ≠ [].
Proof. destruct d as [|[k' xs] d]; simpl; [done | by destruct (String.eqb k' k)]. Qed.

End Dict.

End PyDictFacts.

(** ** The resolver *)

Module DetectorFacts.

Import Detector.

Lemma index_dealer_nonempty oem_name idx dealer :
  nonempty_buckets idx.1 → nonempty_buckets idx.2 →
  nonempty_buckets (index_dealer oem_name idx dealer).1
  ∧ nonempty_buckets (index_dealer oem_name idx dealer).2.
Proof.
  destruct idx as [pi di]. simpl. intros Hp Hd.
  split; [destruct (PyStr.truthy (normalize_phone _))
         | destruct (PyStr.truthy (normalize_domain _))];
    simpl; try done; by apply PyDictFacts.append_nonempty.
Qed.

Lemma fold_index_dealer_nonempty oem_name dealers idx :
  nonempty_buckets idx.1 → nonempty_buckets idx.2 →
  nonempty_buckets (fold_left (index_dealer oem_name) dealers idx).1
  ∧ nonempty_buckets (fold_left (index_dealer oem_name) dealers idx).2.
Proof.
  revert idx. induction dealers as [|d ds IH]; intros idx Hp Hd; simpl; [done |].
  destruct (index_dealer_nonempty oem_name idx d Hp Hd). by apply IH.
Qed.

Lemma build_indexes_nonempty dbo :
  nonempty_buckets (build_indexes dbo).1 ∧ nonempty_buckets (build_indexes dbo).2.
Proof.
  unfold build_indexes.
  assert (Hgen : ∀ idx, nonempty_buckets idx.1 → nonempty_buckets idx.2 →
    let r := fold_left (λ idx '(oem_name, dealers),
               fold_left (index_dealer oem_name) dealers idx) dbo idx in
    nonempty_buckets r.1 ∧ nonempty_buckets r.2).
  { induction dbo as [|[o ds] dbo IH]; intros idx Hp Hd; simpl; [done |].
    destruct (fold_index_dealer_nonempty o ds idx Hp Hd). by apply IH. }
  apply Hgen; constructor.
Qed.

(** The OEM names of a bucket, each once. *)
Lemma group_by_oem_NoDup entries : NoDup (group_by_oem entries).*1.
Proof.
  unfold group_by_oem.
  assert (Hgen : ∀ acc : list (string * list StandardizedDealer), NoDup acc.*1 →
    NoDup (fold_left (λ acc '(oem_name, dealer), PyDict.append oem_name dealer acc)
                     entries acc).*1).
  { induction entries as [|[o d] es IH]; intros acc Hacc; simpl; [done |].
    by apply IH, PyDictFacts.append_NoDup. }
  apply Hgen. constructor.
Qed.

Lemma group_by_oem_not_nil entries : entries ≠ [] → group_by_oem entries ≠ [].
Proof.
  unfold group_by_oem.
  assert (Hgen : ∀ es (acc : list (string * list StandardizedDealer)), acc ≠ [] →
    fold_left (λ acc '(oem_name, dealer), PyDict.append oem_name dealer acc)
              es acc ≠ []).
  { induction es as [|[o d] es IH]; intros acc Hacc; simpl; [done |].
    apply IH, PyDictFacts.append_not_nil. }
  destruct entries as [|[o d] es]; [done | intros _; simpl].
  by apply Hgen.
Qed.

Lemma oem_count_group entries :
  oem_count (list_to_set (group_by_oem entries).*1) = len (group_by_oem entries).
Proof.
  unfold oem_count, len.
  rewrite size_list_to_set by apply group_by_oem_NoDup.
  by rewrite length_fmap.
Qed.

Lemma max_dealer_returns l :
  l ≠ [] → ∃ p, max_dealer l = Returned p ∧ p ∈ l.
Proof.
  destruct l as [|d rest]; [done | intros _; simpl].
  eexists; split; [done |].
  assert (Hgen : ∀ best, best ∈ d :: rest →
    fold_left (λ best x, if key_gt x best then x else best) rest best ∈ d :: rest);
    [| apply Hgen; set_solver].
  assert (Hincl : rest ⊆ d :: rest) by set_solver.
  revert Hincl. generalize (d :: rest) as all.
  induction rest as [|x xs IH]; intros all Hincl best Hbest; simpl; [done |].
  apply IH; [set_solver |]. destruct (key_gt x best); set_solver.
Qed.

Lemma phone_group_eq min_oem_count phone_norm entries :
  entries ≠ [] →
  ∃ primary,
    max_dealer entries.*2 = Returned primary ∧ primary ∈ entries.*2
    ∧ phone_group min_oem_count phone_norm entries
      = Returned
          (if (len entries <? min_oem_count)
              || (len (group_by_oem entries) <? min_oem_count)
           then None
           else Some (phone_match_of entries primary,
                      (phone_norm, normalize_domain (domain primary)))).
Proof.
  intros Hne.
  destruct (max_dealer_returns entries.*2) as (p & Hp & Hin);
    [by destruct entries |].
  exists p. split; [done | split; [done |]].
  unfold phone_group.
  destruct (len entries <? min_oem_count); [done |].
  destruct (len (group_by_oem entries) <? min_oem_count); simpl; [done |].
  by rewrite Hp.
Qed.

Lemma domain_group_eq min_oem_count processed domain_norm entries :
  entries ≠ [] →
  ∃ primary first,
    max_dealer entries.*2 = Returned primary ∧ primary ∈ entries.*2
    ∧ head entries.*2 = Some first
    ∧ domain_group min_oem_count processed domain_norm entries
      = Returned
          (if (len entries <? min_oem_count)
              || bool_decide ((normalize_phone (phone first), domain_norm)
                                ∈ processed)
              || (len (group_by_oem entries) <? min_oem_count)
           then None
           else Some (domain_match_of entries primary)).
Proof.
  intros Hne.
  destruct (max_dealer_returns entries.*2) as (p & Hp & Hin);
    [by destruct entries |].
  destruct entries as [|[o first] rest]; [done |].
  exists p, first. split; [done | split; [done | split; [done |]]].
  unfold domain_group.
  destruct (len _ <? min_oem_count); [done |].
  destruct (bool_decide _); [done |].
  destruct (len (group_by_oem _) <? min_oem_count); [done |].
  cbn [orb]. by rewrite Hp.
Qed.

Lemma phone_pass_returns min_oem_count idx matches processed :
  nonempty_buckets idx →
  ∃ r, phone_pass min_oem_count idx matches processed = Returned r.
Proof.
  intros H. revert matches processed.
  induction H as [|[k entries] idx Hk _ IH]; intros matches processed; simpl.
  - by eexists.
  - destruct (phone_group_eq min_oem_count k entries Hk) as (p & _ & _ & ->).
    simpl. destruct (_ || _); apply IH.
Qed.

Lemma phone_pass_elem min_oem_count idx matches processed matches' processed' m :
  nonempty_buckets idx →
  phone_pass min_oem_count idx matches processed = Returned (matches', processed') →
  m ∈ matches' →
  m ∈ matches
  ∨ ∃ k entries primary,
      (k, entries) ∈ idx ∧ primary ∈ entries.*2
      ∧ max_dealer entries.*2 = Returned primary
      ∧ min_oem_count ≤ len (group_by_oem entries)
      ∧ m = phone_match_of entries primary.
Proof.
  intros H. revert matches processed.
  induction H as [|[k entries] idx Hk _ IH]; intros matches processed; simpl.
  - intros [= <- <-] Hm. by left.
  - destruct (phone_group_eq min_oem_count k entries Hk) as (p & Hmax & Hp & ->).
    simpl. destruct (len entries <? _) eqn:E1; simpl.
    { intros Hpass Hm. destruct (IH _ _ Hpass Hm) as [? | (k' & es & p' & Hin & ?)];
        [by left | right]. exists k', es, p'. split; [by right | done]. }
    destruct (len (group_by_oem entries) <? _) eqn:E2; simpl.
    { intros Hpass Hm. destruct (IH _ _ Hpass Hm) as [? | (k' & es & p' & Hin & ?)];
        [by left | right]. exists k', es, p'. split; [by right | done]. }
    intros Hpass Hm.
    destruct (IH _ _ Hpass Hm) as [[?| ->%list_elem_of_singleton]%elem_of_app
                                  | (k' & es & p' & Hin & ?)].
    + by left.
    + right. exists k, entries, p. apply Z.ltb_ge in E2.
      split; [by left | done].
    + right. exists k', es, p'. split; [by right | done].
Qed.

Lemma domain_pass_returns min_oem_count processed idx matches :
  nonempty_buckets idx →
  ∃ r, domain_pass min_oem_count processed idx matches = Returned r.
Proof.
  intros H. revert matches.
  induction H as [|[k entries] idx Hk _ IH]; intros matches; simpl.
  - by eexists.
  - destruct (domain_group_eq min_oem_count processed k entries Hk)
      as (p & f & _ & _ & _ & ->).
    simpl. destruct (_ || _); apply IH.
Qed.

Lemma domain_pass_elem min_oem_count processed idx matches matches' m :
  nonempty_buckets idx →
  domain_pass min_oem_count processed idx matches = Returned matches' →
  m ∈ matches' →
  m ∈ matches
  ∨ ∃ k entries primary,
      (k, entries) ∈ idx ∧ primary ∈ entries.*2
      ∧ max_dealer entries.*2 = Returned primary
      ∧ min_oem_count ≤ len (group_by_oem entries)
      ∧ m = domain_match_of entries primary.
Proof.
  intros H. revert matches.
  induction H as [|[k entries] idx Hk _ IH]; intros matches; simpl.
  - intros [= <-] Hm. by left.
  - destruct (domain_group_eq min_oem_count processed k entries Hk)
      as (p & f & Hmax & Hp & _ & ->).
    simpl. destruct (_ || bool_decide _) eqn:E1; simpl.
    { intros Hpass Hm. destruct (IH _ Hpass Hm) as [? | (k' & es & p' & Hin & ?)];
        [by left | right]. exists k', es, p'. split; [by right | done]. }
    destruct (len (group_by_oem entries) <? _) eqn:E2; simpl.
    { intros Hpass Hm. destruct (IH _ Hpass Hm) as [? | (k' & es & p' & Hin & ?)];
        [by left | right]. exists k', es, p'. split; [by right | done]. }
    intros Hpass Hm.
    destruct (IH _ Hpass Hm) as [[?| ->%list_elem_of_singleton]%elem_of_app
                                | (k' & es & p' & Hin & ?)].
    + by left.
    + right. exists k, entries, p. apply Z.ltb_ge in E2.
      split; [by left | done].
    + right. exists k', es, p'. split; [by right | done].
Qed.

Lemma elem_of_insert_desc m x sorted :
  m ∈ insert_desc x sorted ↔ m = x ∨ m ∈ sorted.
Proof.
  induction sorted as [|y rest IH]; simpl.
  - rewrite list_elem_of_singleton, elem_of_nil. tauto.
  - destruct (sort_key_lt x y); rewrite !elem_of_cons, ?IH; tauto.
Qed.

Lemma elem_of_sort_matches m matches : m ∈ sort_matches matches ↔ m ∈ matches.
Proof.
  unfold sort_matches. induction matches as [|x xs IH]; simpl; [done |].
  rewrite elem_of_insert_desc, IH, elem_of_cons. done.
Qed.

(** The resolver always returns: its buckets are never empty, so
    neither [max] nor [entries[0]] can raise. *)
Lemma find_eq self min_oem_count :
  ∃ phone_ms processed ms,
    phone_matches self min_oem_count = Returned (phone_ms, processed)
    ∧ domain_pass min_oem_count processed
                  (build_indexes (dealers_by_oem self)).2 phone_ms
      = Returned ms
    ∧ find_multi_oem_contractors self min_oem_count
      = Returned (sort_matches ms,
                  {| dealers_by_oem := dealers_by_oem self;
                     multi_oem_matches := sort_matches ms |}).
Proof.
  unfold find_multi_oem_contractors, phone_matches.
  destruct (build_indexes_nonempty (dealers_by_oem self)) as [Hp Hd].
  destruct (build_indexes (dealers_by_oem self)) as [pidx didx]; simpl in *.
  destruct (phone_pass_returns min_oem_count pidx [] ∅ Hp) as [[pm proc] Hpm].
  destruct (domain_pass_returns min_oem_count proc didx pm Hd) as [ms Hms].
  exists pm, proc, ms. rewrite Hpm. simpl. rewrite Hms. done.
Qed.

Lemma len_pos {A : Type} (l : list A) : l ≠ [] → 1 ≤ len l.
Proof. destruct l; [done | unfold len; simpl; lia]. Qed.

Lemma phone_group_below_one min_oem_count phone_norm entries :
  min_oem_count < 1 → entries ≠ [] →
  phone_group min_oem_count phone_norm entries = phone_group 1 phone_norm entries.
Proof.
  intros Hmin Hne. unfold phone_group.
  pose proof (len_pos entries Hne).
  pose proof (len_pos _ (group_by_oem_not_nil entries Hne)).
  by rewrite !(proj2 (Z.ltb_ge _ _)) by lia.
Qed.

Lemma domain_group_below_one min_oem_count processed domain_norm entries :
  min_oem_count < 1 → entries ≠ [] →
  domain_group min_oem_count processed domain_norm entries
  = domain_group 1 processed domain_norm entries.
Proof.
  intros Hmin Hne. unfold domain_group.
  pose proof (len_pos entries Hne).
  pose proof (len_pos _ (group_by_oem_not_nil entries Hne)).
  by rewrite !(proj2 (Z.ltb_ge _ _)) by lia.
Qed.

Lemma phone_pass_below_one min_oem_count idx matches processed :
  min_oem_count < 1 → nonempty_buckets idx →
  phone_pass min_oem_count idx matches processed = phone_pass 1 idx matches processed.
Proof.
  intros Hmin H. revert matches processed.
  induction H as [|[k entries] idx Hk _ IH]; intros matches processed; simpl; [done |].
  rewrite (phone_group_below_one min_oem_count) by done.
  destruct (phone_group 1 k entries) as [[[m pc]|]|]; simpl; by rewrite ?IH.
Qed.

Lemma domain_pass_below_one min_oem_count processed idx matches :
  min_oem_count < 1 → nonempty_buckets idx →
  domain_pass min_oem_count processed idx matches = domain_pass 1 processed idx matches.
Proof.
  intros Hmin H. revert matches.
  induction H as [|[k entries] idx Hk _ IH]; intros matches; simpl; [done |].
  rewrite (domain_group_below_one min_oem_count) by done.
  destruct (domain_group 1 processed k entries) as [[m|]|]; simpl; by rewrite ?IH.
Qed.

Lemma find_below_one self min_oem_count :
  min_oem_count < 1 →
  find_multi_oem_contractors self min_oem_count = find_multi_oem_contractors self 1.
Proof.
  intros Hmin. unfold find_multi_oem_contractors.
  destruct (build_indexes_nonempty (dealers_by_oem self)) as [Hp Hd].
  destruct (build_indexes (dealers_by_oem self)) as [pidx didx]; simpl in *.
  rewrite (phone_pass_below_one min_oem_count) by done.
  destruct (phone_pass 1 pidx [] ∅) as [[pm proc]|]; simpl; [| done].
  by rewrite (domain_pass_below_one min_oem_count).
Qed.

(** The score of a group follows its number of OEMs. *)
Lemma calculate_multi_oem_score_steps oems :
  (oem_count oems = 1 → calculate_multi_oem_score oems = 20)
  ∧ (oem_count oems = 2 → calculate_multi_oem_score oems = 60)
  ∧ (3 ≤ oem_count oems → calculate_multi_oem_score oems = 100).
Proof.
  unfold calculate_multi_oem_score.
  repeat split; intros H.
  - by rewrite H.
  - by rewrite H.
  - by rewrite (proj2 (Z.leb_le _ _) H).
Qed.

(** Every group of a result, from either pass, is built from a bucket
    with enough OEMs. *)
Lemma find_elem self min_oem_count ms self' m :
  find_multi_oem_contractors self min_oem_count = Returned (ms, self') →
  m ∈ ms →
  ∃ entries primary,
    entries ≠ [] ∧ primary ∈ entries.*2
    ∧ min_oem_count ≤ len (group_by_oem entries)
    ∧ (m = phone_match_of entries primary ∨ m = domain_match_of entries primary).
Proof.
  destruct (find_eq self min_oem_count) as (pm & proc & ms0 & Hpm & Hdm & ->).
  intros [= <- <-] Hm. apply (proj1 (elem_of_sort_matches _ _)) in Hm.
  destruct (build_indexes_nonempty (dealers_by_oem self)) as [Hp Hd].
  pose proof (proj1 (Forall_forall _ _) Hp) as Hp'.
  pose proof (proj1 (Forall_forall _ _) Hd) as Hd'.
  destruct (domain_pass_elem _ _ _ _ _ _ Hd Hdm Hm)
    as [Hm' | (k & es & p & Hin & Hpin & _ & Hlen & ->)].
  - destruct (phone_pass_elem _ _ _ _ _ _ _ Hp Hpm Hm')
      as [[]%elem_of_nil | (k & es & p & Hin & Hpin & _ & Hlen & ->)].
    exists es, p. split; [apply (Hp' _ Hin) | eauto].
  - exists es, p. split; [apply (Hd' _ Hin) | eauto].
Qed.

End DetectorFacts.

Module DetectorSignals.

Import Detector DetectorFacts.

Lemma truthy_true (s : string) : PyStr.truthy s = true ↔ s ≠ "".
Proof. by destruct s. Qed.

Lemma mem_string_elem_of (x : string) (l : list string) :
  mem_string x l = true ↔ x ∈ l.
Proof.
  unfold mem_string. rewrite existsb_exists. split.
  - intros (y & Hy%list_elem_of_In & ->%String.eqb_eq). done.
  - intros Hx. exists x. rewrite String.eqb_refl. by rewrite <- list_elem_of_In.
Qed.

Lemma domain_matches_true (domain_norm : string) (all_dealers : list StandardizedDealer) :
  domain_matches domain_norm all_dealers = true
  ↔ domain_norm ≠ ""
    ∧ ∀ d, d ∈ all_dealers → domain d ≠ "" →
           normalize_domain (domain d) = domain_norm.
Proof.
  unfold domain_matches.
  rewrite andb_true_iff, truthy_true, forallb_forall.
  apply and_iff_compat_l. split.
  - intros H d Hd Hne. apply String.eqb_eq, H, list_elem_of_In, list_elem_of_filter.
    by rewrite truthy_true.
  - intros H d [Hne Hd]%list_elem_of_In%list_elem_of_filter.
    apply String.eqb_eq, H; [done | by apply truthy_true].
Qed.

Lemma name_matches_true (primary : StandardizedDealer)
      (all_dealers : list StandardizedDealer) :
  name_matches primary all_dealers = true
  ↔ ∀ d, d ∈ all_dealers →
         (fuzzy_name_match (name primary) (name d) default_threshold).1 = true.
Proof.
  unfold name_matches. rewrite forallb_forall.
  split; intros H d Hd; apply H; by apply list_elem_of_In.
Qed.

Lemma phone_signals (dm nm : bool) :
  let signals :=
    app ["phone"] (app (if dm then ["domain"] else []) (if nm then ["name"] else [])) in
  "phone" ∈ signals
  ∧ ("domain" ∈ signals ↔ dm = true)
  ∧ ("name" ∈ signals ↔ nm = true)
  ∧ Z.min (len signals * 30 + 10) 100
    = 30 * ((if dm then 1 else 0) + (if nm then 1 else 0)) + 40
  ∧ len signals = 1 + (if dm then 1 else 0) + (if nm then 1 else 0).
Proof.
  destruct dm, nm; simpl;
    (split; [by left |]); (split; [|split; [|by split]]);
    rewrite ?elem_of_cons, ?elem_of_nil; intuition discriminate.
Qed.

Lemma domain_pass_keeps min_oem_count processed idx matches matches' m :
  domain_pass min_oem_count processed idx matches = Returned matches' →
  m ∈ matches → m ∈ matches'.
Proof.
  revert matches. induction idx as [|[k entries] idx IH]; intros matches; simpl.
  - by intros [= <-].
  - destruct (domain_group _ _ _ _) as [[m'|]|]; simpl; [| apply IH | done].
    intros Hpass Hm. apply (IH _ Hpass). apply elem_of_app. by left.
Qed.

End DetectorSignals.

(** C2.  Resolution always returns, and every group of the result has at
    least [min_oem_count] distinct OEM names (and at least one); its
    multi-OEM score is the step function of that number: 20 for one OEM,
    60 for two, 100 for three or more. *)
Theorem resolved_groups_oem_count_and_score
        (self : MultiOEMDetector) (min_oem_count : Z) :
  ∃ matches self',
    find_multi_oem_contractors self min_oem_count = Returned (matches, self')
    ∧ ∀ m, m ∈ matches →
        min_oem_count ≤ oem_count (oem_sources m)
        ∧ 1 ≤ oem_count (oem_sources m)
        ∧ (oem_count (oem_sources m) = 1 → multi_oem_score m = 20)
        ∧ (oem_count (oem_sources m) = 2 → multi_oem_score m = 60)
        ∧ (3 ≤ oem_count (oem_sources m) → multi_oem_score m = 100).
Proof.
  destruct (DetectorFacts.find_eq self min_oem_count)
    as (pm & proc & ms & _ & _ & Hfind).
  eexists _, _. split; [exact Hfind |].
  intros m Hm.
  destruct (DetectorFacts.find_elem _ _ _ _ _ Hfind Hm)
    as (entries & primary & Hne & _ & Hlen & Hcase).
  assert (Hsrc : oem_sources m = list_to_set (group_by_oem entries).*1
                 ∧ multi_oem_score m = calculate_multi_oem_score (oem_sources m))
    by (destruct Hcase as [-> | ->]; done).
  destruct Hsrc as [Hsrc ->]. rewrite Hsrc, DetectorFacts.oem_count_group.
  split; [done |]. split.
  - apply DetectorFacts.len_pos. by apply DetectorFacts.group_by_oem_not_nil.
  - rewrite <- DetectorFacts.oem_count_group.
    apply DetectorFacts.calculate_multi_oem_score_steps.
Qed.

(** C3.  A group formed by the phone pass belongs to the result of the
    resolution.  Its signals always hold "phone"; they hold "domain"
    exactly when the primary record has a non-empty normalized domain and
    every record of the group that has a domain normalizes to it; they
    hold "name" exactly when the name of every record fuzzy-matches the
    name of the primary.  The confidence is 30 times the number of
    signals plus 10, capped at 100: 40, 70 or 100. *)
Theorem phone_group_signals_and_confidence
        (self : MultiOEMDetector) (min_oem_count : Z) (m : MultiOEMMatch) :
  m ∈ phone_based_groups self min_oem_count →
  (∃ matches self',
      find_multi_oem_contractors self min_oem_count = Returned (matches, self')
      ∧ m ∈ matches)
  ∧ "phone" ∈ match_signals m
  ∧ ("domain" ∈ match_signals m
     ↔ normalize_domain (domain (primary_dealer m)) ≠ ""
       ∧ ∀ d, d ∈ dealer_records m → domain d ≠ "" →
              normalize_domain (domain d)
              = normalize_domain (domain (primary_dealer m)))
  ∧ ("name" ∈ match_signals m
     ↔ ∀ d, d ∈ dealer_records m →
            (fuzzy_name_match (name (primary_dealer m)) (name d)
                              default_threshold).1 = true)
  ∧ match_confidence m = Z.min (30 * len (match_signals m) + 10) 100
  ∧ 1 ≤ len (match_signals m) ≤ 3
  ∧ (len (match_signals m) = 1 → match_confidence m = 40)
  ∧ (len (match_signals m) = 2 → match_confidence m = 70)
  ∧ (len (match_signals m) = 3 → match_confidence m = 100).
Proof.
  unfold phone_based_groups.
  destruct (DetectorFacts.find_eq self min_oem_count)
    as (pm & proc & ms & Hpm & Hdm & Hfind).
  rewrite Hpm. intros Hm. split.
  { eexists _, _. split; [exact Hfind |].
    apply DetectorFacts.elem_of_sort_matches.
    by apply (DetectorSignals.domain_pass_keeps _ _ _ _ _ _ Hdm). }
  destruct (DetectorFacts.build_indexes_nonempty (dealers_by_oem self)) as [Hp _].
  destruct (DetectorFacts.phone_pass_elem _ _ _ _ _ _ _ Hp Hpm Hm)
    as [[]%elem_of_nil | (k & es & p & _ & _ & _ & _ & ->)].
  unfold phone_match_of.
  cbn [match_signals match_confidence primary_dealer dealer_records].
  destruct (DetectorSignals.phone_signals
              (domain_matches (normalize_domain (domain p)) es.*2)
              (name_matches p es.*2)) as (Hphone & Hdom & Hname & Hconf & Hlen).
  cbv zeta in *.
  rewrite <- DetectorSignals.domain_matches_true, <- DetectorSignals.name_matches_true.
  split; [done |]. split; [done |]. split; [done |].
  rewrite (Z.mul_comm 30), Hconf, Hlen.
  destruct (domain_matches _ _), (name_matches _ _); lia.
Qed.

Lemma phone_group_signals_and_confidence_witness :
  three_oem_group ∈ phone_based_groups three_oem_batch 2
  ∧ "phone" ∈ match_signals three_oem_group
  ∧ len (match_signals three_oem_group) = 2
  ∧ match_confidence three_oem_group = 70.
Proof.
  assert (H : three_oem_group ∈ phone_based_groups three_oem_batch 2)
    by (vm_compute; constructor).
  destruct (phone_group_signals_and_confidence three_oem_batch 2 three_oem_group H)
    as (_ & Hphone & _ & _ & _ & _ & _ & H70 & _).
  split; [exact H |]. split; [exact Hphone |]. split; [reflexivity |].
  apply H70. reflexivity.
Defined.

Module FuzzyFacts.

(** The token ratio lies between 0 and 1. *)
Lemma levenshtein_ratio_bounds (s1 s2 : string) :
  (0 <= levenshtein_ratio s1 s2 <= 1)%Q.
Proof.
  assert (Hjac : ∀ a b : string,
    (0 <= (if Nat.eqb (String.length b) 0 then 0
           else if Nat.eqb (size (token_set a)) 0 || Nat.eqb (size (token_set b)) 0
           then 0
           else if (0 <? size (token_set a ∪ token_set b))%nat
           then Z.of_nat (size (token_set a ∩ token_set b))
                # Pos.of_nat (size (token_set a ∪ token_set b))
           else 0) <= 1)%Q).
  { intros a b. destruct (Nat.eqb (String.length b) 0); [done |].
    destruct (_ || _); [done |].
    destruct (Nat.ltb_spec 0 (size (token_set a ∪ token_set b))) as [Hpos|]; [| done].
    unfold Qle; simpl; split; [lia |].
    rewrite Z.mul_1_r, Z.mul_1_l, <- (positive_nat_Z (Pos.of_nat _)), Nat2Pos.id by lia.
    apply Nat2Z.inj_le.
    apply subseteq_size. intros x [Hx _]%elem_of_intersection.
    apply elem_of_union. by left. }
  unfold levenshtein_ratio.
  destruct (String.length s1 <? String.length s2)%nat; apply Hjac.
Qed.

(** With a threshold outside (0, 1] the ratio plays no part. *)
Lemma fuzzy_name_match_outside (name1 name2 : string) (threshold : Q) :
  ¬ (0 < threshold ∧ threshold <= 1)%Q →
  (fuzzy_name_match name1 name2 threshold).1 = true
  ↔ name1 ≠ "" ∧ name2 ≠ ""
    ∧ ((threshold <= 0)%Q
       ∨ normalize_name name1 = normalize_name name2
       ∨ PyStr.contains (normalize_name name1) (normalize_name name2) = true
       ∨ PyStr.contains (normalize_name name2) (normalize_name name1) = true).
Proof.
  intros Hout. unfold fuzzy_name_match.
  destruct name1 as [|c1 n1].
  { cbn [PyStr.truthy negb orb fst]. split; [done | by intros [? _]]. }
  destruct name2 as [|c2 n2].
  { cbn [PyStr.truthy negb orb fst]. split; [done | by intros (_ & ? & _)]. }
  cbn [PyStr.truthy negb orb].
  generalize (normalize_name (String c1 n1)) (normalize_name (String c2 n2)).
  intros norm1 norm2.
  destruct (String.eqb_spec norm1 norm2) as [Heq | Hne].
  { cbn [fst]. split; [intros _ | done]. repeat split; try done. right. by left. }
  destruct (PyStr.contains norm1 norm2) eqn:E1.
  { cbn [orb fst]. split; [intros _ | done]. repeat split; try done.
    right. right. by left. }
  destruct (PyStr.contains norm2 norm1) eqn:E2.
  { cbn [orb fst]. split; [intros _ | done]. repeat split; try done.
    right. right. by right. }
  cbn [orb fst].
  destruct (levenshtein_ratio_bounds norm1 norm2) as [Hlo Hhi].
  rewrite Qle_bool_iff. split.
  - intros Hle. repeat split; try done. left.
    destruct (Qlt_le_dec 0 threshold) as [Hpos | ?]; [| done].
    exfalso. apply Hout. split; [done |]. by apply (Qle_trans _ _ _ Hle).
  - intros (_ & _ & [Hle | [? | [? | ?]]]); try done.
    by apply (Qle_trans _ _ _ Hle).
Qed.

End FuzzyFacts.

(** C6 (as the code has it).  Neither call checks its configuration.
    With [min_oem_count] below 1 the resolver returns, and returns what it
    returns for 1.  With a threshold outside (0, 1] the name match returns
    too: the names match when both are non-empty and either the threshold
    is at most 0, or the normalized names are equal or one contains the
    other. *)
Theorem invalid_configuration_is_accepted
        (self : MultiOEMDetector) (min_oem_count : Z)
        (name1 name2 : string) (threshold : Q) :
  min_oem_count < 1 →
  ¬ (0 < threshold ∧ threshold <= 1)%Q →
  (∃ r, find_multi_oem_contractors self min_oem_count = Returned r
        ∧ find_multi_oem_contractors self 1 = Returned r)
  ∧ ((fuzzy_name_match name1 name2 threshold).1 = true
     ↔ name1 ≠ "" ∧ name2 ≠ ""
       ∧ ((threshold <= 0)%Q
          ∨ normalize_name name1 = normalize_name name2
          ∨ PyStr.contains (normalize_name name1) (normalize_name name2) = true
          ∨ PyStr.contains (normalize_name name2) (normalize_name name1) = true)).
Proof.
  intros Hmin Hout. split.
  - rewrite (DetectorFacts.find_below_one self min_oem_count Hmin).
    destruct (DetectorFacts.find_eq self 1) as (pm & proc & ms & _ & _ & ->).
    by eexists.
  - by apply FuzzyFacts.fuzzy_name_match_outside.
Qed.

Lemma invalid_configuration_is_accepted_witness :
  (∃ r, find_multi_oem_contractors three_oem_batch 0 = Returned r
        ∧ find_multi_oem_contractors three_oem_batch 1 = Returned r)
  ∧ ((fuzzy_name_match "ABC Electric" "XYZ Plumbing" (3 # 2)).1 = true
     ↔ "ABC Electric" ≠ "" ∧ "XYZ Plumbing" ≠ ""
       ∧ ((3 # 2 <= 0)%Q
          ∨ normalize_name "ABC Electric" = normalize_name "XYZ Plumbing"
          ∨ PyStr.contains (normalize_name "ABC Electric")
                           (normalize_name "XYZ Plumbing") = true
          ∨ PyStr.contains (normalize_name "XYZ Plumbing")
                           (normalize_name "ABC Electric") = true)).
Proof.
  apply (invalid_configuration_is_accepted three_oem_batch 0
           "ABC Electric" "XYZ Plumbing" (3 # 2)).
  - lia.
  - intros [_ H]. apply H. reflexivity.
Defined.

(** C6, the claim as stated fails: on the three-record batch the
    resolver called with [min_oem_count = 0] returns one group instead of
    raising, and the name match called with threshold 0 returns a match
    for two unrelated names. *)
Lemma invalid_configuration_not_rejected :
  (∃ m self', find_multi_oem_contractors three_oem_batch 0 = Returned ([m], self'))
  ∧ fuzzy_name_match "ABC Electric" "XYZ Plumbing" 0 = (true, (0 # 4)%Q).
Proof. split; [eexists _, _ |]; vm_compute; reflexivity. Qed.

(** C7.  Resolving twice with the same [min_oem_count], the registered
    records left alone, gives the same list both times, in content and in
    order. *)
Theorem resolve_twice_same_result (self : MultiOEMDetector) (min_oem_count : Z) :
  ∃ matches self',
    find_multi_oem_contractors self min_oem_count = Returned (matches, self')
    ∧ dealers_by_oem self' = dealers_by_oem self
    ∧ find_multi_oem_contractors self' min_oem_count = Returned (matches, self').
Proof.
  destruct (DetectorFacts.find_eq self min_oem_count)
    as (pm & proc & ms & _ & _ & Hfind).
  eexists _, _. split; [exact Hfind |]. split; [done |].
  rewrite <- Hfind. reflexivity.
Qed.

(** C9.  A second [add_dealers] under the same OEM name replaces the
    first batch: the detector holds the second batch under that name, it
    is the detector the second call alone would have produced, and so
    resolution sees nothing of the first batch. *)
Theorem add_dealers_same_oem_replaces
        (self : MultiOEMDetector) (first second : list StandardizedDealer)
        (oem_name : string) (min_oem_count : Z) :
  let twice := add_dealers second oem_name (add_dealers first oem_name self) in
  PyDict.get oem_name (dealers_by_oem twice) = Some second
  ∧ twice = add_dealers second oem_name self
  ∧ find_multi_oem_contractors twice min_oem_count
    = find_multi_oem_contractors (add_dealers second oem_name self) min_oem_count.
Proof.
  intros twice.
  assert (Heq : twice = add_dealers second oem_name self).
  { unfold twice, add_dealers. simpl. by rewrite PyDictFacts.set_set. }
  split; [| split; [done | by rewrite Heq]].
  rewrite Heq. apply PyDictFacts.get_set.
Qed.

(** C8 (as the code has it).  In a state of the wealthy-ZIP table the
    geography score is 10 when the ZIP is among the first ten entries of
    the state's list, 7 when it is in the list but not among the first
    ten, and 3 when it is not in the list.  In a state that the table does
    not have the score is 0. *)
Theorem geographic_score_bands (contractor : MultiOEMMatch) :
  let st := state (primary_dealer contractor) in
  let zip_code := zip (primary_dealer contractor) in
  let score := (LeadScorer.score_geographic_value LeadScorer.init contractor).1 in
  (PyDict.get st LeadScorer.WEALTHY_ZIPS = None → score = 0)
  ∧ (∀ zips, PyDict.get st LeadScorer.WEALTHY_ZIPS = Some zips →
       (zip_code ∈ take 10 zips → score = 10)
       ∧ (zip_code ∈ zips → zip_code ∉ take 10 zips → score = 7)
       ∧ (zip_code ∉ zips → score = 3)).
Proof.
  intros st zip_code score. subst score.
  unfold LeadScorer.score_geographic_value.
  cbn [LeadScorer.wealthy_zips LeadScorer.init]. fold st zip_code.
  destruct (PyDict.get st LeadScorer.WEALTHY_ZIPS) as [zips|]; [| by split].
  split; [done |]. intros ? [= <-].
  destruct (mem_string zip_code (take 10 zips)) eqn:E10.
  { apply DetectorSignals.mem_string_elem_of in E10. cbn [fst].
    repeat split; [done.. |].
    intros Hni. exfalso. apply Hni. revert E10. apply subseteq_take. }
  assert (zip_code ∉ take 10 zips) as Hn10.
  { rewrite <- DetectorSignals.mem_string_elem_of. by rewrite E10. }
  destruct (mem_string zip_code zips) eqn:E.
  - apply DetectorSignals.mem_string_elem_of in E. by cbn [fst].
  - assert (zip_code ∉ zips)
      by (rewrite <- DetectorSignals.mem_string_elem_of; by rewrite E).
    by cbn [fst].
Qed.

(** C8, the claim as stated fails: New York is not in the wealthy-ZIP
    table, and a contractor there has geography score 0. *)
Lemma geographic_score_zero_outside_table :
  LeadScorer.score_geographic_value LeadScorer.init (contractor_at "NY" "10007")
  = (0, "State NY not in wealthy ZIP database").
Proof. vm_compute. reflexivity. Qed.

Example geographic_score_top_ten :
  (LeadScorer.score_geographic_value LeadScorer.init (contractor_at "CA" "90210")).1 = 10.
Proof. vm_compute. reflexivity. Qed.

Example geographic_score_listed :
  (LeadScorer.score_geographic_value LeadScorer.init (contractor_at "CA" "92625")).1 = 7.
Proof. vm_compute. reflexivity. Qed.

Example geographic_score_unlisted :
  (LeadScorer.score_geographic_value LeadScorer.init (contractor_at "CA" "95814")).1 = 3.
Proof. vm_compute. reflexivity. Qed.

Module ScenarioFacts.

Import DetectorFacts.

(** A phone index whose buckets are all too small yields no group. *)
Lemma phone_pass_small min_oem_count idx matches processed :
  Forall (λ kv, len kv.2 < min_oem_count) idx →
  phone_pass min_oem_count idx matches processed = Returned (matches, processed).
Proof.
  induction 1 as [|[k entries] idx Hk _ IH]; simpl; [done |].
  unfold phone_group. simpl in Hk.
  by rewrite (proj2 (Z.ltb_lt _ _) Hk).
Qed.

End ScenarioFacts.

(** C4.  Two records of two different OEMs that share the domain
    "abcelectric.com" and whose phones normalize to different numbers
    resolve, with [min_oem_count = 2], to exactly one group: it holds both
    records, its confidence is 60 and its only signal is "domain". *)
Theorem domain_only_match
        (d1 d2 : StandardizedDealer) (oem1 oem2 : string) :
  oem1 ≠ oem2 →
  domain d1 = "abcelectric.com" →
  domain d2 = "abcelectric.com" →
  normalize_phone (phone d1) ≠ normalize_phone (phone d2) →
  ∃ m self',
    find_multi_oem_contractors
      (add_dealers [d2] oem2 (add_dealers [d1] oem1 init)) 2
    = Returned ([m], self')
    ∧ dealer_records m = [d1; d2]
    ∧ oem_sources m = {[ oem1; oem2 ]}
    ∧ match_confidence m = 60
    ∧ match_signals m = ["domain"].
Proof.
  intros Hoem Hd1 Hd2 Hphone.
  unfold find_multi_oem_contractors, add_dealers, init.
  cbn [dealers_by_oem PyDict.set].
  rewrite (proj2 (String.eqb_neq oem1 oem2) Hoem).
  unfold build_indexes. cbn [fold_left]. unfold index_dealer.
  rewrite Hd1, Hd2.
  change (normalize_domain "abcelectric.com") with "abcelectric.com".
  cbn [PyStr.truthy].
  rewrite ScenarioFacts.phone_pass_small.
  2:{ revert Hphone.
      generalize (normalize_phone (phone d1)) (normalize_phone (phone d2)).
      intros np1 np2 Hne.
      destruct np1 as [|a1 s1], np2 as [|a2 s2]; cbn [PyStr.truthy PyDict.append];
        rewrite ?(proj2 (String.eqb_neq _ _) Hne);
        repeat constructor. }
  cbn [mbind outcome_bind PyDict.append].
  rewrite String.eqb_refl. cbn [app domain_pass].
  unfold domain_group.
  change (len [(oem1, d1); (oem2, d2)] <? 2) with false. cbn iota.
  rewrite bool_decide_eq_false_2 by apply not_elem_of_empty.
  unfold group_by_oem. cbn [fold_left PyDict.append].
  rewrite (proj2 (String.eqb_neq oem1 oem2) Hoem).
  change (len [(oem1, [d1]); (oem2, [d2])] <? 2) with false. cbn iota.
  cbn [max_dealer fmap list_fmap snd fst fold_left mbind outcome_bind mret outcome_ret
       sort_matches foldr insert_desc].
  eexists _, _. split; [reflexivity |].
  cbn [dealer_records oem_sources match_confidence match_signals].
  repeat split.
  rewrite list_to_set_cons, list_to_set_singleton_L. done.
Qed.

Lemma domain_only_match_witness :
  ∃ m self',
    find_multi_oem_contractors
      (add_dealers [mk_dealer "ABC Electric" "(555) 987-6543" "abcelectric.com"] "Tesla"
         (add_dealers [mk_dealer "ABC Electric" "(555) 123-4567" "abcelectric.com"]
                      "Generac" init)) 2
    = Returned ([m], self')
    ∧ dealer_records m
      = [mk_dealer "ABC Electric" "(555) 123-4567" "abcelectric.com";
         mk_dealer "ABC Electric" "(555) 987-6543" "abcelectric.com"]
    ∧ oem_sources m = {[ "Generac"; "Tesla" ]}
    ∧ match_confidence m = 60
    ∧ match_signals m = ["domain"].
Proof.
  apply (domain_only_match
           (mk_dealer "ABC Electric" "(555) 123-4567" "abcelectric.com")
           (mk_dealer "ABC Electric" "(555) 987-6543" "abcelectric.com")
           "Generac" "Tesla").
  - discriminate.
  - reflexivity.
  - reflexivity.
  - vm_compute. discriminate.
Defined.

Module PhoneScenario.

Import DetectorFacts.

Lemma names_match (n1 n2 : string) :
  n1 ∈ scenario_names → n2 ∈ scenario_names →
  (fuzzy_name_match n1 n2 default_threshold).1 = true.
Proof.
  unfold scenario_names. rewrite !elem_of_cons, !elem_of_nil.
  intros [-> | [-> | [-> | []]]] [-> | [-> | [-> | []]]]; vm_compute; reflexivity.
Qed.

Lemma domain_matches_shared (dom : string) (all_dealers : list StandardizedDealer) :
  Forall (λ d, domain d = dom) all_dealers →
  domain_matches (normalize_domain dom) all_dealers
  = PyStr.truthy (normalize_domain dom).
Proof.
  intros Hall. destruct (PyStr.truthy (normalize_domain dom)) eqn:E.
  - apply DetectorSignals.domain_matches_true.
    split; [by apply DetectorSignals.truthy_true |].
    intros d Hd _. rewrite Forall_forall in Hall. by rewrite (Hall d Hd).
  - unfold domain_matches. by rewrite E.
Qed.

End PhoneScenario.

(** C1 (as the code has it).  Three records with the phones
    "(555) 123-4567", "555-123-4567", "5551234567" and the names
    "ABC Electric", "ABC Electric LLC", "Abc Electric", registered under
    Generac, Tesla and Enphase and carrying one common domain (possibly
    none), resolve with [min_oem_count = 2] to exactly one group.  Its OEM
    set is {Generac, Tesla, Enphase}, its signals hold "phone" and "name",
    its multi-OEM score is 100.  The signal "domain" is present exactly
    when the common domain has a non-empty normalization; the confidence
    is then 100, and 70 otherwise. *)
Theorem phone_match_three_oems
        (d1 d2 d3 : StandardizedDealer) (dom : string) :
  phone d1 = "(555) 123-4567" → name d1 = "ABC Electric" →
  phone d2 = "555-123-4567" → name d2 = "ABC Electric LLC" →
  phone d3 = "5551234567" → name d3 = "Abc Electric" →
  domain d1 = dom → domain d2 = dom → domain d3 = dom →
  ∃ m self',
    find_multi_oem_contractors
      (add_dealers [d3] "Enphase"
         (add_dealers [d2] "Tesla" (add_dealers [d1] "Generac" init))) 2
    = Returned ([m], self')
    ∧ oem_sources m = {[ "Generac"; "Tesla"; "Enphase" ]}
    ∧ dealer_records m = [d1; d2; d3]
    ∧ "phone" ∈ match_signals m
    ∧ "name" ∈ match_signals m
    ∧ ("domain" ∈ match_signals m ↔ normalize_domain dom ≠ "")
    ∧ match_confidence m
      = (if PyStr.truthy (normalize_domain dom) then 100 else 70)
    ∧ multi_oem_score m = 100.
Proof.
  intros Hp1 Hn1 Hp2 Hn2 Hp3 Hn3 Hd1 Hd2 Hd3.
  set (entries := [("Generac", d1); ("Tesla", d2); ("Enphase", d3)]).
  destruct (DetectorFacts.phone_group_eq 2 "5551234567" entries ltac:(done))
    as (p & _ & Hp & Hgroup).
  change (len entries <? 2) with false in Hgroup.
  change (group_by_oem entries)
    with [("Generac", [d1]); ("Tesla", [d2]); ("Enphase", [d3])] in Hgroup.
  change (len _ <? 2) with false in Hgroup. cbn [orb] in Hgroup.
  assert (Hpdom : domain p = dom).
  { revert Hp. unfold entries. cbn [fmap list_fmap snd].
    rewrite !elem_of_cons, elem_of_nil. by intros [-> | [-> | [-> | []]]]. }
  assert (Hpname : name p ∈ scenario_names).
  { revert Hp. unfold entries, scenario_names. cbn [fmap list_fmap snd].
    rewrite !elem_of_cons, !elem_of_nil.
    intros [-> | [-> | [-> | []]]]; rewrite ?Hn1, ?Hn2, ?Hn3; tauto. }
  rewrite Hpdom in Hgroup.
  exists (phone_match_of entries p).
  unfold find_multi_oem_contractors.
  change (dealers_by_oem _)
    with [("Generac", [d1]); ("Tesla", [d2]); ("Enphase", [d3])].
  unfold build_indexes. cbn [fold_left]. unfold index_dealer.
  rewrite Hp1, Hp2, Hp3, Hd1, Hd2, Hd3.
  change (normalize_phone "(555) 123-4567") with "5551234567".
  change (normalize_phone "555-123-4567") with "5551234567".
  change (normalize_phone "5551234567") with "5551234567".
  cbn [PyStr.truthy].
  assert (Hdm : domain_matches (normalize_domain dom) (entries.*2)
                = PyStr.truthy (normalize_domain dom)).
  { apply PhoneScenario.domain_matches_shared. unfold entries.
    cbn [fmap list_fmap snd]. by repeat constructor. }
  assert (Hnm : name_matches p (entries.*2) = true).
  { apply DetectorSignals.name_matches_true. intros d.
    unfold entries. cbn [fmap list_fmap snd]. rewrite !elem_of_cons, elem_of_nil.
    intros Hd. apply PhoneScenario.names_match; [done |].
    unfold scenario_names. rewrite !elem_of_cons.
    destruct Hd as [-> | [-> | [-> | []]]]; rewrite ?Hn1, ?Hn2, ?Hn3; tauto. }
  assert (Hnd : normalize_domain (domain p) = normalize_domain dom)
    by (by rewrite Hpdom).
  set (nd := normalize_domain dom) in *. clearbody nd.
  repeat (cbn [PyDict.append app]; rewrite ?String.eqb_refl).
  fold entries. cbn [phone_pass]. rewrite Hgroup.
  cbn [mbind outcome_bind mret outcome_ret app phone_pass].
  assert (Hdomain_pass : ∀ didx,
    didx = [] ∨ didx = [(nd, entries)] →
    domain_pass 2 ({[("5551234567", nd)]} ∪ ∅) didx
                [phone_match_of entries p]
    = Returned [phone_match_of entries p]).
  { intros didx [-> | ->]; [done |].
    cbn [domain_pass]. unfold domain_group.
    change (len entries <? 2) with false. cbn iota. unfold entries. cbn iota.
    rewrite Hp1. change (normalize_phone "(555) 123-4567") with "5551234567".
    rewrite bool_decide_eq_true_2; [done |].
    apply elem_of_union. left. by apply elem_of_singleton. }
  rewrite Hdomain_pass.
  2:{ destruct nd as [|c nd']; cbn [PyStr.truthy]; [by left | right].
      repeat (cbn [PyDict.append app]; rewrite ?String.eqb_refl). done. }
  cbn [mbind outcome_bind mret outcome_ret sort_matches foldr insert_desc].
  eexists. split; [reflexivity |].
  unfold phone_match_of.
  cbn [oem_sources dealer_records match_signals match_confidence multi_oem_score].
  change (group_by_oem entries)
    with [("Generac", [d1]); ("Tesla", [d2]); ("Enphase", [d3])].
  rewrite Hnd, Hdm, Hnm. cbn [fmap list_fmap fst].
  split; [by rewrite !list_to_set_cons, list_to_set_nil, union_empty_r_L |].
  split; [done |].
  destruct (DetectorSignals.phone_signals (PyStr.truthy nd) true)
    as (Hphone & Hdomain & Hname & Hconf & _).
  cbv zeta in *.
  split; [done |]. split; [by apply Hname |].
  split; [by rewrite Hdomain, DetectorSignals.truthy_true |].
  split; [| vm_compute; reflexivity].
  rewrite Hconf. by destruct (PyStr.truthy nd).
Qed.

Lemma phone_match_three_oems_witness :
  ∃ m self',
    find_multi_oem_contractors three_oem_batch 2 = Returned ([m], self')
    ∧ oem_sources m = {[ "Generac"; "Tesla"; "Enphase" ]}
    ∧ dealer_records m = [generac_record; tesla_record; enphase_record]
    ∧ "phone" ∈ match_signals m
    ∧ "name" ∈ match_signals m
    ∧ ("domain" ∈ match_signals m ↔ normalize_domain "" ≠ "")
    ∧ match_confidence m = 70
    ∧ multi_oem_score m = 100.
Proof.
  exact (phone_match_three_oems generac_record tesla_record enphase_record ""
           eq_refl eq_refl eq_refl eq_refl eq_refl eq_refl eq_refl eq_refl eq_refl).
Defined.

(** C1, the claim as stated fails: the three records of the scenario
    resolve to one group whose signals are "phone" and "name" only, so
    that its confidence is 70, not 100. *)
Lemma phone_match_three_oems_confidence_is_70 :
  ∃ m self',
    find_multi_oem_contractors three_oem_batch 2 = Returned ([m], self')
    ∧ match_signals m = ["phone"; "name"]
    ∧ match_confidence m = 70
    ∧ match_confidence m ≠ 100.
Proof.
  eexists _, _. split; [vm_compute; reflexivity |].
  repeat split. discriminate.
Qed.


(** * Further properties *)

(** ** Phone normalization *)

Module PhoneFacts.

Lemma filter_chars_all (test : ascii → bool) (s : string) :
  all_chars test (PyStr.filter_chars test s) = true.
Proof.
  induction s as [|c s IH]; simpl; [done |].
  destruct (test c) eqn:E; simpl; [by rewrite E |done].
Qed.

Lemma filter_chars_id (test : ascii → bool) (s : string) :
  all_chars test s = true → PyStr.filter_chars test s = s.
Proof.
  induction s as [|c s IH]; simpl; [done |].
  intros [-> Hs]%andb_true_iff. by rewrite IH.
Qed.

Lemma normalize_phone_digits (phone : string) :
  normalize_phone phone = strip_country (digits_of phone).
Proof.
  unfold normalize_phone, strip_country, digits_of.
  destruct phone as [|c0 p]; [done |]. cbn [PyStr.truthy negb].
  destruct (PyStr.filter_chars _ _) as [|c rest]; [done |].
  destruct c as [[] [] [] [] [] [] [] []]; reflexivity.
Qed.

Lemma strip_country_all_digits (digits : string) :
  all_chars PyStr.is_digit digits = true →
  all_chars PyStr.is_digit (strip_country digits) = true.
Proof.
  unfold strip_country. destruct digits as [|c rest]; [done |].
  intros H. destruct (Ascii.eqb c "1" && _); [| done].
  by apply andb_true_iff in H as [_ ?].
Qed.

Lemma strip_country_idem (digits : string) :
  strip_country (strip_country digits) = strip_country digits.
Proof.
  destruct digits as [|c rest]; [done |].
  change (strip_country (String c rest))
    with (if Ascii.eqb c "1" && Nat.eqb (String.length (String c rest)) 11
          then rest else String c rest).
  destruct (Ascii.eqb c "1" && _) eqn:E.
  - apply andb_true_iff in E as [_ Hlen%Nat.eqb_eq]. simpl in Hlen.
    unfold strip_country. destruct rest as [|c' rest']; [done |].
    replace (String.length (String c' rest') =? 11)%nat with false
      by (symmetry; apply Nat.eqb_neq; lia).
    by rewrite andb_false_r.
  - unfold strip_country. by rewrite E.
Qed.

End PhoneFacts.

(** X1.  [normalize_phone] yields digits only and normalizing twice
    changes nothing: a normalized phone is its own key. *)
Theorem normalize_phone_idempotent (phone : string) :
  all_chars PyStr.is_digit (normalize_phone phone) = true
  ∧ normalize_phone (normalize_phone phone) = normalize_phone phone.
Proof.
  assert (Hdigits : all_chars PyStr.is_digit (normalize_phone phone) = true).
  { rewrite PhoneFacts.normalize_phone_digits.
    apply PhoneFacts.strip_country_all_digits, PhoneFacts.filter_chars_all. }
  split; [done |].
  rewrite (PhoneFacts.normalize_phone_digits (normalize_phone phone)).
  unfold digits_of. rewrite PhoneFacts.filter_chars_id by done.
  rewrite PhoneFacts.normalize_phone_digits.
  apply PhoneFacts.strip_country_idem.
Qed.

(** X2.  Two phone strings with the same digits in the same order
    normalize to the same key, whatever else they contain. *)
Theorem normalize_phone_ignores_formatting (phone1 phone2 : string) :
  digits_of phone1 = digits_of phone2 →
  normalize_phone phone1 = normalize_phone phone2.
Proof. intros H. by rewrite !PhoneFacts.normalize_phone_digits, H. Qed.

Lemma normalize_phone_ignores_formatting_witness :
  normalize_phone "(555) 123-4567" = normalize_phone "555.123.4567".
Proof.
  exact (normalize_phone_ignores_formatting "(555) 123-4567" "555.123.4567" eq_refl).
Defined.

(** X3.  A leading country code 1 in front of ten digits is dropped:
    when the digits of one phone are 1 followed by the ten digits of
    another, both normalize to those ten digits. *)
Theorem normalize_phone_drops_country_code (phone1 phone2 : string) :
  digits_of phone1 = String "1" (digits_of phone2) →
  String.length (digits_of phone2) = 10%nat →
  normalize_phone phone1 = digits_of phone2
  ∧ normalize_phone phone2 = digits_of phone2.
Proof.
  intros H1 Hlen. rewrite !PhoneFacts.normalize_phone_digits, H1.
  split.
  - unfold strip_country. cbn [String.length]. by rewrite Hlen.
  - unfold strip_country. destruct (digits_of phone2) as [|c rest]; [done |].
    rewrite Hlen. by rewrite andb_false_r.
Qed.

Lemma normalize_phone_drops_country_code_witness :
  normalize_phone "+1 (555) 123-4567" = "5551234567"
  ∧ normalize_phone "555.123.4567" = "5551234567".
Proof.
  exact (normalize_phone_drops_country_code "+1 (555) 123-4567" "555.123.4567"
           eq_refl eq_refl).
Defined.

(** ** Name matching *)

Module NameFacts.

Lemma lower_truthy (s : string) : PyStr.truthy (PyStr.lower s) = PyStr.truthy s.
Proof. by destruct s. Qed.

Lemma lower_char_idem (c : ascii) :
  PyStr.lower_char (PyStr.lower_char c) = PyStr.lower_char c.
Proof. destruct c as [[] [] [] [] [] [] [] []]; reflexivity. Qed.

Lemma lower_idem (s : string) : PyStr.lower (PyStr.lower s) = PyStr.lower s.
Proof.
  induction s as [|c s IH]; simpl; [done |]. by rewrite lower_char_idem, IH.
Qed.

Lemma normalize_name_lower (name : string) :
  normalize_name (PyStr.lower name) = normalize_name name.
Proof. unfold normalize_name. by rewrite lower_idem. Qed.

(** The token ratio does not depend on the order of its arguments. *)
Lemma levenshtein_ratio_sym (s1 s2 : string) :
  levenshtein_ratio s1 s2 = levenshtein_ratio s2 s1.
Proof.
  unfold levenshtein_ratio.
  destruct (Nat.ltb_spec (String.length s1) (String.length s2)) as [H12 | H12];
    destruct (Nat.ltb_spec (String.length s2) (String.length s1)) as [H21 | H21];
    try lia; try done.
  assert (Hlen : String.length s1 = String.length s2) by lia.
  rewrite Hlen, (orb_comm (Nat.eqb (size (token_set s1)) 0)).
  by rewrite (comm_L (∪) (token_set s1)), (comm_L (∩) (token_set s1)).
Qed.

End NameFacts.

(** X4.  Name matching is symmetric: swapping the two names gives the
    same verdict and the same score. *)
Theorem fuzzy_name_match_symmetric (name1 name2 : string) (threshold : Q) :
  fuzzy_name_match name1 name2 threshold = fuzzy_name_match name2 name1 threshold.
Proof.
  unfold fuzzy_name_match.
  rewrite (orb_comm (negb (PyStr.truthy name1))).
  destruct (_ || _); [done |].
  rewrite (String.eqb_sym (normalize_name name1)).
  destruct (String.eqb _ _); [done |].
  rewrite (orb_comm (PyStr.contains (normalize_name name1) _)).
  destruct (_ || _); [done |].
  by rewrite NameFacts.levenshtein_ratio_sym.
Qed.

(** X5.  The similarity score is always between 0 and 1, and the
    threshold only moves the verdict: the score does not depend on it, and
    a pair that matches at a threshold matches at every lower one. *)
Theorem fuzzy_name_match_score_and_threshold
        (name1 name2 : string) (threshold1 threshold2 : Q) :
  (threshold1 <= threshold2)%Q →
  (0 <= (fuzzy_name_match name1 name2 threshold1).2 <= 1)%Q
  ∧ (fuzzy_name_match name1 name2 threshold1).2
    = (fuzzy_name_match name1 name2 threshold2).2
  ∧ ((fuzzy_name_match name1 name2 threshold2).1 = true →
     (fuzzy_name_match name1 name2 threshold1).1 = true).
Proof.
  intros Hle. unfold fuzzy_name_match.
  destruct (_ || _); [done |].
  destruct (String.eqb _ _); [done |].
  destruct (_ || _); [done |].
  cbn [fst snd]. split; [apply FuzzyFacts.levenshtein_ratio_bounds |].
  split; [done |].
  rewrite !Qle_bool_iff. intros H. by apply (Qle_trans _ _ _ Hle).
Qed.

Lemma fuzzy_name_match_score_and_threshold_witness :
  (0 <= (fuzzy_name_match "ABC Electric Power" "Power ABC Electrical" (1 # 2)).2 <= 1)%Q
  ∧ (fuzzy_name_match "ABC Electric Power" "Power ABC Electrical" (1 # 2)).2
    = (fuzzy_name_match "ABC Electric Power" "Power ABC Electrical" (85 # 100)).2
  ∧ ((fuzzy_name_match "ABC Electric Power" "Power ABC Electrical" (85 # 100)).1 = true →
     (fuzzy_name_match "ABC Electric Power" "Power ABC Electrical" (1 # 2)).1 = true).
Proof.
  apply (fuzzy_name_match_score_and_threshold
           "ABC Electric Power" "Power ABC Electrical" (1 # 2) (85 # 100)).
  vm_compute. discriminate.
Defined.

(** X6.  Names that differ only in letter case match with score 1 at
    every threshold, provided they are not empty. *)
Theorem fuzzy_name_match_ignores_case (name1 name2 : string) (threshold : Q) :
  name1 ≠ "" →
  PyStr.lower name1 = PyStr.lower name2 →
  fuzzy_name_match name1 name2 threshold = (true, 1%Q).
Proof.
  intros Hne Hlower. unfold fuzzy_name_match.
  assert (Ht1 : PyStr.truthy name1 = true) by (by destruct name1).
  assert (Ht2 : PyStr.truthy name2 = true).
  { by rewrite <- NameFacts.lower_truthy, <- Hlower, NameFacts.lower_truthy. }
  rewrite Ht1, Ht2. cbn [negb orb].
  rewrite <- (NameFacts.normalize_name_lower name1), Hlower,
    NameFacts.normalize_name_lower.
  by rewrite String.eqb_refl.
Qed.

Lemma fuzzy_name_match_ignores_case_witness :
  fuzzy_name_match "ABC Electric" "Abc ELECTRIC" default_threshold = (true, 1%Q).
Proof.
  apply (fuzzy_name_match_ignores_case "ABC Electric" "Abc ELECTRIC" default_threshold).
  - discriminate.
  - reflexivity.
Defined.

(** ** Order of the result *)

Module SortFacts.

Lemma sort_key_lt_false (a b : MultiOEMMatch) :
  sort_key_lt a b = false ↔ ranks_no_lower a b.
Proof.
  unfold sort_key_lt, ranks_no_lower.
  destruct (Z.eqb_spec (multi_oem_score a) (multi_oem_score b)) as [Heq | Hne].
  - rewrite Z.ltb_ge. lia.
  - rewrite Z.ltb_ge. lia.
Qed.

Lemma sort_key_lt_true (a b : MultiOEMMatch) :
  sort_key_lt a b = true → ranks_no_lower b a.
Proof.
  unfold sort_key_lt, ranks_no_lower.
  destruct (Z.eqb_spec (multi_oem_score a) (multi_oem_score b)) as [Heq | Hne];
    rewrite Z.ltb_lt; lia.
Qed.

Lemma ranks_no_lower_trans (a b c : MultiOEMMatch) :
  ranks_no_lower a b → ranks_no_lower b c → ranks_no_lower a c.
Proof. unfold ranks_no_lower. lia. Qed.

Lemma insert_desc_sorted (x : MultiOEMMatch) (sorted : list MultiOEMMatch) :
  StronglySorted ranks_no_lower sorted →
  StronglySorted ranks_no_lower (insert_desc x sorted).
Proof.
  induction 1 as [|y rest Hrest IH Hy]; simpl.
  - repeat constructor.
  - destruct (sort_key_lt x y) eqn:E.
    + constructor; [done |].
      apply Forall_forall. intros z [-> | Hz]%DetectorFacts.elem_of_insert_desc.
      * by apply sort_key_lt_true.
      * rewrite Forall_forall in Hy. by apply Hy.
    + apply sort_key_lt_false in E.
      constructor; [by constructor |].
      constructor; [done |].
      apply Forall_forall. intros z Hz. rewrite Forall_forall in Hy.
      apply (ranks_no_lower_trans _ _ _ E). by apply Hy.
Qed.

Lemma sort_matches_sorted (matches : list MultiOEMMatch) :
  StronglySorted ranks_no_lower (sort_matches matches).
Proof.
  unfold sort_matches. induction matches as [|x xs IH]; simpl.
  - constructor.
  - by apply insert_desc_sorted.
Qed.



End SortFacts.

(** X7.  The list that resolution returns, which is also the list it
    stores, is in descending order of multi-OEM score and, at equal
    score, of confidence. *)
Theorem resolution_result_is_sorted (self : MultiOEMDetector) (min_oem_count : Z) :
  ∃ matches self',
    find_multi_oem_contractors self min_oem_count = Returned (matches, self')
    ∧ multi_oem_matches self' = matches
    ∧ StronglySorted ranks_no_lower matches.
Proof.
  destruct (DetectorFacts.find_eq self min_oem_count)
    as (pm & proc & ms & _ & _ & Hfind).
  eexists _, _. split; [exact Hfind |]. split; [done |].
  apply SortFacts.sort_matches_sorted.
Qed.


(** ** The indexes *)

Module IndexFacts.

Import DetectorFacts.

Lemma in_bucket_append {V : Type} (k k' : string) (x y : V)
      (d : list (string * list V)) :
  in_bucket k' y (PyDict.append k x d) ↔ in_bucket k' y d ∨ (k' = k ∧ y = x).
Proof.
  unfold in_bucket. induction d as [|[k0 xs] d IH]; simpl.
  - split.
    + intros (ys & Hin & Hy). apply list_elem_of_singleton in Hin.
      injection Hin as -> ->. apply list_elem_of_singleton in Hy. by right.
    + intros [(ys & []%elem_of_nil & _) | [-> ->]].
      exists [x]. split; by apply list_elem_of_singleton.
  - destruct (String.eqb_spec k0 k) as [-> | Hne].
    + split.
      * intros (ys & Hin & Hy). apply elem_of_cons in Hin as [Heq | Hin].
        -- simplify_eq. apply elem_of_app in Hy as [Hy | Hy].
           ++ left. exists xs. split; [by left | done].
           ++ apply list_elem_of_singleton in Hy. by right.
        -- left. exists ys. split; [by right | done].
      * intros [(ys & Hin & Hy) | [-> ->]].
        -- apply elem_of_cons in Hin as [Heq | Hin].
           ++ simplify_eq. exists (xs ++ [x])%list. split; [by left |].
              apply elem_of_app. by left.
           ++ exists ys. split; [by right | done].
        -- exists (xs ++ [x])%list. split; [by left |].
           apply elem_of_app. right. by apply list_elem_of_singleton.
    + split.
      * intros (ys & Hin & Hy). apply elem_of_cons in Hin as [Heq | Hin].
        -- simplify_eq. left. exists xs. split; [by left | done].
        -- destruct (proj1 IH) as [(zs & ? & ?) | ?]; [by exists ys | | by right].
           left. exists zs. split; [by right | done].
      * intros [(ys & Hin & Hy) | Hnew].
        -- apply elem_of_cons in Hin as [Heq | Hin].
           ++ simplify_eq. exists xs. split; [by left | done].
           ++ destruct (proj2 IH) as (zs & ? & ?); [left; by exists ys |].
              exists zs. split; [by right | done].
        -- destruct (proj2 IH) as (zs & ? & ?); [by right |].
           exists zs. split; [by right | done].
Qed.

Lemma index_dealer_components oem_name (idx : index * index) dealer :
  index_dealer oem_name idx dealer
  = (file_under phone_key oem_name idx.1 dealer,
     file_under domain_key oem_name idx.2 dealer).
Proof. by destruct idx. Qed.

Lemma fold_index_dealer_components oem_name dealers (idx : index * index) :
  fold_left (index_dealer oem_name) dealers idx
  = (fold_left (file_under phone_key oem_name) dealers idx.1,
     fold_left (file_under domain_key oem_name) dealers idx.2).
Proof.
  revert idx. induction dealers as [|d ds IH]; intros idx; simpl.
  - by destruct idx.
  - by rewrite IH, index_dealer_components.
Qed.

Lemma build_indexes_components dbo :
  build_indexes dbo = (index_of phone_key dbo [], index_of domain_key dbo []).
Proof.
  unfold build_indexes.
  assert (Hgen : ∀ idx : index * index,
    fold_left (λ idx '(oem_name, dealers),
                 fold_left (index_dealer oem_name) dealers idx) dbo idx
    = (index_of phone_key dbo idx.1, index_of domain_key dbo idx.2)).
  { unfold index_of. induction dbo as [|[o ds] dbo IH]; intros idx; simpl.
    - by destruct idx.
    - by rewrite IH, fold_index_dealer_components. }
  apply Hgen.
Qed.

Section Key.
Context (key : StandardizedDealer → string).

Lemma in_bucket_file_under oem_name idx dealer k o d :
  in_bucket k (o, d) (file_under key oem_name idx dealer)
  ↔ in_bucket k (o, d) idx
    ∨ (o = oem_name ∧ d = dealer ∧ key d = k ∧ k ≠ "").
Proof.
  unfold file_under. destruct (PyStr.truthy (key dealer)) eqn:E.
  - rewrite in_bucket_append. apply DetectorSignals.truthy_true in E.
    split; (intros [? | H]; [by left | right]).
    + destruct H as [-> [= -> ->]]. done.
    + destruct H as (-> & -> & <- & ?). done.
  - split; [by left |]. intros [? | (-> & -> & <- & Hk)]; [done |].
    apply DetectorSignals.truthy_true in Hk. congruence.
Qed.

Lemma in_bucket_fold_file_under oem_name dealers idx k o d :
  in_bucket k (o, d) (fold_left (file_under key oem_name) dealers idx)
  ↔ in_bucket k (o, d) idx
    ∨ (o = oem_name ∧ d ∈ dealers ∧ key d = k ∧ k ≠ "").
Proof.
  revert idx. induction dealers as [|x xs IH]; intros idx; simpl.
  - split; [by left |]. by intros [? | (_ & []%elem_of_nil & _)].
  - rewrite IH, in_bucket_file_under, elem_of_cons. tauto.
Qed.

Lemma in_bucket_index_of dbo idx k o d :
  in_bucket k (o, d) (index_of key dbo idx)
  ↔ in_bucket k (o, d) idx
    ∨ ((∃ ds, (o, ds) ∈ dbo ∧ d ∈ ds) ∧ key d = k ∧ k ≠ "").
Proof.
  unfold index_of. revert idx.
  induction dbo as [|[o' ds'] dbo IH]; intros idx; simpl.
  - split; [by left |]. by intros [? | ((ds & []%elem_of_nil & _) & _)].
  - rewrite IH, in_bucket_fold_file_under. split.
    + intros [[? | (-> & ? & ? & ?)] | ((ds & ? & ?) & ? & ?)].
      * by left.
      * right. split; [| done]. exists ds'. split; [by left | done].
      * right. split; [| done]. exists ds. split; [by right | done].
    + intros [? | ((ds & [[= -> ->] | ?]%elem_of_cons & ?) & ? & ?)].
      * left. by left.
      * left. by right.
      * right. split; [| done]. by exists ds.
Qed.
End Key.

Lemma not_in_bucket_nil {V : Type} (k : string) (x : V) : ¬ in_bucket k x [].
Proof. by intros (xs & []%elem_of_nil & _). Qed.

(** What the phone index holds. *)
Lemma in_phone_index self k o d :
  in_bucket k (o, d) (build_indexes (dealers_by_oem self)).1
  ↔ registered self o d ∧ normalize_phone (phone d) = k ∧ k ≠ "".
Proof.
  rewrite build_indexes_components. cbn [fst].
  rewrite (in_bucket_index_of phone_key). unfold registered, phone_key.
  split; [intros [[]%not_in_bucket_nil | ?]; done | by right].
Qed.

(** What the domain index holds. *)
Lemma in_domain_index self k o d :
  in_bucket k (o, d) (build_indexes (dealers_by_oem self)).2
  ↔ registered self o d ∧ normalize_domain (domain d) = k ∧ k ≠ "".
Proof.
  rewrite build_indexes_components. cbn [snd].
  rewrite (in_bucket_index_of domain_key). unfold registered, domain_key.
  split; [intros [[]%not_in_bucket_nil | ?]; done | by right].
Qed.

End IndexFacts.

(** ** Provenance of the groups *)

Module GroupFacts.

Import DetectorFacts.

Lemma elem_of_append_keys {V : Type} (k o : string) (x : V)
      (d : list (string * list V)) :
  o ∈ (PyDict.append k x d).*1 ↔ o ∈ d.*1 ∨ o = k.
Proof.
  induction d as [|[k0 xs] d IH]; csimpl.
  - rewrite list_elem_of_singleton, elem_of_nil. tauto.
  - destruct (String.eqb_spec k0 k) as [-> | Hne]; csimpl.
    + rewrite !elem_of_cons. tauto.
    + rewrite !elem_of_cons, IH. tauto.
Qed.

(** The keys of [oem_entries] are the OEM names of the bucket. *)
Lemma group_by_oem_keys (entries : list entry) (o : string) :
  o ∈ (group_by_oem entries).*1 ↔ o ∈ entries.*1.
Proof.
  unfold group_by_oem.
  assert (Hgen : ∀ acc : list (string * list StandardizedDealer),
    o ∈ (fold_left (λ acc '(oem_name, dealer), PyDict.append oem_name dealer acc)
                   entries acc).*1
    ↔ o ∈ acc.*1 ∨ o ∈ entries.*1).
  { induction entries as [|[o' d] es IH]; intros acc; csimpl.
    - rewrite elem_of_nil. tauto.
    - rewrite IH, elem_of_append_keys, elem_of_cons. tauto. }
  rewrite Hgen. csimpl. rewrite elem_of_nil. tauto.
Qed.

Lemma find_elem_indexed self min_oem_count ms self' m :
  find_multi_oem_contractors self min_oem_count = Returned (ms, self') →
  m ∈ ms →
  ∃ k entries primary,
    primary ∈ entries.*2
    ∧ max_dealer entries.*2 = Returned primary
    ∧ min_oem_count ≤ len (group_by_oem entries)
    ∧ (((k, entries) ∈ (build_indexes (dealers_by_oem self)).1
        ∧ m = phone_match_of entries primary)
       ∨ ((k, entries) ∈ (build_indexes (dealers_by_oem self)).2
          ∧ m = domain_match_of entries primary)).
Proof.
  destruct (find_eq self min_oem_count) as (pm & proc & ms0 & Hpm & Hdm & ->).
  intros [= <- <-] Hm. apply (proj1 (elem_of_sort_matches _ _)) in Hm.
  destruct (build_indexes_nonempty (dealers_by_oem self)) as [Hp Hd].
  destruct (domain_pass_elem _ _ _ _ _ _ Hd Hdm Hm)
    as [Hm' | (k & es & p & Hin & Hpin & Hmax & Hlen & ->)].
  - destruct (phone_pass_elem _ _ _ _ _ _ _ Hp Hpm Hm')
      as [[]%elem_of_nil | (k & es & p & Hin & Hpin & Hmax & Hlen & ->)].
    exists k, es, p. repeat split; try done. by left.
  - exists k, es, p. repeat split; try done. by right.
Qed.

(** Order facts about the [max] key. *)
Lemma key_gt_true (a b : StandardizedDealer) :
  key_gt a b = true
  ↔ (rating b < rating a)%Q
    ∨ ((rating a == rating b)%Q ∧ review_count b < review_count a).
Proof.
  unfold key_gt. destruct (Qeq_bool (rating a) (rating b)) eqn:E.
  - apply Qeq_bool_iff in E. rewrite Z.ltb_lt. split; [by right |].
    intros [Hlt | [_ ?]]; [| done]. rewrite E in Hlt. by apply Qlt_irrefl in Hlt.
  - apply Qeq_bool_neq in E. rewrite negb_true_iff, <- not_true_iff_false, Qle_bool_iff.
    split.
    + intros Hn. left. by apply Qnot_le_lt.
    + intros [Hlt | [? _]]; [| done]. by apply Qlt_not_le.
Qed.

Lemma key_gt_false_trans (d best x : StandardizedDealer) :
  key_gt d best = false → key_gt x best = true → key_gt d x = false.
Proof.
  intros Hd Hx. apply not_true_iff_false. intros Hdx.
  apply not_true_iff_false in Hd. apply Hd.
  apply key_gt_true in Hx, Hdx. apply key_gt_true.
  destruct Hx as [Hx | [Hx Hcx]], Hdx as [Hdx | [Hdx Hcdx]].
  - left. by apply (Qlt_trans _ _ _ Hx).
  - left. by rewrite Hdx.
  - left. by rewrite <- Hx.
  - right. split; [by rewrite Hdx | lia].
Qed.

Lemma key_gt_irrefl (d : StandardizedDealer) : key_gt d d = false.
Proof.
  unfold key_gt. rewrite (proj2 (Qeq_bool_iff _ _) (Qeq_refl _)).
  apply Z.ltb_irrefl.
Qed.

(** [max] returns an element that no other exceeds. *)
Lemma max_dealer_greatest l p :
  max_dealer l = Returned p → ∀ d, d ∈ l → key_gt d p = false.
Proof.
  destruct l as [|d0 rest]; [done |]. simpl. intros [= <-].
  assert (Hgen : ∀ seen best,
    (∀ d, d ∈ seen → key_gt d best = false) →
    ∀ d, d ∈ (seen ++ rest)%list →
         key_gt d (fold_left (λ best x, if key_gt x best then x else best)
                             rest best) = false).
  { induction rest as [|x xs IH]; intros seen best Hseen d Hd; simpl.
    - rewrite app_nil_r in Hd. by apply Hseen.
    - apply (IH (seen ++ [x])%list); [| by rewrite <- app_assoc].
      intros d' [Hd' | ->%list_elem_of_singleton]%elem_of_app.
      + destruct (key_gt x best) eqn:E; [| by apply Hseen].
        apply (key_gt_false_trans _ best); [by apply Hseen | done].
      + destruct (key_gt x best) eqn:E; [apply key_gt_irrefl | done]. }
  intros d Hd. apply (Hgen [d0]); [| done].
  intros d' ->%list_elem_of_singleton. apply key_gt_irrefl.
Qed.

End GroupFacts.

Module CompletenessFacts.

Import DetectorFacts.

Lemma phone_pass_complete min_oem_count idx acc processed ms processed' :
  min_oem_count ≤ 1 →
  nonempty_buckets idx →
  phone_pass min_oem_count idx acc processed = Returned (ms, processed') →
  (∀ m, m ∈ acc → m ∈ ms)
  ∧ ∀ k entries, (k, entries) ∈ idx →
      ∃ p, p ∈ entries.*2 ∧ phone_match_of entries p ∈ ms.
Proof.
  intros Hmin H. revert acc processed.
  induction H as [|[k entries] idx Hk Hidx IH]; intros acc processed; simpl.
  - intros [= <- <-]. split; [done |]. by intros k es []%elem_of_nil.
  - destruct (phone_group_eq min_oem_count k entries Hk) as (p & _ & Hp & ->).
    pose proof (len_pos entries Hk).
    pose proof (len_pos _ (group_by_oem_not_nil entries Hk)).
    rewrite !(proj2 (Z.ltb_ge _ _)) by lia. simpl.
    intros Hpass. destruct (IH _ _ Hpass) as [Hacc Hall]. split.
    + intros m Hm. apply Hacc, elem_of_app. by left.
    + intros k' es [[= -> ->] | Hin]%elem_of_cons; [| by apply (Hall k')].
      exists p. split; [done |]. apply Hacc, elem_of_app. right.
      by apply list_elem_of_singleton.
Qed.

Lemma index_nil_of_no_bucket (idx : index) :
  nonempty_buckets idx →
  (∀ k (x : entry), ¬ in_bucket k x idx) →
  idx = [].
Proof.
  intros Hne Hnone. destruct idx as [|[k es] idx]; [done |].
  apply Forall_cons in Hne as [Hes _]. simpl in Hes.
  destruct es as [|x es]; [done |].
  destruct (Hnone k x). exists (x :: es). split; by left.
Qed.

End CompletenessFacts.

(** X9.  Every group of a result is made of registered records: its
    primary dealer is one of its records, each record was registered
    under an OEM name that is in the group's OEM set, and each name of the
    OEM set has a record of the group registered under it. *)
Theorem groups_hold_registered_records
        (self : MultiOEMDetector) (min_oem_count : Z) :
  ∃ matches self',
    find_multi_oem_contractors self min_oem_count = Returned (matches, self')
    ∧ ∀ m, m ∈ matches →
        primary_dealer m ∈ dealer_records m
        ∧ (∀ d, d ∈ dealer_records m →
                ∃ o, o ∈ oem_sources m ∧ registered self o d)
        ∧ (∀ o, o ∈ oem_sources m →
                ∃ d, d ∈ dealer_records m ∧ registered self o d).
Proof.
  destruct (DetectorFacts.find_eq self min_oem_count)
    as (pm & proc & ms & _ & _ & Hfind).
  eexists _, _. split; [exact Hfind |]. intros m Hm.
  destruct (GroupFacts.find_elem_indexed _ _ _ _ _ Hfind Hm)
    as (k & es & p & Hp & _ & _ & Hcase).
  assert (Hreg : ∀ o d, (o, d) ∈ es → registered self o d).
  { intros o d Hod.
    destruct Hcase as [[Hin _] | [Hin _]].
    - apply (IndexFacts.in_phone_index self k o d). by exists es.
    - apply (IndexFacts.in_domain_index self k o d). by exists es. }
  assert (Hm_eq : primary_dealer m = p ∧ dealer_records m = es.*2
                  ∧ oem_sources m = list_to_set (group_by_oem es).*1)
    by (destruct Hcase as [[_ ->] | [_ ->]]; done).
  destruct Hm_eq as (-> & -> & ->). split; [done |]. split.
  - intros d ([o d'] & -> & Hod)%list_elem_of_fmap. exists o. split; [| by apply Hreg].
    apply elem_of_list_to_set, GroupFacts.group_by_oem_keys.
    apply list_elem_of_fmap. by exists (o, d').
  - intros o Ho%elem_of_list_to_set%GroupFacts.group_by_oem_keys.
    apply list_elem_of_fmap in Ho as ([o' d] & -> & Hod).
    exists d. split; [| by apply Hreg].
    apply list_elem_of_fmap. by exists (o', d).
Qed.

(** X10.  The records of a group share its key: all records of a
    phone-based group have the same non-empty normalized phone, and all
    records of a domain-only group the same non-empty normalized
    domain. *)
Theorem groups_share_their_key (self : MultiOEMDetector) (min_oem_count : Z) :
  ∃ matches self',
    find_multi_oem_contractors self min_oem_count = Returned (matches, self')
    ∧ ∀ m, m ∈ matches →
        ∃ k, k ≠ ""
          ∧ (("phone" ∈ match_signals m
              ∧ ∀ d, d ∈ dealer_records m → normalize_phone (phone d) = k)
             ∨ (match_signals m = ["domain"]
                ∧ ∀ d, d ∈ dealer_records m → normalize_domain (domain d) = k)).
Proof.
  destruct (DetectorFacts.find_eq self min_oem_count)
    as (pm & proc & ms & _ & _ & Hfind).
  eexists _, _. split; [exact Hfind |]. intros m Hm.
  destruct (GroupFacts.find_elem_indexed _ _ _ _ _ Hfind Hm)
    as (k & es & p & [[o0 d0] [_ Hp]]%list_elem_of_fmap & _ & _ & Hcase).
  exists k. destruct Hcase as [[Hin ->] | [Hin ->]].
  - split.
    { apply (IndexFacts.in_phone_index self k o0 d0). by exists es. }
    left. split; [by left |].
    intros d ([o d'] & -> & Hod)%list_elem_of_fmap.
    apply (IndexFacts.in_phone_index self k o d'). by exists es.
  - split.
    { apply (IndexFacts.in_domain_index self k o0 d0). by exists es. }
    right. split; [done |].
    intros d ([o d'] & -> & Hod)%list_elem_of_fmap.
    apply (IndexFacts.in_domain_index self k o d'). by exists es.
Qed.

(** X11.  The primary dealer of a group is a best-rated record of it: no
    record has a higher rating, or the same rating and more reviews. *)
Theorem primary_dealer_is_best_rated (self : MultiOEMDetector) (min_oem_count : Z) :
  ∃ matches self',
    find_multi_oem_contractors self min_oem_count = Returned (matches, self')
    ∧ ∀ m d, m ∈ matches → d ∈ dealer_records m →
        (rating d <= rating (primary_dealer m))%Q
        ∧ ((rating d == rating (primary_dealer m))%Q →
           review_count d ≤ review_count (primary_dealer m)).
Proof.
  destruct (DetectorFacts.find_eq self min_oem_count)
    as (pm & proc & ms & _ & _ & Hfind).
  eexists _, _. split; [exact Hfind |]. intros m d Hm Hd.
  destruct (GroupFacts.find_elem_indexed _ _ _ _ _ Hfind Hm)
    as (k & es & p & _ & Hmax & _ & Hcase).
  assert (Hm_eq : primary_dealer m = p ∧ dealer_records m = es.*2)
    by (destruct Hcase as [[_ ->] | [_ ->]]; done).
  destruct Hm_eq as [Hprim Hrec]. rewrite Hprim. rewrite Hrec in Hd.
  pose proof (GroupFacts.max_dealer_greatest _ _ Hmax d Hd) as Hgt.
  apply not_true_iff_false in Hgt. rewrite GroupFacts.key_gt_true in Hgt.
  split.
  - apply Qnot_lt_le. intros Hlt. apply Hgt. by left.
  - intros Heq. apply Z.le_ngt. intros Hlt. apply Hgt. by right.
Qed.

(** X12.  With [min_oem_count] at most 1 no record that has a phone is
    dropped: every registered dealer whose normalized phone is not empty
    belongs to a phone-based group of the result, and the OEM name it was
    registered under is in that group's OEM set. *)
Theorem no_phone_record_dropped
        (self : MultiOEMDetector) (min_oem_count : Z)
        (oem_name : string) (dealer : StandardizedDealer) :
  min_oem_count ≤ 1 →
  registered self oem_name dealer →
  normalize_phone (phone dealer) ≠ "" →
  ∃ matches self' m,
    find_multi_oem_contractors self min_oem_count = Returned (matches, self')
    ∧ m ∈ matches
    ∧ "phone" ∈ match_signals m
    ∧ dealer ∈ dealer_records m
    ∧ oem_name ∈ oem_sources m.
Proof.
  intros Hmin Hreg Hphone.
  destruct (DetectorFacts.find_eq self min_oem_count)
    as (pm & proc & ms & Hpm & Hdm & Hfind).
  destruct (DetectorFacts.build_indexes_nonempty (dealers_by_oem self)) as [Hp _].
  destruct (CompletenessFacts.phone_pass_complete _ _ _ _ _ _ Hmin Hp Hpm)
    as [_ Hall].
  destruct (proj2 (IndexFacts.in_phone_index self _ oem_name dealer)
                  (conj Hreg (conj eq_refl Hphone))) as (es & Hin & Hod).
  destruct (Hall _ _ Hin) as (p & _ & Hm).
  eexists _, _, (phone_match_of es p). split; [exact Hfind |]. split.
  { apply DetectorFacts.elem_of_sort_matches.
    by apply (DetectorSignals.domain_pass_keeps _ _ _ _ _ _ Hdm). }
  split; [by left |]. split.
  - apply list_elem_of_fmap. by exists (oem_name, dealer).
  - apply elem_of_list_to_set, GroupFacts.group_by_oem_keys.
    apply list_elem_of_fmap. by exists (oem_name, dealer).
Qed.

Lemma no_phone_record_dropped_witness :
  ∃ matches self' m,
    find_multi_oem_contractors three_oem_batch 1 = Returned (matches, self')
    ∧ m ∈ matches
    ∧ "phone" ∈ match_signals m
    ∧ tesla_record ∈ dealer_records m
    ∧ "Tesla" ∈ oem_sources m.
Proof.
  apply (no_phone_record_dropped three_oem_batch 1 "Tesla" tesla_record).
  - lia.
  - exists [tesla_record]. split; [| by left]. right. by left.
  - vm_compute. discriminate.
Defined.

(** X13.  Records with neither a phone nor a domain are never grouped:
    when every registered record has an empty normalized phone and an
    empty normalized domain (in particular when nothing is registered),
    the result is empty for every [min_oem_count], 1 included. *)
Theorem no_key_no_group (self : MultiOEMDetector) (min_oem_count : Z) :
  (∀ o d, registered self o d →
          normalize_phone (phone d) = "" ∧ normalize_domain (domain d) = "") →
  find_multi_oem_contractors self min_oem_count
  = Returned ([], {| dealers_by_oem := dealers_by_oem self;
                     multi_oem_matches := [] |}).
Proof.
  intros Hnone.
  destruct (DetectorFacts.build_indexes_nonempty (dealers_by_oem self)) as [Hp Hd].
  assert (Hpi : (build_indexes (dealers_by_oem self)).1 = []).
  { apply CompletenessFacts.index_nil_of_no_bucket; [done |].
    intros k [o d] (Hreg & Hk & Hne)%IndexFacts.in_phone_index.
    destruct (Hnone o d Hreg) as [Hph _]. congruence. }
  assert (Hdi : (build_indexes (dealers_by_oem self)).2 = []).
  { apply CompletenessFacts.index_nil_of_no_bucket; [done |].
    intros k [o d] (Hreg & Hk & Hne)%IndexFacts.in_domain_index.
    destruct (Hnone o d Hreg) as [_ Hdo]. congruence. }
  unfold find_multi_oem_contractors.
  destruct (build_indexes (dealers_by_oem self)) as [pi di].
  simpl in Hpi, Hdi. by subst.
Qed.

Lemma no_key_no_group_witness :
  find_multi_oem_contractors
    (add_dealers [mk_dealer "No Contact Co" "n/a" ""] "Generac" init) 1
  = Returned ([], {| dealers_by_oem :=
                       [("Generac", [mk_dealer "No Contact Co" "n/a" ""])];
                     multi_oem_matches := [] |}).
Proof.
  apply (no_key_no_group
           (add_dealers [mk_dealer "No Contact Co" "n/a" ""] "Generac" init) 1).
  intros o d (ds & Hin & Hd).
  unfold add_dealers, init in Hin. cbn [dealers_by_oem PyDict.set] in Hin.
  apply list_elem_of_singleton in Hin. simplify_eq.
  apply list_elem_of_singleton in Hd. subst d. split; reflexivity.
Defined.

(** ** Contact data *)

Module ContactFacts.

Import Contact.

Lemma contact_inv_nil : contact_inv [] no_contact.
Proof.
  split; try (by intros d []%elem_of_nil); by left.
Qed.

Lemma length_zero_empty (s : string) : String.length s = 0%nat → s = "".
Proof. by destruct s. Qed.

Lemma contact_inv_step seen best dealer :
  contact_inv seen best →
  contact_inv (seen ++ [dealer]) (contact_step best dealer).
Proof.
  intros [Hpl Hpf Hal Haf Hds Hdf]. unfold contact_step.
  destruct (PyStr.truthy (domain dealer)
            && (negb (PyStr.truthy (contact_domain best))
                || (String.length (domain dealer)
                    <? String.length (contact_domain best))%nat)) eqn:Edom;
    split; cbn [contact_phone contact_website contact_domain contact_address_full].
  all: try (intros d [Hd | ->%list_elem_of_singleton]%elem_of_app;
            destruct (Nat.ltb_spec (String.length (contact_phone best))
                                   (String.length (phone dealer)));
            [specialize (Hpl d Hd); lia | by apply Hpl | lia | lia]).
  all: try (intros d [Hd | ->%list_elem_of_singleton]%elem_of_app;
            destruct (Nat.ltb_spec (String.length (contact_address_full best))
                                   (String.length (address_full dealer)));
            [specialize (Hal d Hd); lia | by apply Hal | lia | lia]).
  all: try (destruct (Nat.ltb_spec (String.length (contact_phone best))
                                   (String.length (phone dealer)));
            [right; exists dealer; split; [apply elem_of_app; right; by left | done]
            | destruct Hpf as [? | (d & Hd & ?)]; [by left | right];
              exists d; split; [apply elem_of_app; by left | done]]).
  all: try (destruct (Nat.ltb_spec (String.length (contact_address_full best))
                                   (String.length (address_full dealer)));
            [right; exists dealer; split; [apply elem_of_app; right; by left | done]
            | destruct Haf as [? | (d & Hd & ?)]; [by left | right];
              exists d; split; [apply elem_of_app; by left | done]]).
  - (* the domain of [dealer] replaces the best one *)
    apply andb_true_iff in Edom as [Ht Hshort]. apply DetectorSignals.truthy_true in Ht.
    intros d [Hd | ->%list_elem_of_singleton]%elem_of_app Hne; [| done].
    split; [done |]. destruct (Hds d Hd Hne) as [Hbest Hlen].
    apply orb_true_iff in Hshort as [Hempty | Hlt].
    + apply negb_true_iff, not_true_iff_false in Hempty.
      by rewrite DetectorSignals.truthy_true in Hempty.
    + apply Nat.ltb_lt in Hlt. lia.
  - apply andb_true_iff in Edom as [Ht _]. apply DetectorSignals.truthy_true in Ht.
    right. exists dealer. split; [apply elem_of_app; right; by left | done].
  - (* the best domain stays *)
    intros d [Hd | ->%list_elem_of_singleton]%elem_of_app Hne; [by apply Hds |].
    apply andb_false_iff in Edom as [Ht | Hlong].
    + apply not_true_iff_false in Ht. by rewrite DetectorSignals.truthy_true in Ht.
    + apply orb_false_iff in Hlong as [Hbest Hge].
      apply negb_false_iff, DetectorSignals.truthy_true in Hbest.
      apply Nat.ltb_ge in Hge. done.
  - destruct Hdf as [? | (d & Hd & ?)]; [by left | right].
    exists d. split; [apply elem_of_app; by left | done].
Qed.

Lemma contact_inv_fold records seen best :
  contact_inv seen best →
  contact_inv (seen ++ records) (fold_left contact_step records best).
Proof.
  revert seen best. induction records as [|d ds IH]; intros seen best H; simpl.
  - by rewrite app_nil_r.
  - replace (seen ++ d :: ds)%list with ((seen ++ [d]) ++ ds)%list
      by (by rewrite <- app_assoc).
    by apply IH, contact_inv_step.
Qed.

Lemma get_best_contact_info_inv (m : MultiOEMMatch) :
  contact_inv (dealer_records m) (get_best_contact_info m).
Proof. apply (contact_inv_fold _ []), contact_inv_nil. Qed.

End ContactFacts.

(** X14.  The best phone of a group is a longest phone among its
    records: no record has a longer one, and it is the phone of some
    record unless every phone is empty.  The same holds for the best
    address. *)
Theorem best_contact_phone_and_address (m : MultiOEMMatch) :
  let best := Contact.get_best_contact_info m in
  (∀ d, d ∈ dealer_records m →
        (String.length (phone d) ≤ String.length (Contact.contact_phone best))%nat
        ∧ (String.length (address_full d)
           ≤ String.length (Contact.contact_address_full best))%nat)
  ∧ (Contact.contact_phone best = ""
     ∨ ∃ d, d ∈ dealer_records m ∧ phone d = Contact.contact_phone best)
  ∧ (Contact.contact_address_full best = ""
     ∨ ∃ d, d ∈ dealer_records m
            ∧ address_full d = Contact.contact_address_full best).
Proof.
  intros best. destruct (ContactFacts.get_best_contact_info_inv m)
    as [Hpl Hpf Hal Haf _ _].
  split; [| by split]. intros d Hd. split; [by apply Hpl | by apply Hal].
Qed.

(** X15.  The best domain of a group is a shortest non-empty domain among
    its records, and the best website is the website of the very record
    that supplies it; both are empty exactly when no record has a
    domain. *)
Theorem best_contact_domain_and_website (m : MultiOEMMatch) :
  let best := Contact.get_best_contact_info m in
  (∀ d, d ∈ dealer_records m → domain d ≠ "" →
        Contact.contact_domain best ≠ ""
        ∧ (String.length (Contact.contact_domain best)
           ≤ String.length (domain d))%nat)
  ∧ ((Contact.contact_domain best = "" ∧ Contact.contact_website best = ""
      ∧ ∀ d, d ∈ dealer_records m → domain d = "")
     ∨ ∃ d, d ∈ dealer_records m
            ∧ domain d = Contact.contact_domain best
            ∧ website d = Contact.contact_website best
            ∧ domain d ≠ "").
Proof.
  intros best. destruct (ContactFacts.get_best_contact_info_inv m)
    as [_ _ _ _ Hds Hdf].
  split; [done |].
  destruct Hdf as [[Hd Hw] | ?]; [left | by right].
  split; [done |]. split; [done |].
  intros d Hin. destruct (decide (domain d = "")) as [? | Hne]; [done |].
  by destruct (Hds d Hin Hne).
Qed.

Module SliceFacts.

Lemma slice_to_prefix {A : Type} (limit : Z) (l : list A) :
  ∃ rest, l = (Contact.slice_to limit l ++ rest)%list.
Proof.
  unfold Contact.slice_to. destruct (0 <=? limit); eexists; by rewrite take_drop.
Qed.

Lemma slice_to_length {A : Type} (limit : Z) (l : list A) :
  len (Contact.slice_to limit l)
  = if 0 <=? limit then Z.min limit (len l) else Z.max 0 (len l + limit).
Proof.
  unfold Contact.slice_to, len.
  destruct (Z.leb_spec 0 limit); rewrite length_take; lia.
Qed.

End SliceFacts.

(** X16.  [get_top_prospects] returns a prefix of the stored matches, so
    after a resolution the best-ranked groups.  A non-negative [limit]
    gives [min(limit, n)] groups; a negative one does not give an empty
    list but all groups except the last [-limit]. *)
Theorem get_top_prospects_prefix (self : MultiOEMDetector) (limit : Z) :
  (∃ rest, multi_oem_matches self
           = (Contact.get_top_prospects self limit ++ rest)%list)
  ∧ len (Contact.get_top_prospects self limit)
    = (if 0 <=? limit then Z.min limit (len (multi_oem_matches self))
       else Z.max 0 (len (multi_oem_matches self) + limit)).
Proof.
  split; [apply SliceFacts.slice_to_prefix | apply SliceFacts.slice_to_length].
Qed.

(** ** Capabilities *)

Module CapabilityFacts.

Import Capabilities.

Lemma count_true_cons (b : bool) (flags : list bool) :
  count_true (b :: flags) = (if b then 1 else 0) + count_true flags.
Proof.
  unfold count_true. destruct b.
  - rewrite filter_cons_True by done. simpl length. lia.
  - rewrite filter_cons_False by done. lia.
Qed.

Lemma len_append_if (b : bool) (label : string) (l : list string) :
  len (append_if b label l) = len l + (if b then 1 else 0).
Proof.
  unfold append_if, len. destruct b; [rewrite length_app; simpl |]; lia.
Qed.

Lemma strip_prefix_app (needle s rest t : string) :
  PyStr.strip_prefix needle s = Some rest →
  PyStr.strip_prefix needle (s ++ t) = Some (rest ++ t).
Proof.
  revert s. induction needle as [|a n IH]; intros s; simpl.
  - by intros [= ->].
  - destruct s as [|b s]; [done |]. simpl.
    destruct (Ascii.eqb a b); [apply IH | done].
Qed.

Lemma contains_eq (needle s : string) :
  PyStr.contains needle s
  = match PyStr.strip_prefix needle s with
    | Some _ => true
    | None =>
        match s with
        | EmptyString => false
        | String _ s' => PyStr.contains needle s'
        end
    end.
Proof. by destruct s. Qed.

(** A keyword found in a text is found in every extension of it. *)
Lemma contains_app_l (needle s t : string) :
  PyStr.contains needle s = true → PyStr.contains needle (s ++ t) = true.
Proof.
  induction s as [|c s IH]; rewrite (contains_eq needle), (contains_eq needle (_ ++ t)).
  - destruct (PyStr.strip_prefix needle "") as [r|] eqn:E; [| done].
    intros _. by rewrite (strip_prefix_app _ _ _ t E).
  - destruct (PyStr.strip_prefix needle (String c s)) eqn:E.
    + intros _. by rewrite (strip_prefix_app _ _ _ t E).
    + intros H. destruct (PyStr.strip_prefix needle (String c s ++ t)); [done |].
      change (String c s ++ t) with (String c (s ++ t)). cbn iota. by apply IH.
Qed.

Lemma lower_app (s t : string) :
  PyStr.lower (s ++ t) = PyStr.lower s ++ PyStr.lower t.
Proof. induction s as [|c s IH]; simpl; [done | by rewrite IH]. Qed.

Lemma any_keyword_intro (keywords : list string) (keyword text : string) :
  keyword ∈ keywords → PyStr.contains keyword text = true →
  any_keyword keywords text = true.
Proof.
  intros Hin Hc. unfold any_keyword. apply existsb_exists.
  exists keyword. split; [by apply list_elem_of_In | done].
Qed.

End CapabilityFacts.

(** X17.  The capability count is the number of product capabilities
    plus the number of trade capabilities that are listed. *)
Theorem capability_count_is_products_plus_trades
        (caps : Capabilities.DealerCapabilities) :
  Capabilities.get_capability_count caps
  = len (Capabilities.get_product_capabilities caps)
    + len (Capabilities.get_trade_capabilities caps).
Proof.
  unfold Capabilities.get_capability_count, Capabilities.get_product_capabilities,
    Capabilities.get_trade_capabilities.
  rewrite !CapabilityFacts.count_true_cons, !CapabilityFacts.len_append_if.
  change (Capabilities.count_true []) with 0. change (len []) with 0. lia.
Qed.

(** X18.  Detection of the high-value contractor types: a dealer with all
    four trades (electrical, HVAC, plumbing, roofing) is flagged MEP+R
    whatever its name; a dealer whose name holds an O&M keyword, in any
    letter case, is flagged O&M; and detection changes no product or trade
    capability. *)
Theorem detect_high_value_flags
        (caps : Capabilities.DealerCapabilities)
        (dealer_name : string) (certifications : list string) (tier : string) :
  let detected :=
    Capabilities.detect_high_value_contractor_types caps dealer_name
                                                    certifications tier in
  (Capabilities.has_electrical caps = true → Capabilities.has_hvac caps = true →
   Capabilities.has_plumbing caps = true → Capabilities.has_roofing caps = true →
   Capabilities.is_mep_r_contractor detected = true)
  ∧ (∀ keyword, keyword ∈ Capabilities.om_keywords →
        PyStr.contains keyword (PyStr.lower dealer_name) = true →
        Capabilities.has_om_capability detected = true)
  ∧ (∀ keyword, keyword ∈ Capabilities.mep_keywords →
        PyStr.contains keyword (PyStr.lower dealer_name) = true →
        Capabilities.is_mep_r_contractor detected = true)
  ∧ Capabilities.get_product_capabilities detected
    = Capabilities.get_product_capabilities caps
  ∧ Capabilities.get_trade_capabilities detected
    = Capabilities.get_trade_capabilities caps.
Proof.
  intros detected. subst detected.
  unfold Capabilities.detect_high_value_contractor_types.
  cbn [Capabilities.is_mep_r_contractor Capabilities.has_om_capability].
  assert (Hfound : ∀ keyword,
    PyStr.contains keyword (PyStr.lower dealer_name) = true →
    PyStr.contains keyword
      (Capabilities.search_text dealer_name certifications tier) = true).
  { intros keyword H. unfold Capabilities.search_text.
    rewrite CapabilityFacts.lower_app. by apply CapabilityFacts.contains_app_l. }
  split; [by intros -> -> -> -> |]. split; [| split; [| by split]].
  - intros keyword Hin Hc.
    apply (CapabilityFacts.any_keyword_intro _ keyword); [done | by apply Hfound].
  - intros keyword Hin Hc. apply orb_true_iff. right.
    apply (CapabilityFacts.any_keyword_intro _ keyword); [done | by apply Hfound].
Qed.

(** ** SREC states and the filter *)

Module SrecFacts.

Import SrecItc SrecFilter.

Lemma has_key_get {V : Type} (k : string) (d : list (string * V)) :
  PyDict.has_key k d = true ↔ ∃ v, PyDict.get k d = Some v.
Proof.
  unfold PyDict.has_key. induction d as [|[k' v] d IH]; simpl.
  - split; [done | by intros [v ?]].
  - destruct (String.eqb k' k); simpl; [| done]. split; [by eexists | done].
Qed.

Lemma get_elem_of {V : Type} (k : string) (v : V) (d : list (string * V)) :
  PyDict.get k d = Some v → (k, v) ∈ d.
Proof.
  induction d as [|[k' v'] d IH]; simpl; [done |].
  destruct (String.eqb_spec k' k) as [-> | _].
  - intros [= ->]. by left.
  - intros H. right. by apply IH.
Qed.

Lemma upper_app (s t : string) :
  PyStr.upper (s ++ t) = PyStr.upper s ++ PyStr.upper t.
Proof.
  induction s as [|c s IH]; simpl; [done |].
  rewrite IH. by repeat case_match.
Qed.

Lemma upper_lower_char (c : ascii) :
  PyStr.upper (String (PyStr.lower_char c) "") = PyStr.upper (String c "").
Proof. destruct c as [[] [] [] [] [] [] [] []]; reflexivity. Qed.

Lemma upper_upper_char (c : ascii) :
  PyStr.upper (PyStr.upper (String c "")) = PyStr.upper (String c "").
Proof. destruct c as [[] [] [] [] [] [] [] []]; reflexivity. Qed.

Lemma upper_lower (s : string) : PyStr.upper (PyStr.lower s) = PyStr.upper s.
Proof.
  induction s as [|c s IH]; [done |].
  change (PyStr.lower (String c s))
    with (String (PyStr.lower_char c) "" ++ PyStr.lower s).
  change (String c s) with (String c "" ++ s).
  by rewrite !upper_app, IH, upper_lower_char.
Qed.

Lemma upper_idem (s : string) : PyStr.upper (PyStr.upper s) = PyStr.upper s.
Proof.
  induction s as [|c s IH]; [done |].
  change (String c s) with (String c "" ++ s).
  by rewrite !upper_app, IH, upper_upper_char.
Qed.

Lemma srec_table_priorities :
  Forall (λ kv, priority kv.2 ≠ PriorityLOW) SREC_STATES.
Proof. repeat constructor; discriminate. Qed.

(** In an SREC state the urgency is never LOW. *)
Lemma urgency_of_srec_state self state_code is_commercial reference_date :
  is_srec_state self state_code = true →
  calculate_itc_urgency self state_code is_commercial reference_date ≠ LOW.
Proof.
  intros H. unfold calculate_itc_urgency. rewrite H. by repeat case_match.
Qed.

End SrecFacts.

(** X19.  The two look-ups of the state table agree: a state is an SREC
    state exactly when it has a priority.  In the shipped table that
    priority is HIGH or MEDIUM, never LOW. *)
Theorem srec_state_has_priority
        (self : SrecItc.SRECITCFilter) (date_today : PyDate.date)
        (state_code : string) :
  (SrecItc.is_srec_state self state_code = true
   ↔ ∃ p, SrecFilter.get_srec_priority self state_code = Some p)
  ∧ SrecFilter.get_srec_priority (SrecItc.init date_today) state_code
    ≠ Some SrecItc.PriorityLOW.
Proof.
  split.
  - unfold SrecItc.is_srec_state, SrecFilter.get_srec_priority.
    rewrite SrecFacts.has_key_get. split.
    + intros [v ->]. by eexists.
    + destruct (PyDict.get _ _) as [v|]; [by eexists | by intros [p ?]].
  - unfold SrecFilter.get_srec_priority. cbn [SrecItc.init SrecItc.srec_states].
    destruct (PyDict.get _ _) as [info|] eqn:E; [| done].
    apply SrecFacts.get_elem_of in E.
    pose proof SrecFacts.srec_table_priorities as Htable.
    rewrite Forall_forall in Htable. specialize (Htable _ E). simpl in Htable.
    congruence.
Qed.

(** X20.  State codes are read without regard to letter case: lowering
    or raising the case of a code changes neither whether it is an SREC
    state nor its priority. *)
Theorem srec_state_ignores_case
        (self : SrecItc.SRECITCFilter) (state_code : string) :
  SrecItc.is_srec_state self (PyStr.lower state_code)
  = SrecItc.is_srec_state self state_code
  ∧ SrecItc.is_srec_state self (PyStr.upper state_code)
    = SrecItc.is_srec_state self state_code
  ∧ SrecFilter.get_srec_priority self (PyStr.lower state_code)
    = SrecFilter.get_srec_priority self state_code
  ∧ SrecFilter.get_srec_priority self (PyStr.upper state_code)
    = SrecFilter.get_srec_priority self state_code.
Proof.
  unfold SrecItc.is_srec_state, SrecFilter.get_srec_priority.
  by rewrite SrecFacts.upper_lower, SrecFacts.upper_idem.
Qed.

(** X21.  Whenever a contractor that is not flagged commercial is HIGH
    on some day, the same contractor flagged commercial is CRITICAL on
    that day: the residential window lies inside the commercial one. *)
Theorem residential_high_implies_commercial_critical
        (date_today : PyDate.date) (state_code : string)
        (reference_date : option PyDate.date) :
  SrecItc.calculate_itc_urgency (SrecItc.init date_today) state_code false
                                reference_date = SrecItc.HIGH →
  SrecItc.calculate_itc_urgency (SrecItc.init date_today) state_code true
                                reference_date = SrecItc.CRITICAL.
Proof.
  unfold SrecItc.calculate_itc_urgency.
  cbn [SrecItc.init SrecItc.today SrecItc.commercial_safe_harbor
       SrecItc.residential_itc_deadline negb andb].
  rewrite SrecItcFacts.residential_before_commercial.
  set (n := PyDate.days_between _ _).
  destruct (Z.leb_spec (n - 181) 180), (Z.ltb_spec 0 (n - 181));
    cbn [andb]; try (by repeat case_match).
  intros _.
  rewrite (proj2 (Z.leb_le n 365)), (proj2 (Z.ltb_lt 0 n)) by lia. done.
Qed.

Lemma residential_high_implies_commercial_critical_witness :
  SrecItc.calculate_itc_urgency (SrecItc.init date_2026_06_30) "TX" true
                                (Some date_2025_09_03) = SrecItc.CRITICAL.
Proof.
  apply (residential_high_implies_commercial_critical
           date_2026_06_30 "TX" (Some date_2025_09_03)).
  vm_compute. reflexivity.
Defined.

Module FilterFacts.

Import SrecItc SrecFilter.

Lemma priority_of_srec_state self state_code :
  is_srec_state self state_code = true →
  ∃ p, get_srec_priority self state_code = Some p.
Proof.
  unfold is_srec_state, get_srec_priority.
  intros [v ->]%SrecFacts.has_key_get. by eexists.
Qed.

Lemma filter_one_eq self min_priority include_enrichment c :
  filter_one self min_priority include_enrichment c
  = inr (if passes_filter self min_priority c
         then Some (if include_enrichment then enriched_of self c else c)
         else None).
Proof.
  unfold filter_one, passes_filter, enriched_of.
  destruct (is_srec_state self (state_of c)) eqn:Es; [| done].
  destruct (priority_of_srec_state _ _ Es) as [p ->].
  cbn [negb andb value_of]. unfold enrich. cbn [value_of].
  destruct min_priority as [mp|]; [| by destruct include_enrichment].
  destruct mp, p, include_enrichment; reflexivity.
Qed.

Lemma filter_loop_eq self min_priority include_enrichment contractors acc :
  filter_loop self min_priority include_enrichment contractors acc
  = inr (acc ++ ((λ c, if include_enrichment then enriched_of self c else c)
                   <$> filter (λ c, passes_filter self min_priority c = true)
                              contractors))%list.
Proof.
  revert acc. induction contractors as [|c cs IH]; intros acc; simpl.
  - by rewrite app_nil_r.
  - rewrite filter_one_eq.
    destruct (passes_filter self min_priority c) eqn:E.
    + rewrite filter_cons_True by done. rewrite IH. csimpl.
      by rewrite <- app_assoc.
    + rewrite filter_cons_False by (by rewrite E). apply IH.
Qed.

Lemma enriched_of_obj self c : obj (enriched_of self c) = obj c.
Proof.
  unfold enriched_of, enrich.
  by destruct (value_of (get_srec_priority self (state_of c))).
Qed.

Lemma enriched_of_state self c : state_of (enriched_of self c) = state_of c.
Proof. unfold state_of. by rewrite enriched_of_obj. Qed.

Lemma count_if_cons {A : Type} (test : A → bool) (x : A) (l : list A) :
  count_if test (x :: l) = (if test x then 1 else 0) + count_if test l.
Proof.
  unfold count_if. destruct (test x) eqn:E.
  - rewrite filter_cons_True by done. simpl length. lia.
  - rewrite filter_cons_False by (by rewrite E). lia.
Qed.

(** The urgency recorded on a fresh contractor of an SREC state is one of
    the three that the statistics count. *)
Lemma enriched_urgency self c :
  is_srec_state self (state_of c) = true →
  srec_metadata c = None →
  (if has_urgency CRITICAL (enriched_of self c) then 1 else 0)
  + (if has_urgency HIGH (enriched_of self c) then 1 else 0)
  + (if has_urgency MEDIUM (enriched_of self c) then 1 else 0) = 1.
Proof.
  intros Es Hfresh.
  pose proof (SrecFacts.urgency_of_srec_state self (state_of c)
                (is_commercial (dealer_of (obj c))) None Es) as Hlow.
  unfold enriched_of, enrich, has_urgency.
  destruct (priority_of_srec_state _ _ Es) as [p ->].
  cbn [value_of srec_metadata]. rewrite Hfresh. cbn [md_urgency].
  by destruct (calculate_itc_urgency _ _ _ _).
Qed.

End FilterFacts.

(** X22.  [filter_contractors] never raises.  It keeps, in their order,
    exactly the contractors whose state is an SREC state and, when the
    minimum priority is HIGH, has priority HIGH; a minimum priority of
    MEDIUM or LOW therefore filters like none at all.  Without enrichment
    the kept contractors are returned unchanged. *)
Theorem filter_contractors_keeps_srec_states
        (self : SrecItc.SRECITCFilter) (contractors : list SrecFilter.Contractor)
        (min_priority : option SrecItc.SRECPriority) (include_enrichment : bool) :
  ∃ result,
    SrecFilter.filter_contractors self contractors min_priority include_enrichment
    = inr result
    ∧ SrecFilter.obj <$> SrecFilter.contractors result
      = SrecFilter.obj
          <$> filter (λ c, passes_filter self min_priority c = true) contractors
    ∧ (∀ c, c ∈ SrecFilter.contractors result →
            SrecItc.is_srec_state self (SrecFilter.state_of c) = true)
    ∧ (min_priority ≠ Some SrecItc.PriorityHIGH →
       SrecFilter.obj <$> SrecFilter.contractors result
       = SrecFilter.obj
           <$> filter (λ c, SrecItc.is_srec_state self (SrecFilter.state_of c) = true)
                      contractors)
    ∧ (include_enrichment = false →
       SrecFilter.contractors result
       = filter (λ c, passes_filter self min_priority c = true) contractors)
    ∧ SrecFilter.total_count result = len (SrecFilter.contractors result).
Proof.
  unfold SrecFilter.filter_contractors. rewrite FilterFacts.filter_loop_eq.
  eexists. split; [reflexivity |]. cbn [SrecFilter.contractors SrecFilter.total_count app].
  split; [| split; [| split; [| split; [| done]]]].
  - rewrite <- list_fmap_compose. apply list_fmap_ext. intros i c _. simpl.
    destruct include_enrichment; [apply FilterFacts.enriched_of_obj | done].
  - intros c' (c & -> & [Hpass _]%list_elem_of_filter)%list_elem_of_fmap.
    apply andb_true_iff in Hpass as [Hs _].
    destruct include_enrichment; [by rewrite FilterFacts.enriched_of_state | done].
  - intros Hmp. rewrite <- list_fmap_compose.
    assert (Hsame : ∀ c, passes_filter self min_priority c
                         = SrecItc.is_srec_state self (SrecFilter.state_of c)).
    { intros c. unfold passes_filter.
      assert (SrecFilter.is_high min_priority = false) as ->
        by (by destruct min_priority as [[]|]).
      by rewrite andb_true_r. }
    erewrite (list_filter_iff _ (λ c, SrecItc.is_srec_state self
                                        (SrecFilter.state_of c) = true));
      [| intros c; by rewrite Hsame].
    apply list_fmap_ext. intros i c _. simpl.
    destruct include_enrichment; [apply FilterFacts.enriched_of_obj | done].
  - intros ->. by rewrite list_fmap_id.
Qed.

(** X23.  With enrichment on contractors that carry no earlier metadata,
    no kept contractor is left out of the urgency statistics: the
    CRITICAL, HIGH and MEDIUM counts add up to the total count (an SREC
    state never gives LOW). *)
Theorem filter_contractors_urgency_counts
        (self : SrecItc.SRECITCFilter) (contractors : list SrecFilter.Contractor)
        (min_priority : option SrecItc.SRECPriority) :
  Forall (λ c, SrecFilter.srec_metadata c = None) contractors →
  ∃ result,
    SrecFilter.filter_contractors self contractors min_priority true = inr result
    ∧ SrecFilter.critical_urgency_count result
      + SrecFilter.high_urgency_count result
      + SrecFilter.medium_urgency_count result
      = SrecFilter.total_count result.
Proof.
  intros Hfresh.
  unfold SrecFilter.filter_contractors. rewrite FilterFacts.filter_loop_eq.
  eexists. split; [reflexivity |].
  cbn [SrecFilter.critical_urgency_count SrecFilter.high_urgency_count
       SrecFilter.medium_urgency_count SrecFilter.total_count app].
  induction Hfresh as [|c cs Hc Hcs IH]; [done |].
  destruct (passes_filter self min_priority c) eqn:E.
  - rewrite filter_cons_True by done. csimpl.
    rewrite !FilterFacts.count_if_cons.
    apply andb_true_iff in E as [Es _].
    pose proof (FilterFacts.enriched_urgency self c Es Hc).
    unfold len in *. simpl length. lia.
  - by rewrite filter_cons_False by (by rewrite E).
Qed.

Lemma filter_contractors_urgency_counts_witness :
  ∃ result,
    SrecFilter.filter_contractors
      (SrecItc.init date_2025_09_03)
      [fresh_contractor (dealer_in "CA"); fresh_contractor (dealer_in "NY");
       fresh_contractor (dealer_in "oh")]
      None true = inr result
    ∧ SrecFilter.critical_urgency_count result
      + SrecFilter.high_urgency_count result
      + SrecFilter.medium_urgency_count result
      = SrecFilter.total_count result.
Proof.
  apply (filter_contractors_urgency_counts (SrecItc.init date_2025_09_03)).
  repeat constructor.
Defined.

(** ** Scores *)

Module ScoreFacts.

Import Scoring.

Lemma score_multi_oem_presence_values (m : MultiOEMMatch) :
  (3 ≤ oem_count (oem_sources m) → (score_multi_oem_presence m).1 = 40)
  ∧ (oem_count (oem_sources m) = 2 → (score_multi_oem_presence m).1 = 30)
  ∧ (oem_count (oem_sources m) = 1 → (score_multi_oem_presence m).1 = 8)
  ∧ (oem_count (oem_sources m) ≤ 0 → (score_multi_oem_presence m).1 = 0).
Proof.
  unfold score_multi_oem_presence.
  destruct (Z.leb_spec 3 (oem_count (oem_sources m)));
    [repeat split; intros; (done || lia) |].
  destruct (Z.eqb_spec (oem_count (oem_sources m)) 2);
    [repeat split; intros; (done || lia) |].
  destruct (Z.eqb_spec (oem_count (oem_sources m)) 1);
    repeat split; intros; (done || lia).
Qed.

Lemma score_srec_state_range md :
  (score_srec_state md).1 = 0 ∨ (score_srec_state md).1 = 10
  ∨ (score_srec_state md).1 = 20.
Proof. unfold score_srec_state. repeat case_match; simpl; tauto. Qed.

Lemma score_commercial_capability_range m :
  (score_commercial_capability m).1 = 5 ∨ (score_commercial_capability m).1 = 10
  ∨ (score_commercial_capability m).1 = 15 ∨ (score_commercial_capability m).1 = 20.
Proof. unfold score_commercial_capability. repeat case_match; simpl; tauto. Qed.

Lemma score_geographic_value_range self m :
  (LeadScorer.score_geographic_value self m).1 = 0
  ∨ (LeadScorer.score_geographic_value self m).1 = 3
  ∨ (LeadScorer.score_geographic_value self m).1 = 7
  ∨ (LeadScorer.score_geographic_value self m).1 = 10.
Proof. unfold LeadScorer.score_geographic_value. repeat case_match; simpl; tauto. Qed.

Lemma score_itc_urgency_range md :
  (score_itc_urgency md).1 = 2 ∨ (score_itc_urgency md).1 = 5
  ∨ (score_itc_urgency md).1 = 7 ∨ (score_itc_urgency md).1 = 10.
Proof. unfold score_itc_urgency. repeat case_match; simpl; tauto. Qed.

(** The total of a scored contractor is the sum of its five dimensions. *)
Lemma score_contractor_total self m md :
  total_score (score_contractor self m md)
  = (score_multi_oem_presence m).1 + (score_srec_state md).1
    + (score_commercial_capability m).1
    + (LeadScorer.score_geographic_value self m).1
    + (score_itc_urgency md).1
  ∧ priority_tier (score_contractor self m md)
    = (if 90 <=? total_score (score_contractor self m md) then "HOT"
       else if 70 <=? total_score (score_contractor self m md) then "HIGH"
       else if 50 <=? total_score (score_contractor self m md) then "MEDIUM"
       else "LOW").
Proof.
  unfold score_contractor.
  destruct (score_multi_oem_presence m), (score_srec_state md),
    (score_commercial_capability m), (LeadScorer.score_geographic_value self m),
    (score_itc_urgency md).
  unfold calculate_total. cbn. split; [lia | done].
Qed.

End ScoreFacts.

(** X24.  [score_contractor] awards no bonus (O&M and MEP+R stay 0), so
    the total is the sum of the five dimensions; it always lies between 7
    and 100. *)
Theorem score_contractor_total_range
        (self : LeadScorer.CoperniqLeadScorer) (m : MultiOEMMatch)
        (srec_metadata : option SrecFilter.SrecMetadata) :
  let score := Scoring.score_contractor self m srec_metadata in
  Scoring.om_bonus score = 0
  ∧ Scoring.mep_r_bonus score = 0
  ∧ Scoring.total_score score
    = Scoring.multi_oem_points score + Scoring.srec_state_score score
      + Scoring.commercial_capability_score score
      + Scoring.geographic_score score + Scoring.itc_urgency_score score
  ∧ 7 ≤ Scoring.total_score score ≤ 100.
Proof.
  intros score.
  destruct (ScoreFacts.score_contractor_total self m srec_metadata) as [Htotal _].
  fold score in Htotal. split; [| split; [| split]].
  - subst score. unfold Scoring.score_contractor. by repeat case_match.
  - subst score. unfold Scoring.score_contractor. by repeat case_match.
  - subst score. unfold Scoring.score_contractor.
    destruct (Scoring.score_multi_oem_presence m), (Scoring.score_srec_state _),
      (Scoring.score_commercial_capability m),
      (LeadScorer.score_geographic_value self m), (Scoring.score_itc_urgency _).
    cbn. lia.
  - rewrite Htotal.
    pose proof (ScoreFacts.score_multi_oem_presence_values m) as (H3 & H2 & H1 & H0).
    pose proof (ScoreFacts.score_srec_state_range srec_metadata).
    pose proof (ScoreFacts.score_commercial_capability_range m).
    pose proof (ScoreFacts.score_geographic_value_range self m).
    pose proof (ScoreFacts.score_itc_urgency_range srec_metadata).
    assert (0 ≤ (Scoring.score_multi_oem_presence m).1 ≤ 40).
    { destruct (Z.le_gt_cases 3 (oem_count (oem_sources m)));
        [rewrite H3 by done; lia |].
      destruct (Z.le_gt_cases (oem_count (oem_sources m)) 0);
        [rewrite H0 by done; lia |].
      assert (oem_count (oem_sources m) = 1 ∨ oem_count (oem_sources m) = 2)
        as [? | ?] by lia; [rewrite H1 by done | rewrite H2 by done]; lia. }
    lia.
Qed.

(** X25.  A contractor certified by a single OEM can never reach the
    tiers HIGH or HOT: its total is at most 68. *)
Theorem single_oem_never_high
        (self : LeadScorer.CoperniqLeadScorer) (m : MultiOEMMatch)
        (srec_metadata : option SrecFilter.SrecMetadata) :
  oem_count (oem_sources m) ≤ 1 →
  Scoring.total_score (Scoring.score_contractor self m srec_metadata) ≤ 68
  ∧ tier_rank (Scoring.priority_tier
                 (Scoring.score_contractor self m srec_metadata)) ≤ 1.
Proof.
  intros Hone.
  destruct (ScoreFacts.score_contractor_total self m srec_metadata) as [Htotal ->].
  assert (Hle : Scoring.total_score (Scoring.score_contractor self m srec_metadata)
                ≤ 68).
  { rewrite Htotal.
    pose proof (ScoreFacts.score_multi_oem_presence_values m) as (_ & _ & H1 & H0).
    pose proof (ScoreFacts.score_srec_state_range srec_metadata).
    pose proof (ScoreFacts.score_commercial_capability_range m).
    pose proof (ScoreFacts.score_geographic_value_range self m).
    pose proof (ScoreFacts.score_itc_urgency_range srec_metadata).
    destruct (Z.le_gt_cases (oem_count (oem_sources m)) 0);
      [rewrite H0 by done | rewrite H1 by lia]; lia. }
  split; [done |].
  rewrite !(proj2 (Z.leb_gt _ _)) by lia.
  by destruct (50 <=? _).
Qed.

Lemma single_oem_never_high_witness :
  Scoring.total_score
    (Scoring.score_contractor LeadScorer.init (contractor_at "CA" "90210") None) ≤ 68
  ∧ tier_rank (Scoring.priority_tier
                 (Scoring.score_contractor LeadScorer.init
                                           (contractor_at "CA" "90210") None)) ≤ 1.
Proof.
  apply (single_oem_never_high LeadScorer.init (contractor_at "CA" "90210") None).
  vm_compute. discriminate.
Defined.

(** X26.  Tiers follow the total: of two scores, the one with the higher
    total never gets the lower tier. *)
Theorem tier_monotone_in_total (a b : Scoring.CoperniqScore) :
  Scoring.total_score (Scoring.calculate_total a)
  ≤ Scoring.total_score (Scoring.calculate_total b) →
  tier_rank (Scoring.priority_tier (Scoring.calculate_total a))
  ≤ tier_rank (Scoring.priority_tier (Scoring.calculate_total b)).
Proof.
  unfold Scoring.calculate_total.
  cbn [Scoring.total_score Scoring.priority_tier].
  set (ta := _ + Scoring.mep_r_bonus a). set (tb := _ + Scoring.mep_r_bonus b).
  intros Hle.
  destruct (Z.leb_spec 90 ta), (Z.leb_spec 90 tb),
    (Z.leb_spec 70 ta), (Z.leb_spec 70 tb),
    (Z.leb_spec 50 ta), (Z.leb_spec 50 tb);
    try lia; vm_compute; discriminate.
Qed.

Lemma tier_monotone_in_total_witness :
  tier_rank (Scoring.priority_tier
               (Scoring.calculate_total
                  (Scoring.score_contractor LeadScorer.init
                                            (contractor_at "NY" "10007") None)))
  ≤ tier_rank (Scoring.priority_tier
                 (Scoring.calculate_total
                    (Scoring.score_contractor LeadScorer.init
                                              (contractor_at "CA" "90210") None))).
Proof.
  apply (tier_monotone_in_total
           (Scoring.score_contractor LeadScorer.init (contractor_at "NY" "10007") None)
           (Scoring.score_contractor LeadScorer.init (contractor_at "CA" "90210") None)).
  vm_compute. discriminate.
Defined.

Module ScoreSortFacts.

Import Scoring.

Lemma elem_of_insert_score s x sorted :
  s ∈ insert_score x sorted ↔ s = x ∨ s ∈ sorted.
Proof.
  induction sorted as [|y rest IH]; simpl.
  - rewrite list_elem_of_singleton, elem_of_nil. tauto.
  - destruct (total_score x <? total_score y); rewrite !elem_of_cons, ?IH; tauto.
Qed.

Lemma insert_score_sorted x sorted :
  StronglySorted total_no_lower sorted →
  StronglySorted total_no_lower (insert_score x sorted).
Proof.
  induction 1 as [|y rest Hrest IH Hy]; simpl.
  - repeat constructor.
  - rewrite Forall_forall in Hy.
    destruct (Z.ltb_spec (total_score x) (total_score y)).
    + constructor; [done |]. apply Forall_forall.
      intros z [-> | Hz]%elem_of_insert_score.
      * unfold total_no_lower. lia.
      * by apply Hy.
    + constructor; [by constructor; [| apply Forall_forall] |].
      constructor; [done |]. apply Forall_forall. intros z Hz.
      specialize (Hy z Hz). unfold total_no_lower in *. lia.
Qed.

Lemma sort_scores_sorted scores : StronglySorted total_no_lower (sort_scores scores).
Proof.
  unfold sort_scores. induction scores as [|x xs IH]; simpl.
  - constructor.
  - by apply insert_score_sorted.
Qed.

Lemma insert_score_perm x sorted : insert_score x sorted ≡ₚ x :: sorted.
Proof.
  induction sorted as [|y rest IH]; simpl; [done |].
  destruct (total_score x <? total_score y); [| done].
  rewrite IH. apply Permutation_swap.
Qed.

Lemma sort_scores_perm scores : sort_scores scores ≡ₚ scores.
Proof.
  unfold sort_scores. induction scores as [|x xs IH]; simpl; [done |].
  by rewrite insert_score_perm, IH.
Qed.

End ScoreSortFacts.

(** X27.  [score_contractors] scores every contractor once and returns
    the scores in descending order of total: the result is a
    rearrangement of the individual scores, as long as the input. *)
Theorem score_contractors_sorted
        (self : LeadScorer.CoperniqLeadScorer)
        (contractors : list (MultiOEMMatch * option SrecFilter.SrecMetadata)) :
  StronglySorted total_no_lower (Scoring.score_contractors self contractors)
  ∧ Scoring.score_contractors self contractors
    ≡ₚ (λ c, Scoring.score_contractor self c.1 c.2) <$> contractors
  ∧ length (Scoring.score_contractors self contractors) = length contractors.
Proof.
  unfold Scoring.score_contractors.
  split; [apply ScoreSortFacts.sort_scores_sorted |].
  split; [apply ScoreSortFacts.sort_scores_perm |].
  by rewrite ScoreSortFacts.sort_scores_perm, length_fmap.
Qed.

(** X28.  Filter and scorer fit together: a contractor that the filter of
    the shipped table kept and enriched, having carried no earlier
    metadata, scores 10 or 20 on the SREC dimension (never 0) and at least
    5 on the urgency dimension (never the 2 of a non-SREC state). *)
Theorem filtered_contractor_scores
        (date_today : PyDate.date) (contractors : list SrecFilter.Contractor)
        (min_priority : option SrecItc.SRECPriority)
        (result : SrecFilter.SRECFilterResult) (c : SrecFilter.Contractor) :
  Forall (λ c, SrecFilter.srec_metadata c = None) contractors →
  SrecFilter.filter_contractors (SrecItc.init date_today) contractors
                                min_priority true = inr result →
  c ∈ SrecFilter.contractors result →
  ((Scoring.score_srec_state (SrecFilter.srec_metadata c)).1 = 10
   ∨ (Scoring.score_srec_state (SrecFilter.srec_metadata c)).1 = 20)
  ∧ 5 ≤ (Scoring.score_itc_urgency (SrecFilter.srec_metadata c)).1.
Proof.
  intros Hfresh. unfold SrecFilter.filter_contractors.
  rewrite FilterFacts.filter_loop_eq. intros [= <-].
  cbn [SrecFilter.contractors app].
  intros (c0 & -> & [Hpass Hin]%list_elem_of_filter)%list_elem_of_fmap.
  rewrite Forall_forall in Hfresh. specialize (Hfresh c0 Hin).
  apply andb_true_iff in Hpass as [Es _].
  pose proof (SrecFacts.urgency_of_srec_state (SrecItc.init date_today)
                (SrecFilter.state_of c0)
                (is_commercial (SrecFilter.dealer_of (SrecFilter.obj c0)))
                None Es) as Hlow.
  unfold enriched_of, SrecFilter.enrich.
  destruct (FilterFacts.priority_of_srec_state _ _ Es) as [p Hp].
  rewrite Hp. cbn [SrecFilter.value_of SrecFilter.srec_metadata]. rewrite Hfresh.
  assert (p ≠ SrecItc.PriorityLOW) as Hp_low.
  { intros ->. revert Hp. unfold SrecFilter.get_srec_priority.
    cbn [SrecItc.init SrecItc.srec_states].
    destruct (PyDict.get _ _) as [info|] eqn:E; [| done].
    apply SrecFacts.get_elem_of in E.
    pose proof SrecFacts.srec_table_priorities as Htable.
    rewrite Forall_forall in Htable. specialize (Htable _ E). simpl in Htable.
    congruence. }
  unfold Scoring.score_srec_state, Scoring.score_itc_urgency.
  cbn [SrecFilter.md_priority SrecFilter.md_urgency].
  split.
  - destruct p; [by right | by left | done].
  - by destruct (SrecItc.calculate_itc_urgency _ _ _ _).
Qed.

Lemma filtered_contractor_scores_witness :
  ((Scoring.score_srec_state
      (SrecFilter.srec_metadata
         (enriched_of (SrecItc.init date_2025_09_03)
                      (fresh_contractor (dealer_in "CA"))))).1 = 10
   ∨ (Scoring.score_srec_state
        (SrecFilter.srec_metadata
           (enriched_of (SrecItc.init date_2025_09_03)
                        (fresh_contractor (dealer_in "CA"))))).1 = 20)
  ∧ 5 ≤ (Scoring.score_itc_urgency
           (SrecFilter.srec_metadata
              (enriched_of (SrecItc.init date_2025_09_03)
                           (fresh_contractor (dealer_in "CA"))))).1.
Proof.
  eapply (filtered_contractor_scores date_2025_09_03
            [fresh_contractor (dealer_in "CA"); fresh_contractor (dealer_in "NY")]
            None).
  - repeat constructor.
  - vm_compute. reflexivity.
  - vm_compute. left.
Defined.

(** X29.  Resolver and scorer fit together: every group that resolution
    returns scores at least 8 on the multi-OEM dimension, at least 30 when
    [min_oem_count] is 2 or more, and 40 when it is 3 or more. *)
Theorem resolved_group_multi_oem_points
        (self : MultiOEMDetector) (min_oem_count : Z) :
  ∃ matches self',
    find_multi_oem_contractors self min_oem_count = Returned (matches, self')
    ∧ ∀ m, m ∈ matches →
        8 ≤ (Scoring.score_multi_oem_presence m).1
        ∧ (2 ≤ min_oem_count → 30 ≤ (Scoring.score_multi_oem_presence m).1)
        ∧ (3 ≤ min_oem_count → (Scoring.score_multi_oem_presence m).1 = 40).
Proof.
  destruct (DetectorFacts.find_eq self min_oem_count)
    as (pm & proc & ms & _ & _ & Hfind).
  eexists _, _. split; [exact Hfind |]. intros m Hm.
  destruct (DetectorFacts.find_elem _ _ _ _ _ Hfind Hm)
    as (entries & primary & Hne & _ & Hlen & Hcase).
  assert (Hsrc : oem_sources m = list_to_set (group_by_oem entries).*1)
    by (destruct Hcase as [-> | ->]; done).
  pose proof (DetectorFacts.oem_count_group entries) as Hcount.
  rewrite <- Hsrc in Hcount.
  pose proof (DetectorFacts.len_pos _
                (DetectorFacts.group_by_oem_not_nil entries Hne)) as Hpos.
  pose proof (ScoreFacts.score_multi_oem_presence_values m) as (H3 & H2 & H1 & _).
  destruct (Z.le_gt_cases 3 (oem_count (oem_sources m))) as [Hge | Hlt].
  - rewrite H3 by done. repeat split; intros; lia.
  - assert (oem_count (oem_sources m) = 1 ∨ oem_count (oem_sources m) = 2)
      as [Hc | Hc] by lia.
    + rewrite H1 by done. repeat split; intros; lia.
    + rewrite H2 by done. repeat split; intros; lia.
Qed.

(** X30.  The commercial-capability score never decreases with the
    employee count, and without an employee count the tier estimate stays
    at 15 or below. *)
Theorem commercial_score_monotone (m1 m2 : MultiOEMMatch) (n1 n2 : Z) :
  employee_count (primary_dealer m1) = Some n1 →
  employee_count (primary_dealer m2) = Some n2 →
  n1 ≤ n2 →
  (Scoring.score_commercial_capability m1).1
  ≤ (Scoring.score_commercial_capability m2).1
  ∧ ∀ m, employee_count (primary_dealer m) = None →
         5 ≤ (Scoring.score_commercial_capability m).1 ≤ 15.
Proof.
  intros H1 H2 Hle. split.
  - unfold Scoring.score_commercial_capability. rewrite H1, H2.
    destruct (Z.leb_spec 50 n1), (Z.leb_spec 50 n2),
      (Z.leb_spec 10 n1), (Z.leb_spec 10 n2),
      (Z.leb_spec 5 n1), (Z.leb_spec 5 n2); cbn [fst]; lia.
  - intros m Hm. unfold Scoring.score_commercial_capability. rewrite Hm.
    repeat case_match; cbn [fst]; lia.
Qed.

Lemma commercial_score_monotone_witness :
  (Scoring.score_commercial_capability (contractor_with_employees 7)).1
  ≤ (Scoring.score_commercial_capability (contractor_with_employees 60)).1
  ∧ ∀ m, employee_count (primary_dealer m) = None →
         5 ≤ (Scoring.score_commercial_capability m).1 ≤ 15.
Proof.
  apply (commercial_score_monotone (contractor_with_employees 7)
           (contractor_with_employees 60) 7 60).
  - reflexivity.
  - reflexivity.
  - lia.
Defined.
